(** * The MINIX kernel's message passing and scheduling (kernel/proc.c)

    A shallow embedding of [sys_call], [mini_send], [mini_receive],
    [mini_alert], [mini_notify], [ready], [unready], [sched], [pick_proc]
    and [lock_send], followed by the properties established about them.

    Pointers into the process table are represented by the process number
    of the slot they designate ([proc_addr] is the identity on this
    representation) and [NIL_PROC] by [None].  Pointers into the privilege
    table and into [notify_buffer] are array indices.  The tables themselves
    are total, as memory is.

    A process number names a slot of the table when [isokprocn] accepts it.
    The routines that [sys_call] calls are embedded for destinations of the
    table, which is what the kernel's own callers pass them.  [sys_call]
    takes its [src_dst] from a trap: where it makes a slot pointer of a
    number outside the table and reads through it, or hands such a number to
    a routine that does so without a check of its own, the access lies
    outside the array [proc] and the outcome is [Fault]. *)

From Stdlib Require Import ZArith List Bool Lia.
Import ListNotations.
Local Open Scope Z_scope.

(** ** Data model *)

(** Modelled from the spec: the [message] type of the MINIX headers, which
    [proc.c] includes but does not declare.  The fields are the ones section
    6 of the spec lists for a notification message; [m_rest] stands for the
    remaining payload. *)
Record message := {
  m_source : Z;
  m_type : Z;
  NOTIFY_ARG : Z;
  NOTIFY_TIMESTAMP : Z;
  NOTIFY_FLAGS : Z;
  m_rest : list Z
}.

(** The old-style notification fields [NOTIFY_SOURCE] and [NOTIFY_TYPE]
    overlay [m_source] and [m_type] ([mini_receive] tests [m.m_source] right
    after [BuildOldMess] has stored [NOTIFY_SOURCE]); below they are written
    [m_source] and [m_type]. *)

(** Modelled from the spec: the segments [T], [D], [S] of a memory map and
    [struct mem_map], in clicks, as the buffer check of [sys_call] uses
    them. *)
Inductive segment := SEG_T | SEG_D | SEG_S.

(** Modelled from the spec: [struct mem_map], one segment of a memory map. *)
Record mem_map := {
  mem_vir : Z;
  mem_phys : Z;
  mem_len : Z
}.

(** Modelled from the spec: [bitchunk_t], a chunk of a bit map, and
    [sys_map_t], the chunks of a map with one bit per system process. *)
Definition bitchunk_t := Z.

(** Modelled from the spec: [sys_map_t], see [bitchunk_t]. *)
Definition sys_map_t := list bitchunk_t.

(** Modelled from the spec: [struct proc] of [proc.h], one slot of the
    process table, with the fields section 3 of the spec lists and [proc.c]
    uses.  Pointers to slots are process numbers, [NIL_PROC] is [None]. *)
Record proc := {
  p_nr : Z;
  p_priv : Z;
  p_rts_flags : Z;
  p_priority : Z;
  p_max_priority : Z;
  p_full_quantums : Z;
  p_sched_ticks : Z;
  p_quantum_size : Z;
  p_memmap : segment -> mem_map;
  p_nextready : option Z;
  p_caller_q : option Z;
  p_q_link : option Z;
  p_messbuf : Z;
  p_getfrom : Z;
  p_sendto : Z;
  p_ntf_q : option Z
}.

(** Modelled from the spec: [struct priv] of [priv.h], a system privileges
    structure.  [s_stack_guard] holds the word the guard pointer
    designates. *)
Record priv := {
  s_proc_nr : Z;
  s_id : Z;
  s_flags : Z;
  s_call_mask : Z;
  s_send_mask : sys_map_t;
  s_notify_pending : sys_map_t;
  s_int_pending : Z;
  s_sig_pending : Z;
  s_stack_guard : Z
}.

(** Modelled from the spec: [struct notification], a record of the legacy
    notification queue; [n_next] is an index into [notify_buffer]. *)
Record notification := {
  n_source : Z;
  n_type : Z;
  n_flags : Z;
  n_arg : Z;
  n_next : option Z
}.

(** Modelled from the spec: the kernel's global data, declared in [glo.h]
    and [proc.h].  [umem p a] is the message stored at virtual address [a] of
    the data segment of slot [p]; [realtime] is the clock value [get_uptime]
    reports. *)
Record kstate := {
  proc_tab : Z -> proc;
  priv_tab : Z -> priv;
  rdy_head : Z -> option Z;
  rdy_tail : Z -> option Z;
  proc_ptr : Z;
  next_ptr : option Z;
  bill_ptr : option Z;
  notify_buffer : Z -> notification;
  notify_bitmap : list bitchunk_t;
  umem : Z -> Z -> message;
  realtime : Z
}.

(** Field updates. *)
Definition set_p_rts_flags (v : Z) (r : proc) : proc :=
  {| p_nr := p_nr r; p_priv := p_priv r; p_rts_flags := v;
     p_priority := p_priority r; p_max_priority := p_max_priority r;
     p_full_quantums := p_full_quantums r; p_sched_ticks := p_sched_ticks r;
     p_quantum_size := p_quantum_size r; p_memmap := p_memmap r;
     p_nextready := p_nextready r; p_caller_q := p_caller_q r;
     p_q_link := p_q_link r; p_messbuf := p_messbuf r;
     p_getfrom := p_getfrom r; p_sendto := p_sendto r;
     p_ntf_q := p_ntf_q r |}.
Definition set_p_priority (v : Z) (r : proc) : proc :=
  {| p_nr := p_nr r; p_priv := p_priv r; p_rts_flags := p_rts_flags r;
     p_priority := v; p_max_priority := p_max_priority r;
     p_full_quantums := p_full_quantums r; p_sched_ticks := p_sched_ticks r;
     p_quantum_size := p_quantum_size r; p_memmap := p_memmap r;
     p_nextready := p_nextready r; p_caller_q := p_caller_q r;
     p_q_link := p_q_link r; p_messbuf := p_messbuf r;
     p_getfrom := p_getfrom r; p_sendto := p_sendto r;
     p_ntf_q := p_ntf_q r |}.
Definition set_p_full_quantums (v : Z) (r : proc) : proc :=
  {| p_nr := p_nr r; p_priv := p_priv r; p_rts_flags := p_rts_flags r;
     p_priority := p_priority r; p_max_priority := p_max_priority r;
     p_full_quantums := v; p_sched_ticks := p_sched_ticks r;
     p_quantum_size := p_quantum_size r; p_memmap := p_memmap r;
     p_nextready := p_nextready r; p_caller_q := p_caller_q r;
     p_q_link := p_q_link r; p_messbuf := p_messbuf r;
     p_getfrom := p_getfrom r; p_sendto := p_sendto r;
     p_ntf_q := p_ntf_q r |}.
Definition set_p_sched_ticks (v : Z) (r : proc) : proc :=
  {| p_nr := p_nr r; p_priv := p_priv r; p_rts_flags := p_rts_flags r;
     p_priority := p_priority r; p_max_priority := p_max_priority r;
     p_full_quantums := p_full_quantums r; p_sched_ticks := v;
     p_quantum_size := p_quantum_size r; p_memmap := p_memmap r;
     p_nextready := p_nextready r; p_caller_q := p_caller_q r;
     p_q_link := p_q_link r; p_messbuf := p_messbuf r;
     p_getfrom := p_getfrom r; p_sendto := p_sendto r;
     p_ntf_q := p_ntf_q r |}.
Definition set_p_nextready (v : option Z) (r : proc) : proc :=
  {| p_nr := p_nr r; p_priv := p_priv r; p_rts_flags := p_rts_flags r;
     p_priority := p_priority r; p_max_priority := p_max_priority r;
     p_full_quantums := p_full_quantums r; p_sched_ticks := p_sched_ticks r;
     p_quantum_size := p_quantum_size r; p_memmap := p_memmap r;
     p_nextready := v; p_caller_q := p_caller_q r; p_q_link := p_q_link r;
     p_messbuf := p_messbuf r; p_getfrom := p_getfrom r;
     p_sendto := p_sendto r; p_ntf_q := p_ntf_q r |}.
Definition set_p_caller_q (v : option Z) (r : proc) : proc :=
  {| p_nr := p_nr r; p_priv := p_priv r; p_rts_flags := p_rts_flags r;
     p_priority := p_priority r; p_max_priority := p_max_priority r;
     p_full_quantums := p_full_quantums r; p_sched_ticks := p_sched_ticks r;
     p_quantum_size := p_quantum_size r; p_memmap := p_memmap r;
     p_nextready := p_nextready r; p_caller_q := v; p_q_link := p_q_link r;
     p_messbuf := p_messbuf r; p_getfrom := p_getfrom r;
     p_sendto := p_sendto r; p_ntf_q := p_ntf_q r |}.
Definition set_p_q_link (v : option Z) (r : proc) : proc :=
  {| p_nr := p_nr r; p_priv := p_priv r; p_rts_flags := p_rts_flags r;
     p_priority := p_priority r; p_max_priority := p_max_priority r;
     p_full_quantums := p_full_quantums r; p_sched_ticks := p_sched_ticks r;
     p_quantum_size := p_quantum_size r; p_memmap := p_memmap r;
     p_nextready := p_nextready r; p_caller_q := p_caller_q r; p_q_link := v;
     p_messbuf := p_messbuf r; p_getfrom := p_getfrom r;
     p_sendto := p_sendto r; p_ntf_q := p_ntf_q r |}.
Definition set_p_messbuf (v : Z) (r : proc) : proc :=
  {| p_nr := p_nr r; p_priv := p_priv r; p_rts_flags := p_rts_flags r;
     p_priority := p_priority r; p_max_priority := p_max_priority r;
     p_full_quantums := p_full_quantums r; p_sched_ticks := p_sched_ticks r;
     p_quantum_size := p_quantum_size r; p_memmap := p_memmap r;
     p_nextready := p_nextready r; p_caller_q := p_caller_q r;
     p_q_link := p_q_link r; p_messbuf := v; p_getfrom := p_getfrom r;
     p_sendto := p_sendto r; p_ntf_q := p_ntf_q r |}.
Definition set_p_getfrom (v : Z) (r : proc) : proc :=
  {| p_nr := p_nr r; p_priv := p_priv r; p_rts_flags := p_rts_flags r;
     p_priority := p_priority r; p_max_priority := p_max_priority r;
     p_full_quantums := p_full_quantums r; p_sched_ticks := p_sched_ticks r;
     p_quantum_size := p_quantum_size r; p_memmap := p_memmap r;
     p_nextready := p_nextready r; p_caller_q := p_caller_q r;
     p_q_link := p_q_link r; p_messbuf := p_messbuf r; p_getfrom := v;
     p_sendto := p_sendto r; p_ntf_q := p_ntf_q r |}.
Definition set_p_sendto (v : Z) (r : proc) : proc :=
  {| p_nr := p_nr r; p_priv := p_priv r; p_rts_flags := p_rts_flags r;
     p_priority := p_priority r; p_max_priority := p_max_priority r;
     p_full_quantums := p_full_quantums r; p_sched_ticks := p_sched_ticks r;
     p_quantum_size := p_quantum_size r; p_memmap := p_memmap r;
     p_nextready := p_nextready r; p_caller_q := p_caller_q r;
     p_q_link := p_q_link r; p_messbuf := p_messbuf r;
     p_getfrom := p_getfrom r; p_sendto := v; p_ntf_q := p_ntf_q r |}.
Definition set_p_ntf_q (v : option Z) (r : proc) : proc :=
  {| p_nr := p_nr r; p_priv := p_priv r; p_rts_flags := p_rts_flags r;
     p_priority := p_priority r; p_max_priority := p_max_priority r;
     p_full_quantums := p_full_quantums r; p_sched_ticks := p_sched_ticks r;
     p_quantum_size := p_quantum_size r; p_memmap := p_memmap r;
     p_nextready := p_nextready r; p_caller_q := p_caller_q r;
     p_q_link := p_q_link r; p_messbuf := p_messbuf r;
     p_getfrom := p_getfrom r; p_sendto := p_sendto r; p_ntf_q := v |}.
Definition set_s_notify_pending (v : sys_map_t) (r : priv) : priv :=
  {| s_proc_nr := s_proc_nr r; s_id := s_id r; s_flags := s_flags r;
     s_call_mask := s_call_mask r; s_send_mask := s_send_mask r;
     s_notify_pending := v; s_int_pending := s_int_pending r;
     s_sig_pending := s_sig_pending r; s_stack_guard := s_stack_guard r |}.
Definition set_s_int_pending (v : Z) (r : priv) : priv :=
  {| s_proc_nr := s_proc_nr r; s_id := s_id r; s_flags := s_flags r;
     s_call_mask := s_call_mask r; s_send_mask := s_send_mask r;
     s_notify_pending := s_notify_pending r; s_int_pending := v;
     s_sig_pending := s_sig_pending r; s_stack_guard := s_stack_guard r |}.
Definition set_s_sig_pending (v : Z) (r : priv) : priv :=
  {| s_proc_nr := s_proc_nr r; s_id := s_id r; s_flags := s_flags r;
     s_call_mask := s_call_mask r; s_send_mask := s_send_mask r;
     s_notify_pending := s_notify_pending r;
     s_int_pending := s_int_pending r; s_sig_pending := v;
     s_stack_guard := s_stack_guard r |}.
Definition set_n_flags (v : Z) (r : notification) : notification :=
  {| n_source := n_source r; n_type := n_type r; n_flags := v;
     n_arg := n_arg r; n_next := n_next r |}.
Definition set_n_arg (v : Z) (r : notification) : notification :=
  {| n_source := n_source r; n_type := n_type r; n_flags := n_flags r;
     n_arg := v; n_next := n_next r |}.
Definition set_n_next (v : option Z) (r : notification) : notification :=
  {| n_source := n_source r; n_type := n_type r; n_flags := n_flags r;
     n_arg := n_arg r; n_next := v |}.
Definition set_proc_tab (v : Z -> proc) (r : kstate) : kstate :=
  {| proc_tab := v; priv_tab := priv_tab r; rdy_head := rdy_head r;
     rdy_tail := rdy_tail r; proc_ptr := proc_ptr r; next_ptr := next_ptr r;
     bill_ptr := bill_ptr r; notify_buffer := notify_buffer r;
     notify_bitmap := notify_bitmap r; umem := umem r;
     realtime := realtime r |}.
Definition set_priv_tab (v : Z -> priv) (r : kstate) : kstate :=
  {| proc_tab := proc_tab r; priv_tab := v; rdy_head := rdy_head r;
     rdy_tail := rdy_tail r; proc_ptr := proc_ptr r; next_ptr := next_ptr r;
     bill_ptr := bill_ptr r; notify_buffer := notify_buffer r;
     notify_bitmap := notify_bitmap r; umem := umem r;
     realtime := realtime r |}.
Definition set_rdy_head (v : Z -> option Z) (r : kstate) : kstate :=
  {| proc_tab := proc_tab r; priv_tab := priv_tab r; rdy_head := v;
     rdy_tail := rdy_tail r; proc_ptr := proc_ptr r; next_ptr := next_ptr r;
     bill_ptr := bill_ptr r; notify_buffer := notify_buffer r;
     notify_bitmap := notify_bitmap r; umem := umem r;
     realtime := realtime r |}.
Definition set_rdy_tail (v : Z -> option Z) (r : kstate) : kstate :=
  {| proc_tab := proc_tab r; priv_tab := priv_tab r; rdy_head := rdy_head r;
     rdy_tail := v; proc_ptr := proc_ptr r; next_ptr := next_ptr r;
     bill_ptr := bill_ptr r; notify_buffer := notify_buffer r;
     notify_bitmap := notify_bitmap r; umem := umem r;
     realtime := realtime r |}.
Definition set_next_ptr (v : option Z) (r : kstate) : kstate :=
  {| proc_tab := proc_tab r; priv_tab := priv_tab r; rdy_head := rdy_head r;
     rdy_tail := rdy_tail r; proc_ptr := proc_ptr r; next_ptr := v;
     bill_ptr := bill_ptr r; notify_buffer := notify_buffer r;
     notify_bitmap := notify_bitmap r; umem := umem r;
     realtime := realtime r |}.
Definition set_bill_ptr (v : option Z) (r : kstate) : kstate :=
  {| proc_tab := proc_tab r; priv_tab := priv_tab r; rdy_head := rdy_head r;
     rdy_tail := rdy_tail r; proc_ptr := proc_ptr r; next_ptr := next_ptr r;
     bill_ptr := v; notify_buffer := notify_buffer r;
     notify_bitmap := notify_bitmap r; umem := umem r;
     realtime := realtime r |}.
Definition set_notify_buffer (v : Z -> notification) (r : kstate) : kstate :=
  {| proc_tab := proc_tab r; priv_tab := priv_tab r; rdy_head := rdy_head r;
     rdy_tail := rdy_tail r; proc_ptr := proc_ptr r; next_ptr := next_ptr r;
     bill_ptr := bill_ptr r; notify_buffer := v;
     notify_bitmap := notify_bitmap r; umem := umem r;
     realtime := realtime r |}.
Definition set_notify_bitmap (v : list Z) (r : kstate) : kstate :=
  {| proc_tab := proc_tab r; priv_tab := priv_tab r; rdy_head := rdy_head r;
     rdy_tail := rdy_tail r; proc_ptr := proc_ptr r; next_ptr := next_ptr r;
     bill_ptr := bill_ptr r; notify_buffer := notify_buffer r;
     notify_bitmap := v; umem := umem r; realtime := realtime r |}.
Definition set_umem (v : Z -> Z -> message) (r : kstate) : kstate :=
  {| proc_tab := proc_tab r; priv_tab := priv_tab r; rdy_head := rdy_head r;
     rdy_tail := rdy_tail r; proc_ptr := proc_ptr r; next_ptr := next_ptr r;
     bill_ptr := bill_ptr r; notify_buffer := notify_buffer r;
     notify_bitmap := notify_bitmap r; umem := v; realtime := realtime r |}.
Definition set_m_source (v : Z) (r : message) : message :=
  {| m_source := v; m_type := m_type r; NOTIFY_ARG := NOTIFY_ARG r;
     NOTIFY_TIMESTAMP := NOTIFY_TIMESTAMP r; NOTIFY_FLAGS := NOTIFY_FLAGS r;
     m_rest := m_rest r |}.
Definition set_m_type (v : Z) (r : message) : message :=
  {| m_source := m_source r; m_type := v; NOTIFY_ARG := NOTIFY_ARG r;
     NOTIFY_TIMESTAMP := NOTIFY_TIMESTAMP r; NOTIFY_FLAGS := NOTIFY_FLAGS r;
     m_rest := m_rest r |}.
Definition set_NOTIFY_ARG (v : Z) (r : message) : message :=
  {| m_source := m_source r; m_type := m_type r; NOTIFY_ARG := v;
     NOTIFY_TIMESTAMP := NOTIFY_TIMESTAMP r; NOTIFY_FLAGS := NOTIFY_FLAGS r;
     m_rest := m_rest r |}.
Definition set_NOTIFY_TIMESTAMP (v : Z) (r : message) : message :=
  {| m_source := m_source r; m_type := m_type r; NOTIFY_ARG := NOTIFY_ARG r;
     NOTIFY_TIMESTAMP := v; NOTIFY_FLAGS := NOTIFY_FLAGS r;
     m_rest := m_rest r |}.
Definition set_NOTIFY_FLAGS (v : Z) (r : message) : message :=
  {| m_source := m_source r; m_type := m_type r; NOTIFY_ARG := NOTIFY_ARG r;
     NOTIFY_TIMESTAMP := NOTIFY_TIMESTAMP r; NOTIFY_FLAGS := v;
     m_rest := m_rest r |}.

(** ** Constants and macros of the headers

    [proc.c] takes these from [kernel.h], [proc.h], [priv.h], [const.h] and
    [<minix/com.h>].  They are parameters of the development; [isemptyp] is
    the slot-is-free test, [cp_mess s m] is the message that arrives when
    [m] is copied on behalf of source [s], and [uninit_mess] is the content
    of an automatic [message] variable before it is assigned. *)
Class KernelParams := {
  NR_TASKS : Z;
  NR_PROCS : Z;
  NR_SYS_PROCS : Z;
  NR_SYS_CHUNKS : Z;
  BITCHUNK_BITS : Z;
  NR_SCHED_QUEUES : Z;
  IDLE_Q : Z;
  NR_NOTIFY_BUFS : Z;
  ANY : Z;
  HARDWARE : Z;
  SYSTEM : Z;
  SENDING : Z;
  RECEIVING : Z;
  PREEMPTIBLE : Z;
  BILLABLE : Z;
  RDY_Q_HEAD : Z;
  SEND : Z;
  RECEIVE : Z;
  SENDREC : Z;
  NOTIFY : Z;
  ALERT : Z;
  ECHO : Z;
  SYSCALL_FUNC : Z;
  SYSCALL_FLAGS : Z;
  NON_BLOCKING : Z;
  FRESH_ANSWER : Z;
  CLICK_SHIFT : Z;
  MESS_SIZE : Z;
  WORD_BITS : Z;
  STACK_GUARD : Z;
  OK : Z;
  ECALLDENIED : Z;
  EBADSRCDST : Z;
  EFAULT : Z;
  EDEADDST : Z;
  ELOCKED : Z;
  ENOTREADY : Z;
  EBADCALL : Z;
  ENOSPC : Z;
  QUANTUMS : Z -> Z;
  NOTIFY_FROM : Z -> Z;
  iskerneln : Z -> bool;
  isokprocn : Z -> bool;
  isemptyp : proc -> bool;
  cp_mess : Z -> message -> message;
  uninit_mess : message
}.

(** ** Outcomes

    A kernel routine either returns a value and a new state, or stops in
    [panic], or dereferences [NIL_PROC] or a pointer outside the process
    table, or one of its loops has not ended within the given number of
    iterations. *)
Inductive outcome (A : Type) : Type :=
| Done (a : A) (st : kstate)
| Panic (nr : Z)
| Fault
| Diverge.
Arguments Done {A} a st.
Arguments Panic {A} nr.
Arguments Fault {A}.
Arguments Diverge {A}.

(** Kernel routines are state transformers with an outcome. *)
Definition M (A : Type) : Type := kstate -> outcome A.

Definition ret {A} (a : A) : M A := fun st => Done a st.

Definition bind {A B} (m : M A) (k : A -> M B) : M B :=
  fun st =>
    match m st with
    | Done a st' => k a st'
    | Panic nr => Panic nr
    | Fault => Fault
    | Diverge => Diverge
    end.

Notation "x <- m ;; k" := (bind m (fun x => k))
  (at level 61, m at next level, right associativity).
Notation "m ;;; k" := (bind m (fun _ => k))
  (at level 61, right associativity).

(** Array update. *)
Definition upd {A} (f : Z -> A) (k : Z) (v : A) : Z -> A :=
  fun x => if x =? k then v else f x.

Fixpoint upd_nth (n : nat) (v : Z) (l : list Z) : list Z :=
  match l, n with
  | [], _ => []
  | _ :: t, O => v :: t
  | h :: t, S n' => h :: upd_nth n' v t
  end.

Definition opt_eqb (a : option Z) (b : option Z) : bool :=
  match a, b with
  | Some x, Some y => x =? y
  | None, None => true
  | _, _ => false
  end.

(** ** The kernel routines *)

Section Kernel.

Context {kp : KernelParams}.

(** *** Macros of [proc.h] and [priv.h] as the code uses them *)

(** Modelled from the spec: [proc_addr] of [proc.h], the slot of a process
    number; the identity, since slots are named by process numbers. *)
Definition proc_addr (n : Z) : Z := n.

(** Modelled from the spec: [proc_nr] of [proc.h], the [p_nr] field of a
    slot. *)
Definition proc_nr (st : kstate) (rp : Z) : Z := p_nr (proc_tab st rp).

(** Modelled from the spec: [priv(rp)] of [priv.h], the privilege structure
    of a slot, here as a pointer. *)
Definition priv_ptr (st : kstate) (rp : Z) : Z := p_priv (proc_tab st rp).

(** Modelled from the spec: [priv(rp)] of [priv.h], dereferenced.  Slots
    with the same [p_priv] share the structure. *)
Definition priv_of (st : kstate) (rp : Z) : priv := priv_tab st (priv_ptr st rp).

(** Modelled from the spec: [priv_addr] of [priv.h], the privilege
    structure with a given id. *)
Definition priv_addr (i : Z) : Z := i.

(** Modelled from the spec: [id_to_nr] of [priv.h], the process number
    recorded in the privilege structure with the given id. *)
Definition id_to_nr (st : kstate) (id : Z) : Z := s_proc_nr (priv_tab st (priv_addr id)).

(** Modelled from the spec: [nr_to_id] of [priv.h], the id of the privilege
    structure of the given process. *)
Definition nr_to_id (st : kstate) (nr : Z) : Z := s_id (priv_of st (proc_addr nr)).

(** Modelled from the spec: [iskernelp] of [proc.h], [iskerneln] of the
    slot's process number. *)
Definition iskernelp (st : kstate) (rp : Z) : bool := iskerneln (proc_nr st rp).

(** Modelled from the spec: [isemptyn] of [proc.h], [isemptyp] of the slot
    of the process number. *)
Definition isemptyn (st : kstate) (n : Z) : bool := isemptyp (proc_tab st (proc_addr n)).

(** Modelled from the spec: [get_uptime] of the clock task, the number of
    ticks since boot. *)
Definition get_uptime (st : kstate) : Z := realtime st.

(** Assignment through a slot pointer, a privilege pointer, a notification
    pointer. *)
Definition with_proc (rp : Z) (f : proc -> proc) (st : kstate) : kstate :=
  set_proc_tab (upd (proc_tab st) rp (f (proc_tab st rp))) st.

Definition with_priv (sp : Z) (f : priv -> priv) (st : kstate) : kstate :=
  set_priv_tab (upd (priv_tab st) sp (f (priv_tab st sp))) st.

Definition with_ntf (np : Z) (f : notification -> notification) (st : kstate) : kstate :=
  set_notify_buffer (upd (notify_buffer st) np (f (notify_buffer st np))) st.

(** Modelled from the spec: the bit map macro [MAP_CHUNK] of the kernel's
    [const.h], which is not part of [proc.c].  Bit [b] lives in chunk
    [b / BITCHUNK_BITS] at offset [b mod BITCHUNK_BITS], the layout
    [mini_receive] itself decodes.  A chunk beyond the end of the map reads
    as 0 and is not written. *)
Definition MAP_CHUNK (map : list bitchunk_t) (bit : Z) : bitchunk_t :=
  nth (Z.to_nat (bit / BITCHUNK_BITS)) map 0.

(** Modelled from the spec: the macro [CHUNK_OFFSET], see [MAP_CHUNK]. *)
Definition CHUNK_OFFSET (bit : Z) : Z := bit mod BITCHUNK_BITS.

(** Modelled from the spec: the macro [get_sys_bit] of [priv.h], the test
    of a bit of a system map. *)
Definition get_sys_bit (map : list bitchunk_t) (bit : Z) : bool :=
  negb (Z.land (MAP_CHUNK map bit) (Z.shiftl 1 (CHUNK_OFFSET bit)) =? 0).

(** Modelled from the spec: the macro [set_sys_bit] of [priv.h], which
    [mini_alert] uses to set bit [caller.priv.id] of a pending map. *)
Definition set_sys_bit (map : list bitchunk_t) (bit : Z) : list bitchunk_t :=
  upd_nth (Z.to_nat (bit / BITCHUNK_BITS))
          (Z.lor (MAP_CHUNK map bit) (Z.shiftl 1 (CHUNK_OFFSET bit))) map.

(** Modelled from the spec: the clearing of a bit, the counterpart of
    [set_sys_bit] that [free_bit] needs. *)
Definition unset_sys_bit (map : list bitchunk_t) (bit : Z) : list bitchunk_t :=
  upd_nth (Z.to_nat (bit / BITCHUNK_BITS))
          (Z.land (MAP_CHUNK map bit) (Z.lnot (Z.shiftl 1 (CHUNK_OFFSET bit)))) map.

(** Modelled from the spec: the search of [alloc_bit] for the lowest free
    bit among [n] bits from [bit] on. *)
Fixpoint alloc_scan (n : nat) (bit : Z) (map : list bitchunk_t) : option Z :=
  match n with
  | O => None
  | S n' => if get_sys_bit map bit then alloc_scan n' (bit + 1) map else Some bit
  end.

(** Modelled from the spec: [alloc_bit], defined outside [proc.c] and with
    [free_bit] the only mutator of [notify_bitmap].  It marks the lowest
    free bit below [nr_bits] and returns its number, or returns a negative
    number and leaves the map alone when every bit is taken. *)
Definition alloc_bit (map : list bitchunk_t) (nr_bits : Z) : Z * list bitchunk_t :=
  match alloc_scan (Z.to_nat nr_bits) 0 map with
  | Some bit => (bit, set_sys_bit map bit)
  | None => (-1, map)
  end.

(** Modelled from the spec: [free_bit], defined outside [proc.c]; it
    clears the bit of a notification buffer that is released. *)
Definition free_bit (bit_nr : Z) (map : list bitchunk_t) (nr_bits : Z) : list bitchunk_t :=
  unset_sys_bit map bit_nr.

(** [CopyMess(s, sp, sm, dp, dm)]: the message [m] read at [sm] in the
    space of [sp] lands, stamped by [cp_mess], at [dm] in the space of
    [dp]. *)
Definition CopyMess (s : Z) (m : message) (dp : Z) (dm : Z) (st : kstate) : kstate :=
  set_umem (upd (umem st) dp (upd (umem st dp) dm (cp_mess s m))) st.

(** [BuildMess(m_ptr, src, dst_ptr)]. *)
Definition BuildMess (m : message) (src : Z) (dst_ptr : Z) (st : kstate)
  : message * kstate :=
  let m := set_m_source src m in
  let m := set_m_type (NOTIFY_FROM src) m in
  let m := set_NOTIFY_TIMESTAMP (get_uptime st) m in
  if src =? HARDWARE then
    (set_NOTIFY_ARG (s_int_pending (priv_of st dst_ptr)) m,
     with_priv (priv_ptr st dst_ptr) (set_s_int_pending 0) st)
  else if src =? SYSTEM then
    (set_NOTIFY_ARG (s_sig_pending (priv_of st dst_ptr)) m,
     with_priv (priv_ptr st dst_ptr) (set_s_sig_pending 0) st)
  else (m, st).

(** [BuildOldMess(m, n)]. *)
Definition BuildOldMess (m : message) (n : notification) : message :=
  let m := set_m_source (n_source n) m in
  let m := set_m_type (n_type n) m in
  let m := set_NOTIFY_FLAGS (n_flags n) m in
  set_NOTIFY_ARG (n_arg n) m.

(** The test "is the destination blocked waiting for this message", written
    out in [mini_send], [mini_alert] and [mini_notify]. *)
Definition awaits (st : kstate) (dst_ptr caller_ptr : Z) : bool :=
  (Z.land (p_rts_flags (proc_tab st dst_ptr)) (Z.lor RECEIVING SENDING) =? RECEIVING)
  && ((p_getfrom (proc_tab st dst_ptr) =? ANY)
      || (p_getfrom (proc_tab st dst_ptr) =? p_nr (proc_tab st caller_ptr))).

(** *** pick_proc *)

Fixpoint pick_loop (n : nat) (q : Z) (st : kstate) : kstate :=
  match n with
  | O => st
  | S n' =>
      match rdy_head st q with
      | Some rp =>
          let st := set_next_ptr (Some rp) st in
          if Z.land (s_flags (priv_of st rp)) BILLABLE =? 0 then st
          else set_bill_ptr (Some rp) st
      | None => pick_loop n' (q + 1) st
      end
  end.

Definition pick_proc (st : kstate) : kstate :=
  pick_loop (Z.to_nat NR_SCHED_QUEUES) 0 st.

(** *** ready *)

Definition ready (rp : Z) : M unit := fun st =>
  let q := p_priority (proc_tab st rp) in
  match rdy_head st q with
  | None =>
      let st := set_rdy_tail (upd (rdy_tail st) q (Some rp)) st in
      let st := set_rdy_head (upd (rdy_head st) q (Some rp)) st in
      let st := with_proc rp (set_p_nextready None) st in
      Done tt (pick_proc st)
  | Some _ =>
      if negb (Z.land (s_flags (priv_of st rp)) RDY_Q_HEAD =? 0) then
        let st := with_proc rp (set_p_nextready (rdy_head st q)) st in
        let st := set_rdy_head (upd (rdy_head st) q (Some rp)) st in
        Done tt (pick_proc st)
      else
        match rdy_tail st q with
        | None => Fault
        | Some t =>
            let st := with_proc t (set_p_nextready (Some rp)) st in
            let st := set_rdy_tail (upd (rdy_tail st) q (Some rp)) st in
            let st := with_proc rp (set_p_nextready None) st in
            Done tt (pick_proc st)
        end
  end.

(** *** unready *)

(** A [struct proc **] walking a ready queue points either at a queue head
    or at the [p_nextready] field of a slot. *)
Inductive rdy_pp := RdyHead (q : Z) | NextReady (rp : Z).

Definition load_rdy (st : kstate) (xpp : rdy_pp) : option Z :=
  match xpp with
  | RdyHead q => rdy_head st q
  | NextReady rp => p_nextready (proc_tab st rp)
  end.

Definition store_rdy (xpp : rdy_pp) (v : option Z) (st : kstate) : kstate :=
  match xpp with
  | RdyHead q => set_rdy_head (upd (rdy_head st) q v) st
  | NextReady rp => with_proc rp (set_p_nextready v) st
  end.

Fixpoint unready_loop (fuel : nat) (rp q : Z) (xpp : rdy_pp) (prev_xp : option Z)
  (st : kstate) : outcome unit :=
  match fuel with
  | O => Diverge
  | S fuel' =>
      match load_rdy st xpp with
      | None => Done tt st
      | Some x =>
          if x =? rp then
            let st := store_rdy xpp (p_nextready (proc_tab st x)) st in
            let st := if opt_eqb (Some rp) (rdy_tail st q)
                      then set_rdy_tail (upd (rdy_tail st) q prev_xp) st else st in
            let st := if (rp =? proc_ptr st) || opt_eqb (Some rp) (next_ptr st)
                      then pick_proc st else st in
            Done tt st
          else unready_loop fuel' rp q (NextReady x) (Some x) st
      end
  end.

Definition unready (fuel : nat) (rp : Z) : M unit := fun st =>
  let q := p_priority (proc_tab st rp) in
  if iskernelp st rp && negb (s_stack_guard (priv_of st rp) =? STACK_GUARD)
  then Panic (proc_nr st rp)
  else
    (unready_loop fuel rp q (RdyHead q) None ;;;
     fun st =>
       let st := with_proc rp (fun p => set_p_priority (p_max_priority p) p) st in
       let st := with_proc rp (fun p => set_p_full_quantums (QUANTUMS (p_priority p)) p) st in
       Done tt st) st.

(** *** sched *)

(** The first part of [sched]: count the quantum and lower the priority of
    a process that used up its full quantums. *)
Definition sched_demote (fuel : nat) (sched_ptr : Z) : M unit := fun st =>
  let st := with_proc sched_ptr
              (fun p => set_p_full_quantums (p_full_quantums p - 1) p) st in
  if p_full_quantums (proc_tab st sched_ptr) <=? 0 then
    ((if p_priority (proc_tab st sched_ptr) + 1 <? IDLE_Q then
        let q := p_priority (proc_tab st sched_ptr) + 1 in
        unready fuel sched_ptr ;;;
        (fun st => ready sched_ptr (with_proc sched_ptr (set_p_priority q) st))
      else ret tt) ;;;
     (fun st =>
        Done tt (with_proc sched_ptr
                   (fun p => set_p_full_quantums (QUANTUMS (p_priority p)) p) st))) st
  else Done tt st.

(** The second part: move the head of the queue to its tail. *)
Definition sched_rotate (sched_ptr : Z) : M unit := fun st =>
  let q := p_priority (proc_tab st sched_ptr) in
  if opt_eqb (rdy_head st q) (Some sched_ptr) then
    match rdy_tail st q with
    | None => Fault
    | Some t =>
        let st := with_proc t (set_p_nextready (rdy_head st q)) st in
        let st := set_rdy_tail (upd (rdy_tail st) q (rdy_head st q)) st in
        match rdy_head st q with
        | None => Fault
        | Some h =>
            let st := set_rdy_head (upd (rdy_head st) q (p_nextready (proc_tab st h))) st in
            match rdy_tail st q with
            | None => Fault
            | Some t' => Done tt (with_proc t' (set_p_nextready None) st)
            end
        end
    end
  else Done tt st.

Definition sched (fuel : nat) (sched_ptr : Z) : M unit := fun st =>
  if Z.land (s_flags (priv_of st sched_ptr)) PREEMPTIBLE =? 0 then Done tt st
  else
    (sched_demote fuel sched_ptr ;;;
     sched_rotate sched_ptr ;;;
     (fun st =>
        let st := with_proc sched_ptr
                    (fun p => set_p_sched_ticks (p_quantum_size p) p) st in
        Done tt (pick_proc st))) st.

(** *** mini_send *)

(** The deadlock check: [Some true] when the walk meets the caller. *)
Fixpoint deadlock_loop (fuel : nat) (caller_ptr xp : Z) (st : kstate) : option bool :=
  match fuel with
  | O => None
  | S fuel' =>
      if Z.land (p_rts_flags (proc_tab st xp)) SENDING =? 0 then Some false
      else
        let xp := proc_addr (p_sendto (proc_tab st xp)) in
        if xp =? caller_ptr then Some true
        else deadlock_loop fuel' caller_ptr xp st
  end.

(** A [struct proc **] walking a caller queue. *)
Inductive caller_pp := CallerQ (rp : Z) | QLink (rp : Z).

Definition load_cq (st : kstate) (xpp : caller_pp) : option Z :=
  match xpp with
  | CallerQ rp => p_caller_q (proc_tab st rp)
  | QLink rp => p_q_link (proc_tab st rp)
  end.

Definition store_cq (xpp : caller_pp) (v : option Z) (st : kstate) : kstate :=
  match xpp with
  | CallerQ rp => with_proc rp (set_p_caller_q v) st
  | QLink rp => with_proc rp (set_p_q_link v) st
  end.

Fixpoint caller_q_end (fuel : nat) (xpp : caller_pp) (st : kstate) : option caller_pp :=
  match fuel with
  | O => None
  | S fuel' =>
      match load_cq st xpp with
      | None => Some xpp
      | Some x => caller_q_end fuel' (QLink x) st
      end
  end.

Definition mini_send (fuel : nat) (caller_ptr dst m_ptr flags : Z) : M Z := fun st =>
  let dst_ptr := proc_addr dst in
  match deadlock_loop fuel caller_ptr dst_ptr st with
  | None => Diverge
  | Some true => Done ELOCKED st
  | Some false =>
      if awaits st dst_ptr caller_ptr then
        let st := CopyMess (p_nr (proc_tab st caller_ptr)) (umem st caller_ptr m_ptr)
                    dst_ptr (p_messbuf (proc_tab st dst_ptr)) st in
        let st := with_proc dst_ptr
                    (fun p => set_p_rts_flags (Z.land (p_rts_flags p) (Z.lnot RECEIVING)) p)
                    st in
        ((if p_rts_flags (proc_tab st dst_ptr) =? 0 then ready dst_ptr else ret tt) ;;;
         ret OK) st
      else if Z.land flags NON_BLOCKING =? 0 then
        let st := with_proc caller_ptr (set_p_messbuf m_ptr) st in
        ((if p_rts_flags (proc_tab st caller_ptr) =? 0
          then unready fuel caller_ptr else ret tt) ;;;
         fun st =>
           let st := with_proc caller_ptr
                       (fun p => set_p_rts_flags (Z.lor (p_rts_flags p) SENDING) p) st in
           let st := with_proc caller_ptr (set_p_sendto dst) st in
           match caller_q_end fuel (CallerQ dst_ptr) st with
           | None => Diverge
           | Some xpp =>
               let st := store_cq xpp (Some caller_ptr) st in
               let st := with_proc caller_ptr (set_p_q_link None) st in
               Done OK st
           end) st
      else Done ENOTREADY st
  end.

(** *** mini_receive *)

(** The loop that looks up the lowest bit set in a chunk. *)
Fixpoint find_bit (fuel : nat) (chunk : bitchunk_t) (i : Z) : option Z :=
  match fuel with
  | O => None
  | S fuel' =>
      if Z.land chunk (Z.shiftl 1 i) =? 0 then find_bit fuel' chunk (i + 1)
      else Some i
  end.

Inductive scan_result :=
| ScanFound (c i src_proc_nr : Z)
| ScanNone
| ScanDiverge.

(** The scan of the pending map, chunk [c] onwards, [n] chunks left. *)
Fixpoint notify_scan (fuel : nat) (n : nat) (c : Z) (map : sys_map_t) (src : Z)
  (st : kstate) : scan_result :=
  match n with
  | O => ScanNone
  | S n' =>
      let chunk := nth (Z.to_nat c) map 0 in
      if chunk =? 0 then notify_scan fuel n' (c + 1) map src st
      else
        match find_bit fuel chunk 0 with
        | None => ScanDiverge
        | Some i =>
            let src_id := c * BITCHUNK_BITS + i in
            if src_id >=? NR_SYS_PROCS then ScanNone
            else
              let src_proc_nr := id_to_nr st src_id in
              if negb (src =? ANY) && negb (src =? src_proc_nr)
              then notify_scan fuel n' (c + 1) map src st
              else ScanFound c i src_proc_nr
        end
  end.

(** A [struct notification **] walking a notification queue. *)
Inductive ntf_pp := NtfQ (rp : Z) | NNext (np : Z).

Definition load_ntf (st : kstate) (pp : ntf_pp) : option Z :=
  match pp with
  | NtfQ rp => p_ntf_q (proc_tab st rp)
  | NNext np => n_next (notify_buffer st np)
  end.

Definition store_ntf (pp : ntf_pp) (v : option Z) (st : kstate) : kstate :=
  match pp with
  | NtfQ rp => with_proc rp (set_p_ntf_q v) st
  | NNext np => with_ntf np (set_n_next v) st
  end.

(** The walk over [p_ntf_q] in [mini_receive]: where a notification from an
    acceptable source sits, if any. *)
Fixpoint ntf_q_scan (fuel : nat) (ntf_q_pp : ntf_pp) (src : Z) (st : kstate)
  : option (option (ntf_pp * Z)) :=
  match fuel with
  | O => None
  | S fuel' =>
      match load_ntf st ntf_q_pp with
      | None => Some None
      | Some np =>
          if (src =? ANY) || (src =? n_source (notify_buffer st np))
          then Some (Some (ntf_q_pp, np))
          else ntf_q_scan fuel' (NNext np) src st
      end
  end.

(** The walk over [p_caller_q] in [mini_receive]. *)
Fixpoint caller_q_scan (fuel : nat) (xpp : caller_pp) (src : Z) (st : kstate)
  : option (option (caller_pp * Z)) :=
  match fuel with
  | O => None
  | S fuel' =>
      match load_cq st xpp with
      | None => Some None
      | Some x =>
          if (src =? ANY) || (src =? proc_nr st x)
          then Some (Some (xpp, x))
          else caller_q_scan fuel' (QLink x) src st
      end
  end.

(** The last part of [mini_receive]: block the caller, unless the flags
    forbid it. *)
Definition receive_block (fuel : nat) (caller_ptr src m_ptr flags : Z) : M Z := fun st =>
  if Z.land flags NON_BLOCKING =? 0 then
    let st := with_proc caller_ptr (set_p_getfrom src) st in
    let st := with_proc caller_ptr (set_p_messbuf m_ptr) st in
    ((if p_rts_flags (proc_tab st caller_ptr) =? 0
      then unready fuel caller_ptr else ret tt) ;;;
     fun st =>
       Done OK (with_proc caller_ptr
                  (fun p => set_p_rts_flags (Z.lor (p_rts_flags p) RECEIVING) p) st)) st
  else Done ENOTREADY st.

(** The caller queue part of [mini_receive]. *)
Definition receive_caller_q (fuel : nat) (caller_ptr src m_ptr flags : Z) : M Z := fun st =>
  match caller_q_scan fuel (CallerQ caller_ptr) src st with
  | None => Diverge
  | Some (Some (xpp, x)) =>
      let st := CopyMess (p_nr (proc_tab st x)) (umem st x (p_messbuf (proc_tab st x)))
                  caller_ptr m_ptr st in
      let st := with_proc x
                  (fun p => set_p_rts_flags (Z.land (p_rts_flags p) (Z.lnot SENDING)) p)
                  st in
      ((if p_rts_flags (proc_tab st x) =? 0 then ready x else ret tt) ;;;
       fun st => Done OK (store_cq xpp (p_q_link (proc_tab st x)) st)) st
  | Some None => receive_block fuel caller_ptr src m_ptr flags st
  end.

(** The [p_ntf_q] part of [mini_receive], compiled in under [TEMP_CODE]
    (the brace that closes the [FRESH_ANSWER] test is inside it). *)
Definition receive_ntf_q (fuel : nat) (caller_ptr src m_ptr flags : Z) : M Z := fun st =>
  match ntf_q_scan fuel (NtfQ caller_ptr) src st with
  | None => Diverge
  | Some (Some (ntf_q_pp, np)) =>
      let m := BuildOldMess uninit_mess (notify_buffer st np) in
      let '(m, st) :=
        if m_source m =? HARDWARE then
          (set_NOTIFY_ARG (s_int_pending (priv_of st caller_ptr)) m,
           with_priv (priv_ptr st caller_ptr) (set_s_int_pending 0) st)
        else (m, st) in
      let st := CopyMess (n_source (notify_buffer st np)) m caller_ptr m_ptr st in
      let bit_nr := np in
      let st := store_ntf ntf_q_pp (n_next (notify_buffer st np)) st in
      let st := set_notify_bitmap (free_bit bit_nr (notify_bitmap st) NR_NOTIFY_BUFS) st in
      Done OK st
  | Some None => receive_caller_q fuel caller_ptr src m_ptr flags st
  end.

Definition mini_receive (fuel : nat) (caller_ptr src m_ptr flags : Z) : M Z := fun st =>
  if Z.land (p_rts_flags (proc_tab st caller_ptr)) SENDING =? 0 then
    if Z.land flags FRESH_ANSWER =? 0 then
      let map := s_notify_pending (priv_of st caller_ptr) in
      match notify_scan fuel (Z.to_nat NR_SYS_CHUNKS) 0 map src st with
      | ScanDiverge => Diverge
      | ScanFound c i src_proc_nr =>
          let st := with_priv (priv_ptr st caller_ptr)
                      (fun sp => set_s_notify_pending
                         (upd_nth (Z.to_nat c)
                            (Z.land (nth (Z.to_nat c) (s_notify_pending sp) 0)
                                    (Z.lnot (Z.shiftl 1 i)))
                            (s_notify_pending sp)) sp) st in
          let '(m, st) := BuildMess uninit_mess src_proc_nr caller_ptr st in
          let st := CopyMess src_proc_nr m caller_ptr m_ptr st in
          Done OK st
      | ScanNone => receive_ntf_q fuel caller_ptr src m_ptr flags st
      end
    else receive_caller_q fuel caller_ptr src m_ptr flags st
  else receive_block fuel caller_ptr src m_ptr flags st.

(** *** mini_alert

    [dst] is taken to be a process number of the table; the routine turns
    it into a slot pointer and reads the slot without a check. *)
Definition mini_alert (caller_ptr dst : Z) : M Z := fun st =>
  let dst_ptr := proc_addr dst in
  if awaits st dst_ptr caller_ptr then
    let '(m, st) := BuildMess uninit_mess (proc_nr st caller_ptr) dst_ptr st in
    let st := CopyMess (proc_nr st caller_ptr) m dst_ptr
                (p_messbuf (proc_tab st dst_ptr)) st in
    let st := with_proc dst_ptr
                (fun p => set_p_rts_flags (Z.land (p_rts_flags p) (Z.lnot RECEIVING)) p)
                st in
    ((if p_rts_flags (proc_tab st dst_ptr) =? 0 then ready dst_ptr else ret tt) ;;;
     ret OK) st
  else
    let src_id := s_id (priv_of st caller_ptr) in
    let st := with_priv (priv_ptr st dst_ptr)
                (fun sp => set_s_notify_pending
                             (set_sys_bit (s_notify_pending sp) src_id) sp) st in
    Done OK st.

(** *** mini_notify *)

(** The walk over the destination's [p_ntf_q]: the record with the same
    type and source ([inr]), or the link that ends the queue ([inl]). *)
Fixpoint ntf_q_find (fuel : nat) (ntf_q_pp : ntf_pp) (type source : Z) (st : kstate)
  : option (ntf_pp + Z) :=
  match fuel with
  | O => None
  | S fuel' =>
      match load_ntf st ntf_q_pp with
      | None => Some (inl ntf_q_pp)
      | Some np =>
          if (n_type (notify_buffer st np) =? type)
             && (n_source (notify_buffer st np) =? source)
          then Some (inr np)
          else ntf_q_find fuel' (NNext np) type source st
      end
  end.

(** The message [mini_notify] queues: the caller's own buffer for a kernel
    task, a copy of it otherwise. *)
Definition notify_mess (st : kstate) (caller_ptr m_ptr : Z) : message :=
  if negb (iskernelp st caller_ptr)
  then cp_mess (proc_nr st caller_ptr) (umem st caller_ptr m_ptr)
  else umem st caller_ptr m_ptr.

Definition mini_notify (fuel : nat) (caller_ptr dst m_ptr : Z) : M Z := fun st =>
  let dst_ptr := proc_addr dst in
  if awaits st dst_ptr caller_ptr then
    let st :=
      if proc_nr st caller_ptr =? HARDWARE then
        let st' := set_umem
                     (upd (umem st) caller_ptr
                        (upd (umem st caller_ptr) m_ptr
                           (set_NOTIFY_ARG (s_int_pending (priv_of st dst_ptr))
                              (umem st caller_ptr m_ptr)))) st in
        with_priv (priv_ptr st' dst_ptr) (set_s_int_pending 0) st'
      else st in
    let st := CopyMess (proc_nr st caller_ptr) (umem st caller_ptr m_ptr) dst_ptr
                (p_messbuf (proc_tab st dst_ptr)) st in
    let st := with_proc dst_ptr
                (fun p => set_p_rts_flags (Z.land (p_rts_flags p) (Z.lnot RECEIVING)) p)
                st in
    ((if p_rts_flags (proc_tab st dst_ptr) =? 0 then ready dst_ptr else ret tt) ;;;
     ret OK) st
  else
    let m := notify_mess st caller_ptr m_ptr in
    match ntf_q_find fuel (NtfQ dst_ptr) (m_type m) (proc_nr st caller_ptr) st with
    | None => Diverge
    | Some (inr np) =>
        let st := with_ntf np (set_n_flags (NOTIFY_FLAGS m)) st in
        let st := with_ntf np (set_n_arg (NOTIFY_ARG m)) st in
        Done OK st
    | Some (inl ntf_q_pp) =>
        let '(ntf_index, bitmap) := alloc_bit (notify_bitmap st) NR_NOTIFY_BUFS in
        let st := set_notify_bitmap bitmap st in
        if ntf_index <? 0 then Done ENOSPC st
        else
          let ntf_p := ntf_index in
          let st := with_ntf ntf_p
                      (fun n => {| n_source := proc_nr st caller_ptr;
                                   n_type := m_type m;
                                   n_flags := NOTIFY_FLAGS m;
                                   n_arg := NOTIFY_ARG m;
                                   n_next := n_next n |}) st in
          let st := store_ntf ntf_q_pp (Some ntf_p) st in
          let st := with_ntf ntf_p (set_n_next None) st in
          Done OK st
    end.

(** *** sys_call *)

(** A line printed by [kprintf]: the caller and the destination of a send
    the send mask denied. *)
Definition kmsg : Type := Z * Z.

Definition wrap (x : Z) : Z := x mod 2 ^ WORD_BITS.

(** The message buffer check of [sys_call]. *)
Definition bad_buffer (st : kstate) (caller_ptr m_ptr : Z) : bool :=
  let vb := wrap m_ptr in
  let vlo := Z.shiftr vb CLICK_SHIFT in
  let vhi := Z.shiftr (wrap (vb + MESS_SIZE - 1)) CLICK_SHIFT in
  (vlo <? mem_vir (p_memmap (proc_tab st caller_ptr) SEG_D))
  || (vlo >? vhi)
  || (vhi >=? wrap (mem_vir (p_memmap (proc_tab st caller_ptr) SEG_S)
                    + mem_len (p_memmap (proc_tab st caller_ptr) SEG_S))).

(** The checks [sys_call] makes before it performs the request: how the
    call ends and what was printed, or [None] when the call passes.

    The endpoint check lets [ANY] through whatever the function is.  For a
    function with the [SEND] bit the send mask test then evaluates
    [nr_to_id (src_dst)], that is [priv (proc_addr (src_dst))->s_id]: for a
    number outside the table this reads outside the array [proc]. *)
Definition sys_call_check (call_nr src_dst m_ptr : Z) (st : kstate)
  : option (outcome Z * list kmsg) :=
  let caller_ptr := proc_ptr st in
  let function := Z.land call_nr SYSCALL_FUNC in
  if (Z.land (s_call_mask (priv_of st caller_ptr)) (Z.shiftl 1 function) =? 0)
     || (iskerneln src_dst && negb (function =? SENDREC))
  then Some (Done ECALLDENIED st, [])
  else if negb (isokprocn src_dst || (src_dst =? ANY) || (function =? ECHO))
  then Some (Done EBADSRCDST st, [])
  else if negb (Z.land function SENDREC =? 0) && bad_buffer st caller_ptr m_ptr
  then Some (Done EFAULT st, [])
  else if negb (Z.land function SEND =? 0) then
    if negb (isokprocn src_dst) then Some (Fault, [])
    else if negb (get_sys_bit (s_send_mask (priv_of st caller_ptr)) (nr_to_id st src_dst))
    then Some (Done ECALLDENIED st, [(proc_nr st caller_ptr, src_dst)])
    else if isemptyn st src_dst then Some (Done EDEADDST st, [])
    else None
  else None.

(** The [switch] of [sys_call].

    The destination of a [SEND], [SENDREC] or [NOTIFY] has been looked up by
    the send checks when the switch is reached (the comment on the checks
    names these three as the functions with the [SEND] bit).  The one of an
    [ALERT] has not: [mini_alert] makes a slot pointer of whatever the
    endpoint check let through, [ANY] included, and reads through it. *)
Definition sys_call_switch (fuel : nat) (call_nr src_dst m_ptr : Z) : M Z := fun st =>
  let caller_ptr := proc_ptr st in
  let function := Z.land call_nr SYSCALL_FUNC in
  let flags := Z.land call_nr SYSCALL_FLAGS in
  if (function =? SENDREC) || (function =? SEND) then
    (result <- mini_send fuel caller_ptr src_dst m_ptr flags ;;
     if (function =? SEND) || negb (result =? OK) then ret result
     else mini_receive fuel caller_ptr src_dst m_ptr flags) st
  else if function =? RECEIVE then
    mini_receive fuel caller_ptr src_dst m_ptr flags st
  else if function =? ALERT then
    if isokprocn src_dst then mini_alert caller_ptr src_dst st else Fault
  else if function =? NOTIFY then
    mini_notify fuel caller_ptr src_dst m_ptr st
  else if function =? ECHO then
    Done OK (CopyMess (p_nr (proc_tab st caller_ptr)) (umem st caller_ptr m_ptr)
               caller_ptr m_ptr st)
  else Done EBADCALL st.

(** [sys_call]: the result and what [kprintf] printed. *)
Definition sys_call (fuel : nat) (call_nr src_dst m_ptr : Z) (st : kstate)
  : outcome Z * list kmsg :=
  match sys_call_check call_nr src_dst m_ptr st with
  | Some ended => ended
  | None => (sys_call_switch fuel call_nr src_dst m_ptr st, [])
  end.

(** *** lock_send

    [lock] and [unlock] switch the processor's interrupts off and on around
    the call; they touch none of the kernel's data. *)
Definition lock_send (fuel : nat) (dst m_ptr : Z) : M Z := fun st =>
  mini_send fuel (proc_ptr st) dst m_ptr NON_BLOCKING st.

(** ** Vocabulary of the statements *)

(** The list a linked chain stands for: [lseg next h l e] holds when
    following [next] from the pointer [h] visits exactly the elements of
    [l] and arrives at the pointer [e]; a [chain] is a segment that ends in
    a null pointer. *)
Fixpoint lseg (next : Z -> option Z) (h : option Z) (l : list Z) (e : option Z) : Prop :=
  match l with
  | [] => h = e
  | x :: l' => h = Some x /\ lseg next (next x) l' e
  end.

Definition chain (next : Z -> option Z) (h : option Z) (l : list Z) : Prop :=
  lseg next h l None.

Definition nextready_of (st : kstate) (rp : Z) : option Z := p_nextready (proc_tab st rp).

Definition q_link_of (st : kstate) (rp : Z) : option Z := p_q_link (proc_tab st rp).

Definition n_next_of (st : kstate) (np : Z) : option Z := n_next (notify_buffer st np).

(** Ready queue [q] holds the slots [l], in this order. *)
Definition rdy_queue (st : kstate) (q : Z) (l : list Z) : Prop :=
  chain (nextready_of st) (rdy_head st q) l
  /\ NoDup l
  /\ (l <> [] -> rdy_tail st q = Some (last l 0)).

(** The ready queues hold the slots [L q], and no slot is on two queues. *)
Definition rdy_queues (st : kstate) (L : Z -> list Z) : Prop :=
  (forall q, rdy_queue st q (L q))
  /\ (forall q q' x, In x (L q) -> In x (L q') -> q = q').

(** Where [ready] puts a slot on a queue that holds [l]. *)
Definition ready_list (st : kstate) (rp : Z) (l : list Z) : list Z :=
  match l with
  | [] => [rp]
  | _ :: _ =>
      if negb (Z.land (s_flags (priv_of st rp)) RDY_Q_HEAD =? 0)
      then rp :: l else l ++ [rp]
  end.

(** What a slot holds apart from its ready-queue link. *)
Definition unlinked (p : proc) : proc := set_p_nextready None p.

(** Two states that differ at most in the ready queues and in the elected
    pointers. *)
Definition same_but_queues (st st' : kstate) : Prop :=
  (forall x, unlinked (proc_tab st' x) = unlinked (proc_tab st x))
  /\ priv_tab st' = priv_tab st
  /\ proc_ptr st' = proc_ptr st
  /\ notify_buffer st' = notify_buffer st
  /\ notify_bitmap st' = notify_bitmap st
  /\ umem st' = umem st
  /\ realtime st' = realtime st.

(** [pick_proc] elects [rp], the head of the first queue that is not
    empty. *)
Definition elects (st : kstate) (q rp : Z) : Prop :=
  0 <= q < NR_SCHED_QUEUES
  /\ rdy_head st q = Some rp
  /\ (forall q', 0 <= q' < q -> rdy_head st q' = None).

(** Two states that differ at most in [next_ptr] and [bill_ptr]. *)
Definition same_but_elected (st st' : kstate) : Prop :=
  proc_tab st' = proc_tab st
  /\ priv_tab st' = priv_tab st
  /\ rdy_head st' = rdy_head st
  /\ rdy_tail st' = rdy_tail st
  /\ proc_ptr st' = proc_ptr st
  /\ notify_buffer st' = notify_buffer st
  /\ notify_bitmap st' = notify_bitmap st
  /\ umem st' = umem st
  /\ realtime st' = realtime st.

(** Slot [xp] is blocked sending. *)
Definition is_sending (st : kstate) (xp : Z) : Prop :=
  Z.land (p_rts_flags (proc_tab st xp)) SENDING <> 0.

(** [sending_path st x y]: [x] is [SENDING], and following [p_sendto] from
    [x], one or more times and through [SENDING] slots only, leads to
    [y]. *)
Inductive sending_path (st : kstate) : Z -> Z -> Prop :=
| sending_path_one x :
    is_sending st x -> sending_path st x (p_sendto (proc_tab st x))
| sending_path_more x y :
    is_sending st x -> sending_path st (p_sendto (proc_tab st x)) y ->
    sending_path st x y.

(** The invariant on [SENDING] chains: none leads back to where it
    started. *)
Definition acyclic (st : kstate) : Prop := forall x, ~ sending_path st x x.

(** The slot reached from [xp] after [n] steps along [p_sendto]. *)
Fixpoint sendto_chain (st : kstate) (xp : Z) (n : nat) : Z :=
  match n with
  | O => xp
  | S n' => p_sendto (proc_tab st (sendto_chain st xp n'))
  end.

(** The process numbers of the table's slots, and how many there are. *)
Definition is_slot (n : Z) : Prop := - NR_TASKS <= n < NR_PROCS.

Definition nr_slots : nat := Z.to_nat (NR_TASKS + NR_PROCS).

(** Every [SENDING] slot sends to a slot of the table. *)
Definition sendto_in_table (st : kstate) : Prop :=
  forall x, is_slot x -> is_sending st x -> is_slot (p_sendto (proc_tab st x)).

(** The state in which a rendezvous leaves the destination before it is
    made ready: the message lies in its buffer and [RECEIVING] is off. *)
Definition delivered (st : kstate) (s : Z) (m : message) (dst_ptr : Z) : kstate :=
  with_proc dst_ptr
    (fun p => set_p_rts_flags (Z.land (p_rts_flags p) (Z.lnot RECEIVING)) p)
    (CopyMess s m dst_ptr (p_messbuf (proc_tab st dst_ptr)) st).

(** What [sys_call] requires of a trap, check by check. *)
Definition may_call (st : kstate) (function src_dst : Z) : Prop :=
  Z.land (s_call_mask (priv_of st (proc_ptr st))) (Z.shiftl 1 function) <> 0
  /\ (iskerneln src_dst = true -> function = SENDREC).

Definition endpoint_ok (function src_dst : Z) : Prop :=
  isokprocn src_dst = true \/ src_dst = ANY \/ function = ECHO.

Definition buffer_ok (st : kstate) (function m_ptr : Z) : Prop :=
  Z.land function SENDREC <> 0 -> bad_buffer st (proc_ptr st) m_ptr = false.

(** The send checks look up a slot of the table. *)
Definition dst_in_table (function src_dst : Z) : Prop :=
  Z.land function SEND <> 0 -> isokprocn src_dst = true.

(** The send mask test passes: the destination is a slot of the table and
    the caller's send mask has its bit. *)
Definition may_send (st : kstate) (function src_dst : Z) : Prop :=
  Z.land function SEND <> 0 ->
  isokprocn src_dst = true
  /\ get_sys_bit (s_send_mask (priv_of st (proc_ptr st))) (nr_to_id st src_dst) = true.

Definition dst_alive (st : kstate) (function src_dst : Z) : Prop :=
  Z.land function SEND <> 0 -> isemptyn st src_dst = false.

Definition known_function (function : Z) : Prop :=
  function = SENDREC \/ function = SEND \/ function = RECEIVE
  \/ function = ALERT \/ function = NOTIFY \/ function = ECHO.

(** [n] alerts in a row from [caller_ptr] to [dst]. *)
Fixpoint alerts (n : nat) (caller_ptr dst : Z) : M Z :=
  match n with
  | O => ret OK
  | S n' => mini_alert caller_ptr dst ;;; alerts n' caller_ptr dst
  end.

(** The pending map of a slot. *)
Definition pending_of (st : kstate) (rp : Z) : sys_map_t :=
  s_notify_pending (priv_of st rp).

(** A system bit map as the kernel lays it out: [NR_SYS_CHUNKS] chunks of
    [BITCHUNK_BITS] bits each, enough for [NR_SYS_PROCS] bits. *)
Definition sys_map_ok (map : sys_map_t) : Prop :=
  0 < BITCHUNK_BITS
  /\ NR_SYS_PROCS <= NR_SYS_CHUNKS * BITCHUNK_BITS
  /\ Z.of_nat (length map) = NR_SYS_CHUNKS
  /\ (forall chunk, In chunk map -> 0 <= chunk < 2 ^ BITCHUNK_BITS).


(** The link that ends a notification queue which starts at [pp] and holds
    the records [l]. *)
Definition ntf_q_last (pp : ntf_pp) (l : list Z) : ntf_pp :=
  match l with
  | [] => pp
  | _ :: _ => NNext (last l 0)
  end.

(** The link a walk over ready queue [q] has reached once it has passed
    the slots [l], and the slot it passed last. *)
Definition rdy_pos (q : Z) (l : list Z) : rdy_pp :=
  match l with
  | [] => RdyHead q
  | _ :: _ => NextReady (last l 0)
  end.

Definition rdy_prev (l : list Z) : option Z :=
  match l with
  | [] => None
  | _ :: _ => Some (last l 0)
  end.

(** What [unready] does once its walk, having passed the slots [l0], finds
    [rp]: unlink it, move the tail back, elect anew. *)
Definition unlink (rp q : Z) (l0 : list Z) (st : kstate) : kstate :=
  let st := store_rdy (rdy_pos q l0) (p_nextready (proc_tab st rp)) st in
  let st := if opt_eqb (Some rp) (rdy_tail st q)
            then set_rdy_tail (upd (rdy_tail st) q (rdy_prev l0)) st else st in
  if (rp =? proc_ptr st) || opt_eqb (Some rp) (next_ptr st)
  then pick_proc st else st.

(** A queue with its head [sp] moved to the tail; any other queue as it
    is. *)
Definition rotate (sp : Z) (l : list Z) : list Z :=
  match l with
  | [] => []
  | a :: l' => if a =? sp then l' ++ [sp] else l
  end.

(** What a slot holds apart from its scheduling fields. *)
Definition unscheduled (p : proc) : proc :=
  set_p_sched_ticks 0 (set_p_full_quantums 0 (set_p_priority 0 (set_p_nextready None p))).

(** Two states that differ at most in the ready queues, the elected
    pointers and the scheduling fields of slot [sp]. *)
Definition same_but_sched (sp : Z) (st st' : kstate) : Prop :=
  (forall x, x <> sp -> unlinked (proc_tab st' x) = unlinked (proc_tab st x))
  /\ unscheduled (proc_tab st' sp) = unscheduled (proc_tab st sp)
  /\ priv_tab st' = priv_tab st
  /\ proc_ptr st' = proc_ptr st
  /\ notify_buffer st' = notify_buffer st
  /\ notify_bitmap st' = notify_bitmap st
  /\ umem st' = umem st
  /\ realtime st' = realtime st.

End Kernel.

(** ** The remaining gateways *)

Section Gateways.

Context {kp : KernelParams}.

(** *** lock_alert

    [k_reenter] is a variable of the interrupt layer, which [proc.c] reads
    and never writes; it is passed in.  On both sides of the test the same
    call is made, with interrupts off. *)
Definition lock_alert (k_reenter : Z) (src dst : Z) : M Z := fun st =>
  if k_reenter >=? 0 then mini_alert (proc_addr src) dst st
  else mini_alert (proc_addr src) dst st.

(** *** lock_ready *)
Definition lock_ready (rp : Z) : M unit := fun st => ready rp st.

(** *** lock_unready *)
Definition lock_unready (fuel : nat) (rp : Z) : M unit := fun st => unready fuel rp st.

(** *** lock_sched *)
Definition lock_sched (fuel : nat) (sched_ptr : Z) : M unit := fun st =>
  sched fuel sched_ptr st.

(** ** More vocabulary *)

(** Every queued slot is on the queue of its priority. *)
Definition queued_by_priority (st : kstate) (L : Z -> list Z) : Prop :=
  forall q x, In x (L q) -> p_priority (proc_tab st x) = q.

(** The process [bill_ptr] names, if any, is [BILLABLE]. *)
Definition bills_billable (st : kstate) : Prop :=
  forall b, bill_ptr st = Some b -> Z.land (s_flags (priv_of st b)) BILLABLE <> 0.

(** The caller queue of slot [rp] holds the slots [l], in this order. *)
Definition caller_queue (st : kstate) (rp : Z) (l : list Z) : Prop :=
  chain (q_link_of st) (p_caller_q (proc_tab st rp)) l.

(** The notification queue of slot [rp] holds the records [l], in this
    order. *)
Definition ntf_queue (st : kstate) (rp : Z) (l : list Z) : Prop :=
  chain (n_next_of st) (p_ntf_q (proc_tab st rp)) l.

(** The link that ends a caller queue which starts at [xpp] and holds the
    slots [l]. *)
Definition cq_pos (xpp : caller_pp) (l : list Z) : caller_pp :=
  match l with
  | [] => xpp
  | _ :: _ => QLink (last l 0)
  end.

(** [mini_receive] accepts a message from slot [x] when asked for [src]. *)
Definition accepts (st : kstate) (src x : Z) : bool :=
  (src =? ANY) || (src =? proc_nr st x).

(** [mini_receive] accepts the notification record [np] when asked for
    [src]. *)
Definition accepts_ntf (st : kstate) (src np : Z) : bool :=
  (src =? ANY) || (src =? n_source (notify_buffer st np)).

(** No notification is pending in the map, whatever its length. *)
Definition none_pending (map : sys_map_t) : Prop :=
  forall c, nth c map 0 = 0.

(** [mini_receive] finds no notification to deliver: the call is the
    receiving half of a [SENDREC], or no bit is pending and the notification
    queue, which holds the records [ln], has none from an acceptable
    source. *)
Definition no_notification (st : kstate) (caller src flags : Z) (ln : list Z) : Prop :=
  Z.land flags FRESH_ANSWER <> 0
  \/ (none_pending (pending_of st caller)
      /\ ntf_queue st caller ln
      /\ forall np, In np ln -> accepts_ntf st src np = false).

(** What a slot holds apart from its links into the ready queues and the
    caller queues. *)
Definition unqueued (p : proc) : proc :=
  set_p_q_link None (set_p_caller_q None (set_p_nextready None p)).

(** What a slot holds apart from the fields that [mini_send] writes when
    it blocks the slot, and the scheduling fields. *)
Definition unsent (p : proc) : proc :=
  set_p_messbuf 0
    (set_p_sendto 0 (set_p_rts_flags 0 (set_p_q_link None (unscheduled p)))).

(** What a slot holds apart from the fields that [mini_receive] writes
    when it blocks the slot, and the scheduling fields. *)
Definition unreceived (p : proc) : proc :=
  set_p_messbuf 0 (set_p_getfrom 0 (set_p_rts_flags 0 (unscheduled p))).

End Gateways.

(** ** A configuration and states to test the statements on

    The values follow the MINIX 3 headers: four kernel tasks, 16-bit bit
    chunks, 32 system processes, 16 scheduling queues.  The numbers of
    [NOTIFY], [ALERT] and [ECHO] are chosen to agree with the bit tests of
    [sys_call]: [NOTIFY] has the [SEND] bit, [ECHO] has a [SENDREC] bit
    but not the [SEND] bit, [ALERT] has neither. *)
Module Examples.

#[export] Instance minix : KernelParams := {|
  NR_TASKS := 4;
  NR_PROCS := 64;
  NR_SYS_PROCS := 32;
  NR_SYS_CHUNKS := 2;
  BITCHUNK_BITS := 16;
  NR_SCHED_QUEUES := 16;
  IDLE_Q := 15;
  NR_NOTIFY_BUFS := 32;
  ANY := 31438;
  HARDWARE := -1;
  SYSTEM := -2;
  SENDING := 4;
  RECEIVING := 8;
  PREEMPTIBLE := 1;
  BILLABLE := 4;
  RDY_Q_HEAD := 2;
  SEND := 1;
  RECEIVE := 2;
  SENDREC := 3;
  NOTIFY := 5;
  ALERT := 4;
  ECHO := 10;
  SYSCALL_FUNC := 15;
  SYSCALL_FLAGS := 240;
  NON_BLOCKING := 16;
  FRESH_ANSWER := 32;
  CLICK_SHIFT := 12;
  MESS_SIZE := 36;
  WORD_BITS := 32;
  STACK_GUARD := 3735928559;
  OK := 0;
  ECALLDENIED := -104;
  EBADSRCDST := -103;
  EFAULT := -14;
  EDEADDST := -105;
  ELOCKED := -101;
  ENOTREADY := -106;
  EBADCALL := -102;
  ENOSPC := -28;
  QUANTUMS := fun q => 1 + (16 - q) / 2;
  NOTIFY_FROM := fun p_nr => Z.lor 4096 (p_nr + 4);
  iskerneln := fun n => n <? 0;
  isokprocn := fun n => (0 <=? n + 4) && (n + 4 <? 68);
  isemptyp := fun p => p_rts_flags p =? 1;
  cp_mess := fun s m => set_m_source s m;
  uninit_mess := {| m_source := 0; m_type := 0; NOTIFY_ARG := 0;
                    NOTIFY_TIMESTAMP := 0; NOTIFY_FLAGS := 0; m_rest := [] |}
|}.

Definition mess0 : message :=
  {| m_source := 0; m_type := 0; NOTIFY_ARG := 0;
     NOTIFY_TIMESTAMP := 0; NOTIFY_FLAGS := 0; m_rest := [] |}.

Definition map0 (_ : segment) : mem_map :=
  {| mem_vir := 0; mem_phys := 0; mem_len := 256 |}.

(** Slot [n]: runnable, user priority, privilege structure [n + 4]. *)
Definition slot0 (n : Z) : proc :=
  {| p_nr := n; p_priv := n + 4; p_rts_flags := 0; p_priority := 7;
     p_max_priority := 7; p_full_quantums := 5; p_sched_ticks := 8;
     p_quantum_size := 8; p_memmap := map0; p_nextready := None;
     p_caller_q := None; p_q_link := None; p_messbuf := 0;
     p_getfrom := 0; p_sendto := 0; p_ntf_q := None |}.

(** Privilege structure [i], owned by process [i - 4]: may do every call and
    send to everyone, preemptible and billable. *)
Definition priv0 (i : Z) : priv :=
  {| s_proc_nr := i - 4; s_id := i; s_flags := 5; s_call_mask := 65535;
     s_send_mask := [65535; 65535]; s_notify_pending := [0; 0];
     s_int_pending := 0; s_sig_pending := 0; s_stack_guard := 3735928559 |}.

Definition ntf0 : notification :=
  {| n_source := 0; n_type := 0; n_flags := 0; n_arg := 0; n_next := None |}.

(** A table of runnable processes, none of them queued; process 1 runs. *)
Definition st0 : kstate :=
  {| proc_tab := slot0; priv_tab := priv0;
     rdy_head := fun _ => None; rdy_tail := fun _ => None;
     proc_ptr := 1; next_ptr := Some 1; bill_ptr := Some 1;
     notify_buffer := fun _ => ntf0; notify_bitmap := [0; 0];
     umem := fun _ _ => mess0; realtime := 100 |}.

(** Process 1 runs alone on queue 7. *)
Definition st_run1 : kstate :=
  set_rdy_tail (upd (rdy_tail st0) 7 (Some 1))
    (set_rdy_head (upd (rdy_head st0) 7 (Some 1)) st0).

(** Process 2 is blocked sending to process 1, which runs. *)
Definition st_2_sends_1 : kstate :=
  with_proc 1 (set_p_caller_q (Some 2))
    (with_proc 2 (fun p => set_p_sendto 1 (set_p_rts_flags 4 p)) st_run1).

(** Process 3 waits for a message from anyone; process 1 runs. *)
Definition st_3_receives : kstate :=
  with_proc 3 (fun p => set_p_getfrom 31438 (set_p_rts_flags 8 p)) st_run1.

(** The ready queues of the states above: process 1 alone on queue 7. *)
Definition queues_run1 (q : Z) : list Z := if q =? 7 then [1] else [].

(** Process 1 runs; notifications from the sources with ids 0 and 1
    (processes -4 and -3) are pending for it. *)
Definition st_two_pending : kstate :=
  with_priv 5 (set_s_notify_pending [3; 0]) st_run1.

(** Processes 1 and 2 are on queue 7, in this order; process 1 runs and
    has one full quantum left. *)
Definition st_two_ready : kstate :=
  with_proc 1 (fun p => set_p_full_quantums 1 (set_p_nextready (Some 2) p))
    (set_rdy_tail (upd (rdy_tail st0) 7 (Some 2))
       (set_rdy_head (upd (rdy_head st0) 7 (Some 1)) st0)).

Definition queues_two_ready (q : Z) : list Z := if q =? 7 then [1; 2] else [].

End Examples.

(** ** More states to test the statements on *)
Module MoreExamples.

Import Examples.

(** As [st_run1], but the stack guard word of the privilege structure of
    kernel task -2 has been overwritten. *)
Definition st_overrun : kstate :=
  set_priv_tab
    (upd (priv_tab st_run1) 2
       {| s_proc_nr := -2; s_id := 2; s_flags := 5; s_call_mask := 65535;
          s_send_mask := [65535; 65535]; s_notify_pending := [0; 0];
          s_int_pending := 0; s_sig_pending := 0; s_stack_guard := 0 |})
    st_run1.


(** A notification from [HARDWARE] (id 3) is pending for process 1, with
    the interrupt bits 0 and 2. *)
Definition st_hw_pending : kstate :=
  with_priv 5 (set_s_notify_pending [8; 0])
    (with_priv 5 (set_s_int_pending 5) st_run1).

(** One notification from process 2, of type 7, is queued for process 1
    in buffer 0. *)
Definition st_ntf_queued : kstate :=
  set_notify_bitmap [1; 0]
    (with_ntf 0
       (fun _ => {| n_source := 2; n_type := 7; n_flags := 1; n_arg := 9;
                    n_next := None |})
       (with_proc 1 (set_p_ntf_q (Some 0)) st_run1)).

(** Process 1 runs; a notification from [SYSTEM] (id 2) is pending for
    process 3, which is runnable and not receiving. *)
Definition st_system_pending : kstate :=
  with_priv 7 (set_s_notify_pending [4; 0]) st_run1.

End MoreExamples.
(** ** Properties *)

Section PickProc.

Context {kp : KernelParams}.

Lemma pick_loop_frame (n : nat) :
  forall q st, same_but_elected st (pick_loop n q st).
Proof.
  induction n as [|n IH]; intros q st; simpl.
  - repeat split.
  - destruct (rdy_head st q) as [rp|]; [|apply IH].
    destruct (Z.land _ BILLABLE =? 0); repeat split.
Qed.

Lemma pick_loop_empty (n : nat) :
  forall q st,
    (forall q', q <= q' < q + Z.of_nat n -> rdy_head st q' = None) ->
    pick_loop n q st = st.
Proof.
  induction n as [|n IH]; intros q st Hempty; simpl; [reflexivity|].
  rewrite (Hempty q) by lia.
  apply IH. intros q' Hq'. apply Hempty. lia.
Qed.

Lemma pick_loop_elect (n : nat) :
  forall q0 q rp st,
    q0 <= q < q0 + Z.of_nat n ->
    rdy_head st q = Some rp ->
    (forall q', q0 <= q' < q -> rdy_head st q' = None) ->
    pick_loop n q0 st =
      if Z.land (s_flags (priv_of st rp)) BILLABLE =? 0
      then set_next_ptr (Some rp) st
      else set_bill_ptr (Some rp) (set_next_ptr (Some rp) st).
Proof.
  induction n as [|n IH]; intros q0 q rp st Hq Hhead Hbelow; simpl; [lia|].
  destruct (Z.eq_dec q0 q) as [->|Hne].
  - rewrite Hhead. reflexivity.
  - rewrite (Hbelow q0) by lia.
    apply (IH (q0 + 1) q); [lia|assumption|].
    intros q' Hq'. apply Hbelow. lia.
Qed.

Lemma pick_proc_elects (st : kstate) (q rp : Z) :
  elects st q rp -> next_ptr (pick_proc st) = Some rp.
Proof.
  intros (Hq & Hhead & Hbelow). unfold pick_proc.
  rewrite (pick_loop_elect _ 0 q rp st) by (assumption || lia).
  destruct (Z.land _ BILLABLE =? 0); reflexivity.
Qed.

(** C10.  [pick_proc] modifies nothing but [next_ptr] and [bill_ptr].  When
    every ready queue is empty it returns the state as it was, so both
    pointers keep their values; it never stores a null pointer in
    [next_ptr]; and when the head it elects is not [BILLABLE], [bill_ptr]
    keeps its value. *)
Theorem pick_proc_frame (st : kstate) :
  same_but_elected st (pick_proc st)
  /\ ((forall q, 0 <= q < NR_SCHED_QUEUES -> rdy_head st q = None) ->
      pick_proc st = st)
  /\ (next_ptr (pick_proc st) = None -> next_ptr st = None)
  /\ (forall q rp,
        elects st q rp ->
        next_ptr (pick_proc st) = Some rp
        /\ (Z.land (s_flags (priv_of st rp)) BILLABLE = 0 ->
            bill_ptr (pick_proc st) = bill_ptr st)).
Proof.
  unfold pick_proc.
  split; [apply pick_loop_frame|].
  split.
  { intros Hempty. apply pick_loop_empty. intros q' Hq'. apply Hempty. lia. }
  split.
  { generalize 0 at 1.
    induction (Z.to_nat NR_SCHED_QUEUES) as [|n IH]; intros q; simpl; [auto|].
    destruct (rdy_head st q) as [rp|]; [|apply IH].
    destruct (Z.land _ BILLABLE =? 0); simpl; discriminate. }
  intros q rp (Hq & Hhead & Hbelow).
  rewrite (pick_loop_elect _ 0 q rp st) by (assumption || lia).
  destruct (Z.eqb_spec (Z.land (s_flags (priv_of st rp)) BILLABLE) 0) as [E|E].
  - split; [reflexivity|]. intros _. reflexivity.
  - split; [reflexivity|]. intros E'. contradiction.
Qed.

End PickProc.

Section PickProcExamples.

#[local] Existing Instance Examples.minix.

Lemma pick_proc_frame_witness :
  next_ptr (pick_proc Examples.st_run1) = Some 1
  /\ same_but_elected Examples.st_run1 (pick_proc Examples.st_run1).
Proof.
  destruct (pick_proc_frame Examples.st_run1) as (Hframe & _ & _ & Helect).
  split; [|exact Hframe].
  assert (He : elects Examples.st_run1 7 1).
  { unfold elects. split; [simpl; lia|]. split; [reflexivity|].
    intros q' Hq'. cbn. unfold upd.
    destruct (Z.eqb_spec q' 7); [lia|reflexivity]. }
  exact (proj1 (Helect 7 1 He)).
Defined.

End PickProcExamples.

Section Deadlock.

Context {kp : KernelParams}.

Lemma deadlock_loop_mono (st : kstate) (caller : Z) (n : nat) :
  forall m xp r,
    deadlock_loop n caller xp st = Some r -> (n <= m)%nat ->
    deadlock_loop m caller xp st = Some r.
Proof.
  induction n as [|n IH]; intros m xp r H Hle; simpl in H; [discriminate|].
  destruct m as [|m]; [lia|]. simpl.
  destruct (Z.land _ SENDING =? 0); [assumption|].
  destruct (_ =? caller); [assumption|].
  apply IH; [assumption|lia].
Qed.

Lemma deadlock_loop_path (st : kstate) (caller x : Z) :
  sending_path st x caller ->
  exists n, deadlock_loop n caller x st = Some true.
Proof.
  induction 1 as [x Hs|x y Hs Hp [n IH]].
  - exists 1%nat. simpl. unfold is_sending in Hs.
    destruct (Z.eqb_spec (Z.land (p_rts_flags (proc_tab st x)) SENDING) 0);
      [contradiction|].
    unfold proc_addr. now rewrite Z.eqb_refl.
  - exists (S n). simpl. unfold is_sending in Hs.
    destruct (Z.eqb_spec (Z.land (p_rts_flags (proc_tab st x)) SENDING) 0);
      [contradiction|].
    unfold proc_addr. destruct (_ =? y); [reflexivity|assumption].
Qed.

Lemma deadlock_loop_true (st : kstate) (caller : Z) (n : nat) :
  forall xp, deadlock_loop n caller xp st = Some true -> sending_path st xp caller.
Proof.
  induction n as [|n IH]; intros xp H; simpl in H; [discriminate|].
  destruct (Z.eqb_spec (Z.land (p_rts_flags (proc_tab st xp)) SENDING) 0) as [E|E];
    [discriminate|].
  unfold proc_addr in H.
  destruct (Z.eqb_spec (p_sendto (proc_tab st xp)) caller) as [<-|Hne].
  - now apply sending_path_one.
  - apply sending_path_more; [assumption|]. now apply IH.
Qed.

Lemma sending_path_snoc (st : kstate) (x y : Z) :
  sending_path st x y -> is_sending st y ->
  sending_path st x (p_sendto (proc_tab st y)).
Proof.
  induction 1 as [x Hs|x y Hs Hp IH]; intros Hy.
  - apply sending_path_more; [assumption|]. now apply sending_path_one.
  - apply sending_path_more; [assumption|]. now apply IH.
Qed.

Section Chain.

Variables (st : kstate) (dst : Z).

Local Abbreviation c := (sendto_chain st dst).

Lemma sendto_chain_path (i d : nat) :
  (forall j, (i <= j < i + S d)%nat -> is_sending st (c j)) ->
  sending_path st (c i) (c (i + S d)).
Proof.
  induction d as [|d IH]; intros Hs.
  - replace (i + 1)%nat with (S i) by lia. simpl.
    apply sending_path_one. apply Hs. lia.
  - replace (i + S (S d))%nat with (S (i + S d)) by lia. simpl.
    apply sending_path_snoc.
    + apply IH. intros j Hj. apply Hs. lia.
    + apply Hs. lia.
Qed.

Lemma sendto_chain_distinct (k : nat) :
  acyclic st ->
  (forall j, (j < k)%nat -> is_sending st (c j)) ->
  forall j1 j2, (j1 < j2 <= k)%nat -> c j1 <> c j2.
Proof.
  intros Hac Hs j1 j2 Hj E.
  apply (Hac (c j1)).
  rewrite E at 2.
  replace j2 with (j1 + S (j2 - j1 - 1))%nat by lia.
  apply sendto_chain_path. intros j Hj'. apply Hs. lia.
Qed.

Lemma sendto_chain_NoDup (k : nat) :
  acyclic st ->
  (forall j, (j < k)%nat -> is_sending st (c j)) ->
  NoDup (map c (seq 0 (S k))).
Proof.
  intros Hac Hs.
  apply (proj2 (NoDup_nth (map c (seq 0 (S k))) (c 0%nat))).
  rewrite length_map, length_seq. intros i j Hi Hj E.
  rewrite !(map_nth c (seq 0 (S k)) 0%nat) in E.
  rewrite !seq_nth in E by assumption. simpl in E.
  destruct (Nat.lt_trichotomy i j) as [Hlt|[Heq|Hgt]]; [|assumption|].
  - exfalso. apply (sendto_chain_distinct k Hac Hs i j); [lia|assumption].
  - exfalso. apply (sendto_chain_distinct k Hac Hs j i); [lia|now symmetry].
Qed.

Lemma sendto_chain_slots (k : nat) :
  sendto_in_table st -> is_slot dst ->
  (forall j, (j < k)%nat -> is_sending st (c j)) ->
  forall j, (j <= k)%nat -> is_slot (c j).
Proof.
  intros Hin Hdst Hs j. induction j as [|j IH]; intros Hj; simpl.
  - exact Hdst.
  - apply Hin; [apply IH; lia|apply Hs; lia].
Qed.

End Chain.

(** A list without repetition of slots of the table is no longer than the
    table. *)
Lemma slots_pigeonhole (l : list Z) :
  NoDup l -> (forall x, In x l -> is_slot x) -> (length l <= nr_slots)%nat.
Proof.
  intros Hnd Hin.
  set (all := map (fun i => Z.of_nat i - NR_TASKS) (seq 0 nr_slots)).
  replace nr_slots with (length all) by (unfold all; now rewrite length_map, length_seq).
  apply NoDup_incl_length; [assumption|].
  intros x Hx. specialize (Hin x Hx). unfold is_slot in Hin.
  unfold all. apply in_map_iff. exists (Z.to_nat (x + NR_TASKS)).
  split; [lia|]. apply in_seq. unfold nr_slots. lia.
Qed.

(** A chain of [SENDING] slots takes fewer links than the table has
    slots. *)
Lemma sendto_chain_bound (st : kstate) (dst : Z) :
  acyclic st -> sendto_in_table st -> is_slot dst ->
  forall k,
    (forall j, (j < k)%nat -> is_sending st (sendto_chain st dst j)) ->
    (S k <= nr_slots)%nat.
Proof.
  intros Hac Hin Hdst k Hs.
  pose proof (slots_pigeonhole (map (sendto_chain st dst) (seq 0 (S k)))
                (sendto_chain_NoDup st dst k Hac Hs)) as Hp.
  rewrite length_map, length_seq in Hp. apply Hp.
  intros x Hx. apply in_map_iff in Hx. destruct Hx as (j & <- & Hj).
  apply in_seq in Hj.
  apply (sendto_chain_slots st dst k Hin Hdst Hs). lia.
Qed.

Lemma deadlock_loop_from (st : kstate) (caller dst : Z) :
  acyclic st -> sendto_in_table st -> is_slot dst ->
  forall m i,
    (forall j, (j < i)%nat -> is_sending st (sendto_chain st dst j)) ->
    (i + m = nr_slots)%nat ->
    exists k r,
      (i <= k)%nat
      /\ (forall j, (j < k)%nat -> is_sending st (sendto_chain st dst j))
      /\ deadlock_loop (S (k - i)) caller (sendto_chain st dst i) st = Some r.
Proof.
  intros Hac Hin Hdst.
  pose proof (sendto_chain_bound st dst Hac Hin Hdst) as Hbound.
  induction m as [|m IH]; intros i Hs Him.
  - specialize (Hbound i Hs). lia.
  - destruct (Z.eq_dec (Z.land (p_rts_flags (proc_tab st (sendto_chain st dst i))) SENDING) 0)
      as [E|E].
    + exists i, false. split; [lia|]. split; [assumption|].
      replace (i - i)%nat with 0%nat by lia. simpl.
      now rewrite (proj2 (Z.eqb_eq _ _) E).
    + assert (Hs' : forall j, (j < S i)%nat -> is_sending st (sendto_chain st dst j)).
      { intros j Hj. destruct (Nat.eq_dec j i) as [->|]; [exact E|apply Hs; lia]. }
      destruct (Z.eq_dec (sendto_chain st dst (S i)) caller) as [Ec|Ec].
      * exists (S i), true. split; [lia|]. split; [assumption|].
        replace (S i - i)%nat with 1%nat by lia.
        cbn [deadlock_loop]. rewrite (proj2 (Z.eqb_neq _ _) E).
        unfold proc_addr. simpl in Ec. now rewrite (proj2 (Z.eqb_eq _ _) Ec).
      * destruct (IH (S i) Hs') as (k & r & Hk & Hsk & Hloop); [lia|].
        exists k, r. split; [lia|]. split; [assumption|].
        replace (k - i)%nat with (S (k - S i)) by lia.
        cbn [deadlock_loop]. rewrite (proj2 (Z.eqb_neq _ _) E).
        unfold proc_addr. simpl in Ec. rewrite (proj2 (Z.eqb_neq _ _) Ec).
        exact Hloop.
Qed.

(** With acyclic chains the deadlock check returns, whatever budget of
    at least [nr_slots] iterations it is given. *)
Lemma deadlock_loop_total (st : kstate) (caller dst : Z) :
  acyclic st -> sendto_in_table st -> is_slot dst ->
  exists r, forall fuel, (nr_slots <= fuel)%nat ->
    deadlock_loop fuel caller dst st = Some r.
Proof.
  intros Hac Hin Hdst.
  destruct (deadlock_loop_from st caller dst Hac Hin Hdst nr_slots 0%nat)
    as (k & r & _ & Hs & Hloop); [intros j Hj; lia|lia|].
  pose proof (sendto_chain_bound st dst Hac Hin Hdst k Hs) as Hk.
  exists r. intros fuel Hfuel. rewrite Nat.sub_0_r in Hloop.
  apply (deadlock_loop_mono _ _ _ _ _ _ Hloop). lia.
Qed.

(** C3.  When the chain of [SENDING] slots that starts at the destination
    leads to the caller, [mini_send] returns [ELOCKED] and the state it
    returns is the state it was given: no flag, [p_sendto], message buffer,
    caller queue or ready queue has changed, and the slots on the chain
    are as blocked as before. *)
Theorem mini_send_deadlock (st : kstate) (caller_ptr dst m_ptr flags : Z) :
  sending_path st (proc_addr dst) caller_ptr ->
  exists n, forall fuel, (n <= fuel)%nat ->
    mini_send fuel caller_ptr dst m_ptr flags st = Done ELOCKED st.
Proof.
  intros Hpath. destruct (deadlock_loop_path _ _ _ Hpath) as [n Hn].
  exists n. intros fuel Hfuel. unfold mini_send.
  now rewrite (deadlock_loop_mono _ _ _ _ _ _ Hn Hfuel).
Qed.

(** C8.  Under the invariant that the chains of [SENDING] slots along
    [p_sendto] are acyclic (and stay inside the process table), the
    deadlock check of [mini_send] terminates for every caller and every
    destination: it follows [k] links, visits the [k + 1] slots
    [dst, dst.sendto, ...] without visiting one twice, [k] is less than the
    number of slots, and any budget above [k] iterations lets the loop
    return. *)
Theorem deadlock_check_terminates (st : kstate) (caller_ptr dst : Z) :
  acyclic st -> sendto_in_table st -> is_slot dst ->
  exists (k : nat) (r : bool),
    (k < nr_slots)%nat
    /\ NoDup (map (sendto_chain st (proc_addr dst)) (seq 0 (S k)))
    /\ (forall j, (j <= k)%nat -> is_slot (sendto_chain st (proc_addr dst) j))
    /\ (forall fuel, (k < fuel)%nat ->
        deadlock_loop fuel caller_ptr (proc_addr dst) st = Some r).
Proof.
  intros Hac Hin Hdst. unfold proc_addr.
  destruct (deadlock_loop_from st caller_ptr dst Hac Hin Hdst nr_slots 0%nat)
    as (k & r & _ & Hs & Hloop); [intros j Hj; lia|lia|].
  exists k, r.
  split; [pose proof (sendto_chain_bound st dst Hac Hin Hdst k Hs); lia|].
  split; [now apply sendto_chain_NoDup|].
  split; [now apply sendto_chain_slots|].
  intros fuel Hfuel. rewrite Nat.sub_0_r in Hloop.
  apply (deadlock_loop_mono _ _ _ _ _ _ Hloop). lia.
Qed.

(** C9 (amended).  [lock_send] calls [mini_send] with [NON_BLOCKING].  For
    a destination that is not waiting for the caller's message, and with
    the [SENDING] chains acyclic, it returns [ELOCKED] when the
    destination's chain leads to the caller and [ENOTREADY] otherwise, and
    in both cases it returns the state unchanged: the caller is not marked
    [SENDING], not put on the destination's caller queue and not taken off
    the ready queues. *)
Theorem lock_send_never_blocks (st : kstate) (dst m_ptr : Z) :
  NON_BLOCKING <> 0 ->
  acyclic st -> sendto_in_table st -> is_slot dst ->
  awaits st (proc_addr dst) (proc_ptr st) = false ->
  exists result,
    (result = ELOCKED /\ sending_path st (proc_addr dst) (proc_ptr st)
     \/ result = ENOTREADY /\ ~ sending_path st (proc_addr dst) (proc_ptr st))
    /\ forall fuel, (nr_slots <= fuel)%nat ->
         lock_send fuel dst m_ptr st = Done result st.
Proof.
  intros Hnb Hac Hin Hdst Haw.
  destruct (deadlock_loop_total st (proc_ptr st) dst Hac Hin Hdst) as (r & Hloop).
  destruct r.
  - exists ELOCKED. split.
    + left. split; [reflexivity|].
      apply (deadlock_loop_true st _ nr_slots). apply Hloop. lia.
    + intros fuel Hfuel. unfold lock_send, mini_send.
      unfold proc_addr in *. rewrite Hloop by lia. reflexivity.
  - exists ENOTREADY. split.
    + right. split; [reflexivity|]. intros Hpath.
      destruct (deadlock_loop_path _ _ _ Hpath) as [n Hn].
      pose proof (deadlock_loop_mono _ _ _ (n + nr_slots) _ _ Hn ltac:(lia)) as H1.
      unfold proc_addr in *. rewrite Hloop in H1 by lia. discriminate.
    + intros fuel Hfuel. unfold lock_send, mini_send.
      unfold proc_addr in *. rewrite Hloop by lia. rewrite Haw.
      rewrite Z.land_diag. now rewrite (proj2 (Z.eqb_neq _ _) Hnb).
Qed.

End Deadlock.

Section DeadlockExamples.

#[local] Existing Instance Examples.minix.

Lemma mini_send_deadlock_witness :
  exists n, forall fuel, (n <= fuel)%nat ->
    mini_send fuel 1 2 0 0 Examples.st_2_sends_1 = Done ELOCKED Examples.st_2_sends_1.
Proof.
  apply (mini_send_deadlock Examples.st_2_sends_1 1 2 0 0).
  apply (sending_path_one Examples.st_2_sends_1 2).
  unfold is_sending. vm_compute. discriminate.
Defined.


Lemma st_2_sends_1_sending (x : Z) :
  is_sending Examples.st_2_sends_1 x -> x = 2.
Proof.
  unfold is_sending. cbn. unfold upd.
  destruct (Z.eqb_spec x 1) as [->|H1]; [cbn; congruence|].
  destruct (Z.eqb_spec x 2) as [->|H2]; [reflexivity|cbn; congruence].
Qed.

Lemma st_2_sends_1_path (x y : Z) :
  sending_path Examples.st_2_sends_1 x y -> x = 2 /\ y = 1.
Proof.
  induction 1 as [x Hs|x y Hs Hp IH].
  - apply st_2_sends_1_sending in Hs. subst x. now split.
  - apply st_2_sends_1_sending in Hs. subst x.
    destruct IH as [IH _]. vm_compute in IH. discriminate.
Qed.

Lemma st_2_sends_1_acyclic : acyclic Examples.st_2_sends_1.
Proof.
  intros x Hp. apply st_2_sends_1_path in Hp. lia.
Qed.

Lemma st_2_sends_1_in_table : sendto_in_table Examples.st_2_sends_1.
Proof.
  intros x _ Hs. apply st_2_sends_1_sending in Hs. subst x.
  unfold is_slot. simpl. lia.
Qed.

Lemma deadlock_check_terminates_witness :
  exists (k : nat) (r : bool),
    (k < nr_slots)%nat
    /\ NoDup (map (sendto_chain Examples.st_2_sends_1 (proc_addr 2)) (seq 0 (S k)))
    /\ (forall j, (j <= k)%nat ->
        is_slot (sendto_chain Examples.st_2_sends_1 (proc_addr 2) j))
    /\ (forall fuel, (k < fuel)%nat ->
        deadlock_loop fuel 3 (proc_addr 2) Examples.st_2_sends_1 = Some r).
Proof.
  apply (deadlock_check_terminates Examples.st_2_sends_1 3 2).
  - exact st_2_sends_1_acyclic.
  - exact st_2_sends_1_in_table.
  - unfold is_slot. simpl. lia.
Defined.

(** The claim C9 as stated fails: process 2 is blocked sending to the
    running process 1, so it is not waiting for a message, and a
    [lock_send] to it returns [ELOCKED], not [ENOTREADY]. *)
Lemma lock_send_elocked_counterexample :
  awaits Examples.st_2_sends_1 (proc_addr 2) (proc_ptr Examples.st_2_sends_1) = false
  /\ (forall fuel, (1 <= fuel)%nat ->
      lock_send fuel 2 0 Examples.st_2_sends_1 = Done ELOCKED Examples.st_2_sends_1)
  /\ ELOCKED <> ENOTREADY.
Proof.
  split; [reflexivity|]. split; [|discriminate].
  intros [|fuel] Hfuel; [lia|]. reflexivity.
Qed.

Lemma lock_send_never_blocks_witness :
  exists result,
    (result = ELOCKED
     /\ sending_path Examples.st_2_sends_1 (proc_addr 3) (proc_ptr Examples.st_2_sends_1)
     \/ result = ENOTREADY
     /\ ~ sending_path Examples.st_2_sends_1 (proc_addr 3) (proc_ptr Examples.st_2_sends_1))
    /\ forall fuel, (nr_slots <= fuel)%nat ->
         lock_send fuel 3 0 Examples.st_2_sends_1 = Done result Examples.st_2_sends_1.
Proof.
  apply (lock_send_never_blocks Examples.st_2_sends_1 3 0).
  - simpl. lia.
  - exact st_2_sends_1_acyclic.
  - exact st_2_sends_1_in_table.
  - unfold is_slot. simpl. lia.
  - reflexivity.
Defined.

End DeadlockExamples.

(** *** Linked segments *)

Section Segments.

Lemma lseg_frame (next next' : Z -> option Z) (l : list Z) :
  forall h e,
    (forall x, In x l -> next' x = next x) ->
    lseg next h l e -> lseg next' h l e.
Proof.
  induction l as [|a l IH]; intros h e Hsame H; simpl in *; [assumption|].
  destruct H as [-> H]. split; [reflexivity|].
  rewrite (Hsame a) by now left.
  apply IH; [|assumption]. intros x Hx. apply Hsame. now right.
Qed.

Lemma lseg_app (next : Z -> option Z) (l1 l2 : list Z) :
  forall h e,
    lseg next h (l1 ++ l2) e <-> exists m, lseg next h l1 m /\ lseg next m l2 e.
Proof.
  induction l1 as [|a l1 IH]; intros h e; simpl.
  - split.
    + intros H. now exists h.
    + intros (m & -> & H). assumption.
  - split.
    + intros [-> H]. apply IH in H. destruct H as (m & H1 & H2).
      exists m. repeat split; assumption.
    + intros (m & [-> H1] & H2). split; [reflexivity|].
      apply IH. now exists m.
Qed.

Lemma list_snoc_last (l : list Z) :
  l <> [] -> exists l0, l = l0 ++ [last l 0].
Proof.
  intros Hne. exists (removelast l). now apply app_removelast_last.
Qed.

Lemma last_app_r (l1 l2 : list Z) (d : Z) :
  l2 <> [] -> last (l1 ++ l2) d = last l2 d.
Proof.
  intros Hne. induction l1 as [|a l1 IH]; [reflexivity|].
  simpl. rewrite IH. destruct (l1 ++ l2) eqn:E; [|reflexivity].
  apply app_eq_nil in E. destruct E as [_ E]. contradiction.
Qed.

Lemma last_in (l : list Z) (d : Z) : l <> [] -> In (last l d) l.
Proof.
  intros Hne. destruct (exists_last Hne) as (l0 & a & ->).
  rewrite last_last. apply in_or_app. right. now left.
Qed.

End Segments.

(** *** The effect of [ready] on the ready queues *)

Section Ready.

Context {kp : KernelParams}.

Lemma rdy_queue_frame (st st' : kstate) (q : Z) (l : list Z) :
  rdy_queue st q l ->
  rdy_head st' q = rdy_head st q ->
  rdy_tail st' q = rdy_tail st q ->
  (forall x, In x l -> nextready_of st' x = nextready_of st x) ->
  rdy_queue st' q l.
Proof.
  intros (Hch & Hnd & Htl) Hh Ht Hn. unfold rdy_queue, chain in *.
  rewrite Hh, Ht. split; [|split; assumption].
  now apply (lseg_frame (nextready_of st)).
Qed.

Lemma rdy_queue_pick_proc (st : kstate) (q : Z) (l : list Z) :
  rdy_queue st q l -> rdy_queue (pick_proc st) q l.
Proof.
  intros H. destruct (pick_loop_frame (Z.to_nat NR_SCHED_QUEUES) 0 st)
    as (Hp & _ & Hh & Ht & _).
  apply (rdy_queue_frame st); unfold pick_proc.
  - assumption.
  - now rewrite Hh.
  - now rewrite Ht.
  - intros x _. unfold nextready_of. now rewrite Hp.
Qed.

Lemma rdy_queues_pick_proc (st : kstate) (L : Z -> list Z) :
  rdy_queues st L -> rdy_queues (pick_proc st) L.
Proof.
  intros [Hq Hd]. split; [|assumption].
  intros q. apply rdy_queue_pick_proc, Hq.
Qed.

Lemma same_but_queues_pick_proc (st st' : kstate) :
  same_but_queues st st' -> same_but_queues st (pick_proc st').
Proof.
  intros (Hp & Hpr & Hpp & Hnb & Hbm & Hum & Hrt).
  destruct (pick_loop_frame (Z.to_nat NR_SCHED_QUEUES) 0 st')
    as (Hp' & Hpr' & _ & _ & Hpp' & Hnb' & Hbm' & Hum' & Hrt').
  unfold pick_proc. repeat split; try congruence.
Qed.

Lemma ready_list_in (st : kstate) (rp : Z) (l : list Z) (x : Z) :
  In x (ready_list st rp l) -> x = rp \/ In x l.
Proof.
  destruct l as [|a l]; simpl.
  - intros [<-|[]]. now left.
  - destruct (Z.land _ RDY_Q_HEAD =? 0); simpl.
    + intros [<-|H]; [right; now left|].
      apply in_app_or in H. destruct H as [H|[<-|[]]]; [right; now right|now left].
    + intros [<-|H]; [now left|now right].
Qed.

Lemma ready_spec (st : kstate) (rp : Z) (L : Z -> list Z) :
  rdy_queues st L ->
  (forall q, ~ In rp (L q)) ->
  exists st',
    ready rp st = Done tt st'
    /\ rdy_queues st'
         (fun q => if q =? p_priority (proc_tab st rp)
                   then ready_list st rp (L q) else L q)
    /\ same_but_queues st st'.
Proof.
  intros [Hq Hdisj] Hnot.
  set (q := p_priority (proc_tab st rp)).
  assert (Hdisj' : forall q1 q2 x,
             In x (if q1 =? q then ready_list st rp (L q1) else L q1) ->
             In x (if q2 =? q then ready_list st rp (L q2) else L q2) -> q1 = q2).
  { intros q1 q2 x H1 H2.
    destruct (Z.eqb_spec q1 q) as [->|N1], (Z.eqb_spec q2 q) as [->|N2];
      [reflexivity| | |now apply (Hdisj q1 q2 x)].
    - destruct (ready_list_in _ _ _ _ H1) as [->|Hx]; [now apply Hnot in H2|].
      now apply (Hdisj q q2 x).
    - destruct (ready_list_in _ _ _ _ H2) as [->|Hx]; [now apply Hnot in H1|].
      now apply (Hdisj q1 q x). }
  destruct (Hq q) as (Hch & Hnd & Htl).
  unfold ready. fold q. unfold chain in Hch.
  destruct (L q) as [|a l] eqn:ELq.
  - (* empty queue *)
    simpl in Hch. rewrite Hch.
    eexists. split; [reflexivity|]. split.
    + apply rdy_queues_pick_proc. split.
      * intros q'. destruct (Z.eqb_spec q' q) as [->|Hne].
        -- rewrite ELq. simpl. unfold rdy_queue, chain, nextready_of. cbn.
           unfold upd. rewrite !Z.eqb_refl. cbn.
           repeat split; try reflexivity.
           constructor; [intros []|constructor].
        -- apply (rdy_queue_frame st); [apply Hq| | |].
           ++ cbn. unfold upd. now rewrite (proj2 (Z.eqb_neq _ _) Hne).
           ++ cbn. unfold upd. now rewrite (proj2 (Z.eqb_neq _ _) Hne).
           ++ intros x Hx. unfold nextready_of. cbn. unfold upd.
              destruct (Z.eqb_spec x rp) as [->|]; [now apply Hnot in Hx|reflexivity].
      * exact Hdisj'.
    + apply same_but_queues_pick_proc. repeat split.
      intros x. cbn. unfold upd. destruct (Z.eqb_spec x rp) as [->|]; reflexivity.
  - destruct Hch as [Hhead Hch]. rewrite Hhead.
    assert (Hrp : rp <> a /\ ~ In rp l).
    { specialize (Hnot q). rewrite ELq in Hnot. simpl in Hnot. split; intuition. }
    destruct (Z.land (s_flags (priv_of st rp)) RDY_Q_HEAD =? 0) eqn:Ef; simpl.
    + (* add to the tail *)
      rewrite Htl by discriminate.
      destruct (list_snoc_last (a :: l)) as [l0 El0]; [discriminate|].
      remember (last (a :: l) 0) as t eqn:Et.
      assert (Hin_t : In t (a :: l)) by (rewrite El0; apply in_or_app; right; now left).
      assert (Htrp : t <> rp).
      { intros ->. specialize (Hnot q). rewrite ELq in Hnot. contradiction. }
      eexists. split; [reflexivity|]. split.
      * apply rdy_queues_pick_proc. split.
        -- intros q'. destruct (Z.eqb_spec q' q) as [->|Hne].
           ++ rewrite ELq. simpl. rewrite Ef. simpl.
              change (a :: l ++ [rp]) with ((a :: l) ++ [rp]).
              unfold rdy_queue, chain. split; [|split].
              ** rewrite El0, <- app_assoc. apply lseg_app.
                 assert (Hseg : lseg (nextready_of st) (Some a) (l0 ++ [t]) None).
                 { rewrite <- El0. simpl. split; [reflexivity|assumption]. }
                 apply lseg_app in Hseg. destruct Hseg as (m & Hs1 & Hs2).
                 simpl in Hs2. destruct Hs2 as [-> Hs2].
                 exists (Some t). split.
                 --- change (lseg (nextready_of
                               (with_proc rp (set_p_nextready None)
                                  (set_rdy_tail (upd (rdy_tail st) q (Some rp))
                                     (with_proc t (set_p_nextready (Some rp)) st))))
                               (rdy_head st q) l0 (Some t)).
                     rewrite Hhead.
                     apply (lseg_frame (nextready_of st)); [|assumption].
                     intros x Hx. unfold nextready_of. cbn. unfold upd.
                     assert (In x (a :: l)) by (rewrite El0; apply in_or_app; now left).
                     destruct (Z.eqb_spec x rp) as [->|];
                       [simpl in *; intuition congruence|].
                     destruct (Z.eqb_spec x t) as [->|]; [|reflexivity].
                     exfalso. rewrite El0 in Hnd.
                     apply NoDup_remove_2 in Hnd. rewrite app_nil_r in Hnd. contradiction.
                 --- simpl. unfold nextready_of. cbn. unfold upd.
                     rewrite (proj2 (Z.eqb_neq _ _) Htrp), !Z.eqb_refl. cbn.
                     auto.
              ** apply NoDup_app; [assumption|repeat constructor; intros []|].
                 intros x Hx [<-|[]]. simpl in *. intuition congruence.
              ** intros _. rewrite last_last. cbn. unfold upd.
                 now rewrite Z.eqb_refl.
           ++ apply (rdy_queue_frame st); [apply Hq| | |].
              ** reflexivity.
              ** cbn. unfold upd. now rewrite (proj2 (Z.eqb_neq _ _) Hne).
              ** intros x Hx. unfold nextready_of. cbn. unfold upd.
                 destruct (Z.eqb_spec x rp) as [->|]; [now apply Hnot in Hx|].
                 destruct (Z.eqb_spec x t) as [->|]; [|reflexivity].
                 exfalso. apply Hne. apply (Hdisj q' q t); [assumption|now rewrite ELq].
        -- exact Hdisj'.
      * apply same_but_queues_pick_proc. repeat split.
        intros x. cbn. unfold upd.
        destruct (Z.eqb_spec x rp) as [->|];
          [destruct (Z.eqb_spec rp t) as [->|]|destruct (Z.eqb_spec x t) as [->|]];
          reflexivity.
    + (* add to the head *)
      eexists. split; [reflexivity|]. split.
      * apply rdy_queues_pick_proc. split.
        -- intros q'. destruct (Z.eqb_spec q' q) as [->|Hne].
           ++ rewrite ELq. simpl. rewrite Ef. simpl.
              unfold rdy_queue, chain. split; [|split].
              ** split; [cbn; unfold upd; now rewrite Z.eqb_refl|].
                 match goal with
                 | |- lseg _ ?h _ _ => replace h with (Some a)
                     by (unfold nextready_of; cbn; unfold upd; now rewrite Z.eqb_refl)
                 end.
                 apply (lseg_frame (nextready_of st)).
                 --- intros x Hx. unfold nextready_of. cbn. unfold upd.
                     destruct (Z.eqb_spec x rp) as [->|];
                       [simpl in *; intuition congruence|reflexivity].
                 --- simpl. split; [reflexivity|exact Hch].
              ** constructor; [simpl in *; intuition congruence|assumption].
              ** intros _. cbn.
                 change (match l with [] => a | _ :: _ => last l 0 end)
                   with (last (a :: l) 0).
                 apply Htl. discriminate.
           ++ apply (rdy_queue_frame st); [apply Hq| | |].
              ** cbn. unfold upd. now rewrite (proj2 (Z.eqb_neq _ _) Hne).
              ** reflexivity.
              ** intros x Hx. unfold nextready_of. cbn. unfold upd.
                 destruct (Z.eqb_spec x rp) as [->|]; [now apply Hnot in Hx|reflexivity].
        -- exact Hdisj'.
      * apply same_but_queues_pick_proc. repeat split.
        intros x. cbn. unfold upd. destruct (Z.eqb_spec x rp) as [->|]; reflexivity.
Qed.

End Ready.

(** *** The rendezvous in [mini_send] *)

Section Rendezvous.

Context {kp : KernelParams}.

Lemma awaits_not_sending (st : kstate) (dst_ptr caller_ptr : Z) :
  Z.land RECEIVING SENDING = 0 ->
  awaits st dst_ptr caller_ptr = true ->
  Z.land (p_rts_flags (proc_tab st dst_ptr)) SENDING = 0.
Proof.
  intros Hdisj Haw. unfold awaits in Haw.
  apply andb_true_iff in Haw. destruct Haw as [Haw _].
  apply Z.eqb_eq in Haw.
  assert (E : Z.land (Z.lor RECEIVING SENDING) SENDING = SENDING).
  { apply Z.bits_inj'. intros n Hn.
    rewrite Z.land_spec, Z.lor_spec.
    destruct (Z.testbit RECEIVING n), (Z.testbit SENDING n); reflexivity. }
  rewrite <- E, Z.land_assoc, Haw. exact Hdisj.
Qed.

Lemma ready_list_in_iff (st : kstate) (rp : Z) (l : list Z) (x : Z) :
  In x (ready_list st rp l) <-> x = rp \/ In x l.
Proof.
  split; [apply ready_list_in|].
  destruct l as [|a l]; simpl.
  - intros [->|[]]. now left.
  - destruct (Z.land _ RDY_Q_HEAD =? 0); simpl.
    + intros [->|[->|H]].
      * right. apply in_or_app. right. now left.
      * now left.
      * right. apply in_or_app. now left.
    + intros [->|[->|H]]; auto.
Qed.

(** C2.  When the destination waits for a message from the caller or from
    anyone ([RECEIVING] without [SENDING], [p_getfrom] the caller or
    [ANY]), [mini_send] copies the caller's message into the destination's
    buffer, clears the destination's [RECEIVING] flag, calls [ready] on the
    destination exactly when its flags have become 0, and returns [OK].
    The caller is not blocked: its slot is as before (flags, [p_sendto],
    caller-queue links), no caller queue changes, and it is on the same
    ready queue as before. *)
Theorem mini_send_rendezvous (st : kstate) (caller_ptr dst m_ptr flags : Z)
    (L : Z -> list Z) :
  Z.land RECEIVING SENDING = 0 ->
  awaits st (proc_addr dst) caller_ptr = true ->
  caller_ptr <> proc_addr dst ->
  rdy_queues st L ->
  (forall q, ~ In (proc_addr dst) (L q)) ->
  let dst_ptr := proc_addr dst in
  let m := umem st caller_ptr m_ptr in
  let st1 := delivered st (p_nr (proc_tab st caller_ptr)) m dst_ptr in
  let woken := p_rts_flags (proc_tab st1 dst_ptr) =? 0 in
  exists st',
    (forall fuel, (1 <= fuel)%nat ->
       mini_send fuel caller_ptr dst m_ptr flags st = Done OK st')
    /\ umem st' dst_ptr (p_messbuf (proc_tab st dst_ptr))
       = cp_mess (p_nr (proc_tab st caller_ptr)) m
    /\ p_rts_flags (proc_tab st' dst_ptr)
       = Z.land (p_rts_flags (proc_tab st dst_ptr)) (Z.lnot RECEIVING)
    /\ (if woken then ready dst_ptr st1 = Done tt st' else st' = st1)
    /\ rdy_queues st'
         (fun q => if woken && (q =? p_priority (proc_tab st dst_ptr))
                   then ready_list st dst_ptr (L q) else L q)
    /\ unlinked (proc_tab st' caller_ptr) = unlinked (proc_tab st caller_ptr)
    /\ (forall x, p_caller_q (proc_tab st' x) = p_caller_q (proc_tab st x)
                  /\ p_q_link (proc_tab st' x) = p_q_link (proc_tab st x))
    /\ (forall q,
          In caller_ptr (if woken && (q =? p_priority (proc_tab st dst_ptr))
                         then ready_list st dst_ptr (L q) else L q)
          <-> In caller_ptr (L q)).
Proof.
  intros Hdisj Haw Hne HL Hnot dst_ptr m st1 woken.
  unfold proc_addr in *. subst dst_ptr.
  pose proof (awaits_not_sending _ _ _ Hdisj Haw) as Hns.
  assert (Hsend : forall fuel, (1 <= fuel)%nat ->
            mini_send fuel caller_ptr dst m_ptr flags st =
            ((if woken then ready dst else ret tt) ;;; ret OK) st1).
  { intros [|fuel] Hfuel; [lia|]. unfold mini_send, proc_addr. cbn [deadlock_loop].
    rewrite Hns. cbn [Z.eqb]. rewrite Haw. reflexivity. }
  assert (HL1 : rdy_queues st1 L).
  { destruct HL as [Hq Hd]. split; [|assumption].
    intros q. apply (rdy_queue_frame st); [apply Hq|reflexivity|reflexivity|].
    intros x _. unfold nextready_of, st1, delivered. cbn. unfold upd.
    destruct (Z.eqb_spec x dst) as [->|]; reflexivity. }
  assert (Hflags1 : p_rts_flags (proc_tab st1 dst)
                    = Z.land (p_rts_flags (proc_tab st dst)) (Z.lnot RECEIVING)).
  { unfold st1, delivered. cbn. unfold upd. now rewrite Z.eqb_refl. }
  assert (Hmem1 : umem st1 dst (p_messbuf (proc_tab st dst))
                  = cp_mess (p_nr (proc_tab st caller_ptr)) m).
  { unfold st1, delivered. cbn. unfold upd. now rewrite !Z.eqb_refl. }
  assert (Hcaller1 : proc_tab st1 caller_ptr = proc_tab st caller_ptr).
  { unfold st1, delivered. cbn. unfold upd.
    now rewrite (proj2 (Z.eqb_neq _ _) Hne). }
  assert (Hlinks1 : forall x,
             p_caller_q (proc_tab st1 x) = p_caller_q (proc_tab st x)
             /\ p_q_link (proc_tab st1 x) = p_q_link (proc_tab st x)).
  { intros x. unfold st1, delivered. cbn. unfold upd.
    destruct (Z.eqb_spec x dst) as [->|]; split; reflexivity. }
  assert (Hprio1 : p_priority (proc_tab st1 dst) = p_priority (proc_tab st dst)).
  { unfold st1, delivered. cbn. unfold upd. now rewrite Z.eqb_refl. }
  assert (Hlist1 : forall l, ready_list st1 dst l = ready_list st dst l).
  { intros l. unfold ready_list, priv_of, priv_ptr, st1, delivered. cbn. unfold upd.
    now rewrite Z.eqb_refl. }
  assert (Hmemb : forall q,
             In caller_ptr (if woken && (q =? p_priority (proc_tab st dst))
                            then ready_list st dst (L q) else L q)
             <-> In caller_ptr (L q)).
  { intros q. destruct (woken && _); [|tauto].
    rewrite ready_list_in_iff. tauto. }
  destruct woken eqn:Ew.
  - destruct (ready_spec st1 dst L HL1 Hnot) as (st' & Hready & HL' & Hfr).
    exists st'. destruct Hfr as (Hp & Hpr & Hpp & Hnb & Hbm & Hum & Hrt).
    assert (Hfield : forall (A : Type) (f : proc -> A),
               (forall p, f (unlinked p) = f p) ->
               forall x, f (proc_tab st' x) = f (proc_tab st1 x)).
    { intros A f Hf x. rewrite <- (Hf (proc_tab st' x)), <- (Hf (proc_tab st1 x)).
      now rewrite Hp. }
    split; [|split; [|split; [|split; [|split; [|split; [|split]]]]]].
    + intros fuel Hfuel. rewrite (Hsend fuel Hfuel). unfold bind.
      now rewrite Hready.
    + now rewrite Hum.
    + rewrite (Hfield _ p_rts_flags) by reflexivity. exact Hflags1.
    + exact Hready.
    + simpl. rewrite Hprio1 in HL'.
      destruct HL' as [Hq' Hd']. split.
      * intros q. specialize (Hq' q). rewrite Hlist1 in Hq'. exact Hq'.
      * intros q1 q2 x. specialize (Hd' q1 q2 x). rewrite !Hlist1 in Hd'. exact Hd'.
    + rewrite Hp. now rewrite Hcaller1.
    + intros x. rewrite (Hfield _ p_caller_q), (Hfield _ p_q_link) by reflexivity.
      apply Hlinks1.
    + exact Hmemb.
  - exists st1.
    split; [|split; [|split; [|split; [|split; [|split; [|split]]]]]].
    + intros fuel Hfuel. now rewrite (Hsend fuel Hfuel).
    + exact Hmem1.
    + exact Hflags1.
    + reflexivity.
    + exact HL1.
    + now rewrite Hcaller1.
    + exact Hlinks1.
    + exact Hmemb.
Qed.

End Rendezvous.

Section RendezvousExamples.

#[local] Existing Instance Examples.minix.

Lemma st_3_receives_queues :
  rdy_queues Examples.st_3_receives Examples.queues_run1.
Proof.
  split.
  - intros q. unfold Examples.queues_run1.
    destruct (Z.eqb_spec q 7) as [->|Hne].
    + unfold rdy_queue, chain. cbn. repeat split.
      repeat constructor. intros [].
    + unfold rdy_queue, chain. cbn. unfold upd.
      rewrite (proj2 (Z.eqb_neq _ _) Hne). repeat split.
      * constructor.
      * intros H. now contradiction H.
  - intros q q' x. unfold Examples.queues_run1.
    destruct (Z.eqb_spec q 7) as [->|], (Z.eqb_spec q' 7) as [->|];
      simpl; tauto.
Qed.

Lemma mini_send_rendezvous_witness :
  exists st',
    (forall fuel, (1 <= fuel)%nat ->
       mini_send fuel 1 3 0 0 Examples.st_3_receives = Done OK st')
    /\ p_rts_flags (proc_tab st' 3) = 0.
Proof.
  destruct (mini_send_rendezvous Examples.st_3_receives 1 3 0 0 Examples.queues_run1)
    as (st' & Hsend & _ & Hflags & _).
  - reflexivity.
  - reflexivity.
  - discriminate.
  - exact st_3_receives_queues.
  - intros q. unfold Examples.queues_run1, proc_addr.
    destruct (q =? 7); simpl; intuition discriminate.
  - exists st'. split; [exact Hsend|exact Hflags].
Defined.

End RendezvousExamples.

(** *** The checks of [sys_call] *)

Section SysCall.

Context {kp : KernelParams}.

Lemma may_call_iff (st : kstate) (function src_dst : Z) :
  may_call st function src_dst <->
  (Z.land (s_call_mask (priv_of st (proc_ptr st))) (Z.shiftl 1 function) =? 0)
  || (iskerneln src_dst && negb (function =? SENDREC)) = false.
Proof.
  unfold may_call. rewrite orb_false_iff, andb_false_iff, Z.eqb_neq, negb_false_iff, Z.eqb_eq.
  destruct (iskerneln src_dst); intuition congruence.
Qed.

Lemma endpoint_ok_iff (function src_dst : Z) :
  endpoint_ok function src_dst <->
  negb (isokprocn src_dst || (src_dst =? ANY) || (function =? ECHO)) = false.
Proof.
  unfold endpoint_ok.
  rewrite negb_false_iff, !orb_true_iff, !Z.eqb_eq. tauto.
Qed.

Lemma buffer_ok_iff (st : kstate) (function m_ptr : Z) :
  buffer_ok st function m_ptr <->
  negb (Z.land function SENDREC =? 0) && bad_buffer st (proc_ptr st) m_ptr = false.
Proof.
  unfold buffer_ok.
  rewrite andb_false_iff, negb_false_iff, Z.eqb_eq.
  destruct (Z.eq_dec (Z.land function SENDREC) 0); intuition congruence.
Qed.

Lemma known_function_iff (function : Z) :
  known_function function <->
  (function =? SENDREC) || (function =? SEND) || (function =? RECEIVE)
  || (function =? ALERT) || (function =? NOTIFY) || (function =? ECHO) = true.
Proof.
  unfold known_function. rewrite !orb_true_iff, !Z.eqb_eq. tauto.
Qed.

Lemma dst_in_table_iff (function src_dst : Z) :
  dst_in_table function src_dst <->
  negb (Z.land function SEND =? 0) && negb (isokprocn src_dst) = false.
Proof.
  unfold dst_in_table.
  rewrite andb_false_iff, !negb_false_iff, Z.eqb_eq.
  destruct (Z.eq_dec (Z.land function SEND) 0); intuition congruence.
Qed.

(** X25.  [sys_call] checks, in this order: the privilege to make the call
    ([ECALLDENIED]), the source or destination ([EBADSRCDST], unless it is a
    valid process number, [ANY], or the call is [ECHO]), the message buffer
    ([EFAULT], only when the function has one of the [SENDREC] bits), and
    for a function with the [SEND] bit the send mask ([ECALLDENIED], with a
    warning printed) and that the destination is alive ([EDEADDST]).  The
    first check that fails decides the result, and the state returned is
    the state given.  A trap that passes every check with a function that
    is none of the six calls returns [EBADCALL], the state unchanged.  The
    send checks are made on a destination of the table only: for a function
    with the [SEND] bit and a number outside the table that the earlier
    checks let through ([ANY] is one), the send mask test reads outside the
    process table and the call does not return a result. *)
Theorem sys_call_validation (fuel : nat) (call_nr src_dst m_ptr : Z) (st : kstate) :
  let function := Z.land call_nr SYSCALL_FUNC in
  let result := sys_call fuel call_nr src_dst m_ptr st in
  (~ may_call st function src_dst -> result = (Done ECALLDENIED st, []))
  /\ (may_call st function src_dst ->
      (~ endpoint_ok function src_dst -> result = (Done EBADSRCDST st, []))
      /\ (endpoint_ok function src_dst ->
          (~ buffer_ok st function m_ptr -> result = (Done EFAULT st, []))
          /\ (buffer_ok st function m_ptr ->
              (~ dst_in_table function src_dst -> result = (Fault, []))
              /\ (dst_in_table function src_dst ->
                  (~ may_send st function src_dst ->
                   result
                   = (Done ECALLDENIED st, [(proc_nr st (proc_ptr st), src_dst)]))
                  /\ (may_send st function src_dst ->
                      (~ dst_alive st function src_dst ->
                       result = (Done EDEADDST st, []))
                      /\ (dst_alive st function src_dst ->
                          ~ known_function function ->
                          result = (Done EBADCALL st, []))))))).
Proof.
  intros function result. unfold result, sys_call, sys_call_check. fold function.
  rewrite (may_call_iff st function src_dst).
  rewrite (endpoint_ok_iff function src_dst).
  rewrite (buffer_ok_iff st function m_ptr).
  rewrite (known_function_iff function).
  rewrite (dst_in_table_iff function src_dst).
  unfold may_send, dst_alive.
  destruct (_ || (iskerneln src_dst && _)); [split; [reflexivity|discriminate]|].
  split; [congruence|intros _].
  destruct (negb (isokprocn src_dst || _ || _)); [split; [reflexivity|discriminate]|].
  split; [congruence|intros _].
  destruct (negb (Z.land function SENDREC =? 0) && _);
    [split; [reflexivity|discriminate]|].
  split; [congruence|intros _].
  destruct (Z.eqb_spec (Z.land function SEND) 0) as [E|E]; cbn [negb andb].
  - split; [congruence|intros _].
    split; [tauto|intros _]. split; [tauto|intros _ Hunknown].
    unfold sys_call_switch. fold function.
    destruct (function =? SENDREC), (function =? SEND), (function =? RECEIVE),
      (function =? ALERT), (function =? NOTIFY), (function =? ECHO);
      simpl in *; try congruence; reflexivity.
  - destruct (isokprocn src_dst); cbn [negb];
      [|split; [reflexivity|discriminate]].
    split; [congruence|intros _].
    destruct (get_sys_bit _ _); cbn [negb].
    + split; [intros H; exfalso; apply H; intros _; split; reflexivity|intros _].
      destruct (isemptyn st src_dst).
      * split; [reflexivity|]. intros H. specialize (H E). discriminate.
      * split; [intros H; exfalso; apply H; reflexivity|intros _ Hunknown].
        unfold sys_call_switch. fold function.
        destruct (function =? SENDREC), (function =? SEND), (function =? RECEIVE),
          (function =? ALERT), (function =? NOTIFY), (function =? ECHO);
          simpl in *; try congruence; reflexivity.
    + split; [reflexivity|]. intros H. destruct (H E) as [_ H']. discriminate.
Qed.

End SysCall.

Section SysCallExamples.

#[local] Existing Instance Examples.minix.

Lemma sys_call_validation_witness :
  sys_call 1 7 2 0 Examples.st0 = (Done EBADCALL Examples.st0, []).
Proof.
  destruct (sys_call_validation 1 7 2 0 Examples.st0) as [_ H].
  destruct H as [_ H]; [split; [discriminate|discriminate]|].
  destruct H as [_ H]; [left; reflexivity|].
  destruct H as [_ H]; [intros _; reflexivity|].
  destruct H as [_ H]; [intros _; reflexivity|].
  destruct H as [_ H]; [intros _; split; reflexivity|].
  apply H.
  - intros _. reflexivity.
  - intros [H'|[H'|[H'|[H'|[H'|H']]]]]; discriminate.
Defined.

(** C4 fails on the code.  Process 1, which may make every call and whose
    message buffer lies in its data segment, traps with [SEND] and the
    destination [ANY].  The privilege check passes, the endpoint check lets
    [ANY] through although it is no process number, the buffer check
    passes, and the send mask test then looks up the privilege structure of
    slot [ANY]: the read is outside the process table, and no error code
    comes back. *)
Theorem sys_call_send_to_any :
  let st := Examples.st_run1 in
  may_call st SEND ANY
  /\ endpoint_ok SEND ANY
  /\ buffer_ok st SEND 0
  /\ Z.land SEND SEND <> 0
  /\ isokprocn ANY = false
  /\ forall fuel, sys_call fuel SEND ANY 0 st = (Fault, []).
Proof.
  repeat split; try discriminate.
  right. left. reflexivity.
Qed.

End SysCallExamples.

(** *** Bit maps *)

Section Bitmaps.

Context {kp : KernelParams}.







Lemma land_bit (x j : Z) :
  0 <= j -> Z.land x (Z.shiftl 1 j) = if Z.testbit x j then 2 ^ j else 0.
Proof.
  intros Hj. rewrite Z.shiftl_1_l.
  apply Z.bits_inj'. intros n Hn.
  rewrite Z.land_spec, Z.pow2_bits_eqb by assumption.
  destruct (Z.eqb_spec j n) as [->|Hne].
  - destruct (Z.testbit x n); simpl.
    + now rewrite Z.pow2_bits_true.
    + now rewrite Z.bits_0.
  - rewrite andb_false_r. destruct (Z.testbit x j).
    + now rewrite Z.pow2_bits_false.
    + now rewrite Z.bits_0.
Qed.

Lemma land_bit_eqb (x j : Z) :
  0 <= j -> (Z.land x (Z.shiftl 1 j) =? 0) = negb (Z.testbit x j).
Proof.
  intros Hj. rewrite land_bit by assumption.
  destruct (Z.testbit x j); simpl.
  - apply Z.eqb_neq. pose proof (Z.pow_pos_nonneg 2 j). lia.
  - reflexivity.
Qed.

Lemma get_sys_bit_testbit (map : list Z) (bit : Z) :
  0 < BITCHUNK_BITS ->
  get_sys_bit map bit = Z.testbit (MAP_CHUNK map bit) (CHUNK_OFFSET bit).
Proof.
  intros HB. unfold get_sys_bit.
  rewrite land_bit_eqb; [now rewrite negb_involutive|].
  unfold CHUNK_OFFSET. apply Z.mod_pos_bound. assumption.
Qed.


Lemma chunk_zero (chunk : Z) :
  0 <= chunk < 2 ^ BITCHUNK_BITS ->
  (forall j, 0 <= j < BITCHUNK_BITS -> Z.testbit chunk j = false) ->
  chunk = 0.
Proof.
  intros Hc Hbits. apply Z.bits_inj'. intros n Hn. rewrite Z.bits_0.
  destruct (Z.lt_ge_cases n BITCHUNK_BITS) as [Hlt|Hge]; [apply Hbits; lia|].
  destruct (Z.eq_dec chunk 0) as [->|Hnz]; [apply Z.bits_0|].
  apply Z.bits_above_log2; [lia|].
  assert (Z.log2 chunk < BITCHUNK_BITS); [|lia].
  apply Z.log2_lt_pow2; lia.
Qed.

Lemma find_bit_lowest (chunk i0 : Z) (fuel : nat) :
  forall i,
    0 <= i <= i0 ->
    Z.testbit chunk i0 = true ->
    (forall j, i <= j < i0 -> Z.testbit chunk j = false) ->
    (Z.to_nat (i0 - i) < fuel)%nat ->
    find_bit fuel chunk i = Some i0.
Proof.
  induction fuel as [|fuel IH]; intros i Hi Hset Hclear Hfuel; [lia|].
  simpl. rewrite land_bit_eqb by lia.
  destruct (Z.eq_dec i i0) as [->|Hne].
  - now rewrite Hset.
  - rewrite Hclear by lia. simpl.
    apply IH; [lia|assumption| |lia].
    intros j Hj. apply Hclear. lia.
Qed.

End Bitmaps.

(** *** The scan of the pending map in [mini_receive] *)

Section Scan.

Context {kp : KernelParams}.

Lemma chunk_index (c j : Z) :
  0 <= j < BITCHUNK_BITS ->
  (c * BITCHUNK_BITS + j) / BITCHUNK_BITS = c
  /\ (c * BITCHUNK_BITS + j) mod BITCHUNK_BITS = j.
Proof.
  intros Hj. split.
  - symmetry. apply (Z.div_unique_pos _ _ c j); lia.
  - symmetry. apply (Z.mod_unique_pos _ _ c j); lia.
Qed.

Lemma chunk_testbit (map : list Z) (c j : Z) :
  0 <= c -> 0 <= j < BITCHUNK_BITS ->
  get_sys_bit map (c * BITCHUNK_BITS + j) = Z.testbit (nth (Z.to_nat c) map 0) j.
Proof.
  intros Hc Hj. rewrite get_sys_bit_testbit by lia.
  unfold MAP_CHUNK, CHUNK_OFFSET.
  destruct (chunk_index c j Hj) as [-> ->]. reflexivity.
Qed.

(** When the lowest bit set in the map is bit [id] and its source is
    acceptable, the scan stops at that bit. *)
Lemma notify_scan_first (st : kstate) (map : sys_map_t) (src id : Z) (fuel : nat) :
  sys_map_ok map ->
  0 <= id < NR_SYS_PROCS ->
  get_sys_bit map id = true ->
  (forall b, 0 <= b < id -> get_sys_bit map b = false) ->
  src = ANY \/ src = id_to_nr st id ->
  (Z.to_nat BITCHUNK_BITS <= fuel)%nat ->
  notify_scan fuel (Z.to_nat NR_SYS_CHUNKS) 0 map src st
  = ScanFound (id / BITCHUNK_BITS) (id mod BITCHUNK_BITS) (id_to_nr st id).
Proof.
  intros (HB & Hsize & Hlen & Hrange) Hid Hset Hclear Hsrc Hfuel.
  set (c0 := id / BITCHUNK_BITS). set (i0 := id mod BITCHUNK_BITS).
  assert (Hi0 : 0 <= i0 < BITCHUNK_BITS) by (apply Z.mod_pos_bound; lia).
  assert (Hdm : id = c0 * BITCHUNK_BITS + i0).
  { unfold c0, i0. rewrite Z.mul_comm. apply Z.div_mod. lia. }
  assert (Hc0 : 0 <= c0 < NR_SYS_CHUNKS).
  { split; [apply Z.div_pos; lia|]. nia. }
  assert (Hgen : forall n c,
             0 <= c <= c0 -> Z.of_nat n = NR_SYS_CHUNKS - c ->
             notify_scan fuel n c map src st = ScanFound c0 i0 (id_to_nr st id)).
  { induction n as [|n IH]; intros c Hc Hn; [lia|].
    cbn [notify_scan].
    assert (Hin : In (nth (Z.to_nat c) map 0) map) by (apply nth_In; lia).
    destruct (Z.eq_dec c c0) as [->|Hne].
    - assert (Hbit : Z.testbit (nth (Z.to_nat c0) map 0) i0 = true).
      { rewrite <- chunk_testbit by lia. now rewrite <- Hdm. }
      destruct (Z.eqb_spec (nth (Z.to_nat c0) map 0) 0) as [E|E].
      { rewrite E, Z.bits_0 in Hbit. discriminate. }
      rewrite (find_bit_lowest _ i0); [|lia|assumption| |lia].
      + rewrite <- Hdm.
        destruct (Z.geb_spec id NR_SYS_PROCS); [lia|].
        destruct Hsrc as [->| ->]; rewrite Z.eqb_refl; simpl.
        * reflexivity.
        * now rewrite andb_false_r.
      + intros j Hj. rewrite <- chunk_testbit by lia. apply Hclear. nia.
    - rewrite (chunk_zero (nth (Z.to_nat c) map 0)).
      + simpl. apply IH; lia.
      + now apply Hrange.
      + intros j Hj. rewrite <- chunk_testbit by lia. apply Hclear. nia. }
  apply Hgen; lia.
Qed.

End Scan.

(** *** Notifications: [BuildMess], [mini_alert] and the pickup in
    [mini_receive] *)

Section Notifications.

Context {kp : KernelParams}.







End Notifications.

Section Alert.

Context {kp : KernelParams}.




End Alert.

Section NotificationExamples.

#[local] Existing Instance Examples.minix.

Lemma st_run1_queues : rdy_queues Examples.st_run1 Examples.queues_run1.
Proof.
  split.
  - intros q. unfold Examples.queues_run1.
    destruct (Z.eqb_spec q 7) as [->|Hne].
    + unfold rdy_queue, chain. cbn. repeat split.
      repeat constructor. intros [].
    + unfold rdy_queue, chain. cbn. unfold upd.
      rewrite (proj2 (Z.eqb_neq _ _) Hne). repeat split.
      * constructor.
      * intros H. now contradiction H.
  - intros q q' x. unfold Examples.queues_run1.
    destruct (Z.eqb_spec q 7) as [->|], (Z.eqb_spec q' 7) as [->|];
      simpl; tauto.
Qed.



(** C6 fails on the code.  A notification from [SYSTEM] (id 2) is pending
    for process 3, which is runnable.  Process 2 (id 6) alerts process 3
    three times: each call returns [OK] and the map holds the bits 2 and 6.
    Process 3, not [SENDING], then asks for a message from process 2,
    without [FRESH_ANSWER] and without blocking.  The scan of
    [mini_receive] looks at the lowest bit of the chunk only, finds
    [SYSTEM] there and goes on to the next chunk: the call returns
    [ENOTREADY], no notification with source 2 is delivered and its bit
    stays set.  Besides, an [ALERT] trap with the destination [ANY] passes
    the checks of [sys_call], and [mini_alert] is called with a number
    that names no slot: it does not return [OK], the access to the slot
    lies outside the process table. *)
Theorem alerts_not_received :
  let st := MoreExamples.st_system_pending in
  awaits st 3 2 = false
  /\ nr_to_id st 2 = 6
  /\ id_to_nr st 6 = 2
  /\ (exists stn,
        alerts 3 2 3 st = Done OK stn
        /\ pending_of stn 3 = [68; 0]
        /\ Z.land (p_rts_flags (proc_tab stn 3)) SENDING = 0
        /\ forall fuel, (3 <= fuel)%nat ->
             mini_receive fuel 3 2 0 NON_BLOCKING stn = Done ENOTREADY stn)
  /\ (isokprocn ANY = false
      /\ forall fuel, sys_call fuel ALERT ANY 0 Examples.st_run1 = (Fault, [])).
Proof.
  repeat split.
  eexists. split; [reflexivity|]. repeat split.
  intros [|[|[|fuel]]] Hfuel; try lia. reflexivity.
Qed.

(** C1 fails on the code.  Notifications from the sources with ids 0 and 1
    are pending for process 1, which is not [SENDING] and asks, without
    [FRESH_ANSWER] and without blocking, for the source of id 1 (process
    -3).  The scan looks at the lowest bit of the chunk only, finds the
    other source there and goes on to the next chunk: [mini_receive]
    returns [ENOTREADY] and the bit of the requested source stays set. *)
Theorem mini_receive_skips_pending :
  let st := Examples.st_two_pending in
  Z.land (p_rts_flags (proc_tab st 1)) SENDING = 0
  /\ Z.land NON_BLOCKING FRESH_ANSWER = 0
  /\ get_sys_bit (pending_of st 1) 1 = true
  /\ id_to_nr st 1 = -3
  /\ forall fuel, (1 <= fuel)%nat ->
       mini_receive fuel 1 (-3) 0 NON_BLOCKING st = Done ENOTREADY st.
Proof.
  repeat split.
  intros [|fuel] Hfuel; [lia|]. reflexivity.
Qed.

End NotificationExamples.

(** *** The notification queue in [mini_notify] *)

Section NotifyQueue.

Context {kp : KernelParams}.









End NotifyQueue.

Section NotifyTwice.

Context {kp : KernelParams}.



End NotifyTwice.

Section NotifyExamples.

#[local] Existing Instance Examples.minix.


End NotifyExamples.

(** *** The effect of [unready] on the ready queues *)

Section Unready.

Context {kp : KernelParams}.

Lemma rdy_pos_snoc (q : Z) (l : list Z) (a : Z) :
  rdy_pos q (l ++ [a]) = NextReady a /\ rdy_prev (l ++ [a]) = Some a.
Proof.
  unfold rdy_pos, rdy_prev.
  destruct (l ++ [a]) eqn:E; [now destruct l|].
  rewrite <- E, last_last. now split.
Qed.

Lemma unready_loop_missing (st : kstate) (rp q : Z) (rest : list Z) :
  forall xpp prev fuel,
    lseg (nextready_of st) (load_rdy st xpp) rest None ->
    ~ In rp rest ->
    (length rest < fuel)%nat ->
    unready_loop fuel rp q xpp prev st = Done tt st.
Proof.
  induction rest as [|a rest IH]; intros xpp prev fuel Hseg Hnot Hfuel;
    (destruct fuel as [|fuel]; [simpl in Hfuel; lia|]); simpl in *.
  - now rewrite Hseg.
  - destruct Hseg as [-> Hseg].
    destruct (Z.eqb_spec a rp) as [->|Hne]; [tauto|].
    apply IH; [exact Hseg|tauto|lia].
Qed.

Lemma unready_loop_found (st : kstate) (rp q : Z) (r2 : list Z) (r1 : list Z) :
  forall l1 fuel,
    lseg (nextready_of st) (load_rdy st (rdy_pos q l1)) (r1 ++ rp :: r2) None ->
    ~ In rp r1 ->
    (length r1 < fuel)%nat ->
    unready_loop fuel rp q (rdy_pos q l1) (rdy_prev l1) st
    = Done tt (unlink rp q (l1 ++ r1) st).
Proof.
  induction r1 as [|a r1 IH]; intros l1 fuel Hseg Hnot Hfuel;
    (destruct fuel as [|fuel]; [simpl in Hfuel; lia|]); simpl in Hseg.
  - destruct Hseg as [Hload _]. cbn [unready_loop]. rewrite Hload, Z.eqb_refl.
    rewrite app_nil_r. reflexivity.
  - destruct Hseg as [Hload Hseg]. cbn [unready_loop]. rewrite Hload.
    destruct (Z.eqb_spec a rp) as [->|Hne]; [simpl in Hnot; tauto|].
    destruct (rdy_pos_snoc q l1 a) as [Epos Eprev].
    rewrite <- Epos, <- Eprev.
    rewrite (IH (l1 ++ [a]) fuel).
    + now rewrite <- app_assoc.
    + rewrite Epos. exact Hseg.
    + simpl in Hnot. tauto.
    + simpl in Hfuel. lia.
Qed.

Lemma rdy_queue_unlink (st : kstate) (rp q : Z) (l0 r2 : list Z) :
  rdy_queue st q (l0 ++ rp :: r2) ->
  rdy_queue (unlink rp q l0 st) q (l0 ++ r2).
Proof.
  intros (Hch & Hnd & Htl). unfold unlink.
  set (st_a := store_rdy (rdy_pos q l0) (p_nextready (proc_tab st rp)) st).
  assert (Hnd' : NoDup (l0 ++ r2)) by now apply NoDup_remove_1 in Hnd.
  assert (Hrp : ~ In rp (l0 ++ r2)) by now apply NoDup_remove_2 in Hnd.
  assert (Hch_a : chain (nextready_of st_a) (rdy_head st_a q) (l0 ++ r2)).
  { unfold chain in *. apply lseg_app in Hch. destruct Hch as (mid & Hs1 & Hs2).
    simpl in Hs2. destruct Hs2 as [-> Hs2].
    destruct (list_eq_dec Z.eq_dec l0 []) as [->|Hne].
    - simpl in *. unfold st_a. cbn. unfold upd. rewrite Z.eqb_refl. exact Hs2.
    - destruct (list_snoc_last l0 Hne) as [l0' El0].
      remember (last l0 0) as t eqn:Et. subst l0.
      destruct (rdy_pos_snoc q l0' t) as [Epos _].
      unfold st_a. rewrite Epos.
      rewrite <- app_assoc in Hnd'. simpl in Hnd'.
      apply lseg_app in Hs1. destruct Hs1 as (mid & Hs1 & Hs3).
      simpl in Hs3. destruct Hs3 as [-> Hs3].
      rewrite <- app_assoc. apply lseg_app. exists (Some t). split.
      + apply (lseg_frame (nextready_of st)); [|exact Hs1].
        intros x Hx. unfold nextready_of. cbn. unfold upd.
        destruct (Z.eqb_spec x t) as [->|]; [|reflexivity].
        exfalso. apply NoDup_remove_2 in Hnd'. apply Hnd'.
        apply in_or_app. now left.
      + simpl. split; [reflexivity|].
        unfold nextready_of at 2. cbn. unfold upd. rewrite Z.eqb_refl. cbn.
        apply (lseg_frame (nextready_of st)); [|exact Hs2].
        intros x Hx. unfold nextready_of. cbn. unfold upd.
        destruct (Z.eqb_spec x t) as [->|]; [|reflexivity].
        exfalso. apply NoDup_remove_2 in Hnd'. apply Hnd'.
        apply in_or_app. now right. }
  assert (Htl_a : rdy_tail st_a q = rdy_tail st q).
  { unfold st_a. destruct (rdy_pos q l0); reflexivity. }
  set (st_b := if opt_eqb (Some rp) (rdy_tail st_a q)
               then set_rdy_tail (upd (rdy_tail st_a) q (rdy_prev l0)) st_a else st_a).
  assert (Htail : rdy_tail st_a q = Some (last (rp :: r2) 0)).
  { rewrite Htl_a, Htl by now destruct l0. f_equal. apply last_app_r. discriminate. }
  assert (Hq_b : rdy_queue st_b q (l0 ++ r2)).
  { unfold rdy_queue, st_b. rewrite Htail.
    destruct r2 as [|b r2].
    - cbn [last opt_eqb]. rewrite Z.eqb_refl. rewrite app_nil_r in *.
      split; [exact Hch_a|]. split; [exact Hnd'|].
      intros Hne. cbn. unfold upd. rewrite Z.eqb_refl.
      unfold rdy_prev. destruct l0; [contradiction|reflexivity].
    - change (last (rp :: b :: r2) 0) with (last (b :: r2) 0) in *.
      assert (Hneq : rp <> last (b :: r2) 0).
      { intros E. apply Hrp. apply in_or_app. right. rewrite E.
        apply last_in. discriminate. }
      cbn [opt_eqb]. rewrite (proj2 (Z.eqb_neq _ _) Hneq).
      split; [exact Hch_a|]. split; [exact Hnd'|].
      intros _. rewrite Htail.
      rewrite last_app_r by discriminate. reflexivity. }
  fold st_b.
  destruct ((rp =? proc_ptr st_b) || opt_eqb (Some rp) (next_ptr st_b));
    [now apply rdy_queue_pick_proc|exact Hq_b].
Qed.

Lemma rdy_queue_unlink_other (st : kstate) (rp q q' : Z) (l0 l' : list Z) :
  q' <> q ->
  rdy_queue st q' l' ->
  (forall x, In x l' -> ~ In x l0) ->
  rdy_queue (unlink rp q l0 st) q' l'.
Proof.
  intros Hne Hq Hdisj. unfold unlink.
  set (st_a := store_rdy (rdy_pos q l0) (p_nextready (proc_tab st rp)) st).
  set (st_b := if opt_eqb (Some rp) (rdy_tail st_a q)
               then set_rdy_tail (upd (rdy_tail st_a) q (rdy_prev l0)) st_a else st_a).
  assert (Hq_b : rdy_queue st_b q' l').
  { apply (rdy_queue_frame st); [exact Hq| | |].
    - unfold st_b, st_a.
      destruct (opt_eqb _ _); unfold rdy_pos; destruct l0; cbn; unfold upd;
        rewrite ?(proj2 (Z.eqb_neq _ _) Hne); reflexivity.
    - unfold st_b, st_a.
      destruct (opt_eqb _ _); unfold rdy_pos; destruct l0; cbn; unfold upd;
        rewrite ?(proj2 (Z.eqb_neq _ _) Hne); reflexivity.
    - intros x Hx. specialize (Hdisj x Hx).
      unfold st_b, st_a, nextready_of.
      destruct (list_eq_dec Z.eq_dec l0 []) as [->|Hnil].
      + match goal with
        | |- context [if ?c then _ else _] => destruct c
        end; reflexivity.
      + destruct (list_snoc_last l0 Hnil) as [l0' El0].
        remember (last l0 0) as t eqn:Et.
        assert (Hxt : x <> t).
        { intros ->. apply Hdisj. rewrite El0. apply in_or_app. right. now left. }
        rewrite El0. destruct (rdy_pos_snoc q l0' t) as [-> _].
        match goal with
        | |- context [if ?c then _ else _] => destruct c
        end; cbn; unfold upd;
          (destruct (Z.eqb_spec x t); [contradiction|reflexivity]). }
  fold st_b.
  destruct ((rp =? proc_ptr st_b) || opt_eqb (Some rp) (next_ptr st_b));
    [now apply rdy_queue_pick_proc|exact Hq_b].
Qed.

Lemma same_but_queues_unlink (st : kstate) (rp q : Z) (l0 : list Z) :
  same_but_queues st (unlink rp q l0 st).
Proof.
  unfold unlink.
  set (st_a := store_rdy (rdy_pos q l0) (p_nextready (proc_tab st rp)) st).
  assert (Ha : same_but_queues st st_a).
  { unfold st_a. destruct (rdy_pos q l0) as [q'|t]; repeat split.
    intros x. cbn. unfold upd. destruct (Z.eqb_spec x t) as [->|]; reflexivity. }
  set (st_b := if opt_eqb (Some rp) (rdy_tail st_a q)
               then set_rdy_tail (upd (rdy_tail st_a) q (rdy_prev l0)) st_a else st_a).
  assert (Hb : same_but_queues st st_b).
  { unfold st_b. destruct (opt_eqb _ _); [|exact Ha].
    destruct Ha as (H1 & H2 & H3 & H4 & H5 & H6 & H7). repeat split; assumption. }
  destruct ((rp =? proc_ptr st_b) || opt_eqb (Some rp) (next_ptr st_b));
    [now apply same_but_queues_pick_proc|exact Hb].
Qed.

End Unready.

Section UnreadySpec.

Context {kp : KernelParams}.

Lemma remove_middle (rp : Z) (l0 r2 : list Z) :
  ~ In rp (l0 ++ r2) ->
  remove Z.eq_dec rp (l0 ++ rp :: r2) = l0 ++ r2.
Proof.
  intros Hnot. rewrite remove_app. simpl.
  destruct (Z.eq_dec rp rp) as [_|N]; [|contradiction].
  rewrite !notin_remove; [reflexivity| |];
    intros H; apply Hnot; apply in_or_app; auto.
Qed.

Lemma same_but_queues_sched (sp : Z) (st st' : kstate) :
  same_but_queues st st' -> same_but_sched sp st st'.
Proof.
  intros (Hp & H2 & H3 & H4 & H5 & H6 & H7). repeat split; try assumption.
  - intros x _. apply Hp.
  - specialize (Hp sp). unfold unscheduled. unfold unlinked in Hp. now rewrite Hp.
Qed.

Lemma same_but_sched_trans (sp : Z) (st1 st2 st3 : kstate) :
  same_but_sched sp st1 st2 -> same_but_sched sp st2 st3 -> same_but_sched sp st1 st3.
Proof.
  intros (Ha & Hb & H3 & H4 & H5 & H6 & H7 & H8) (Ha' & Hb' & H3' & H4' & H5' & H6' & H7' & H8').
  repeat split; try congruence.
  intros x Hx. rewrite Ha' by assumption. now apply Ha.
Qed.

(** A step that writes scheduling fields of [sp] only. *)
Lemma same_but_sched_with_proc (sp : Z) (f : proc -> proc) (st : kstate) :
  (forall p, unscheduled (f p) = unscheduled p) ->
  same_but_sched sp st (with_proc sp f st).
Proof.
  intros Hf. repeat split.
  - intros x Hx. cbn. unfold upd. now rewrite (proj2 (Z.eqb_neq _ _) Hx).
  - cbn. unfold upd. rewrite Z.eqb_refl. apply Hf.
Qed.

Lemma rdy_queues_with_proc (rp : Z) (f : proc -> proc) (st : kstate) (L : Z -> list Z) :
  (forall p, p_nextready (f p) = p_nextready p) ->
  rdy_queues st L -> rdy_queues (with_proc rp f st) L.
Proof.
  intros Hf [Hq Hd]. split; [|assumption].
  intros q. apply (rdy_queue_frame st); [apply Hq|reflexivity|reflexivity|].
  intros x _. unfold nextready_of. cbn. unfold upd.
  destruct (Z.eqb_spec x rp) as [->|]; [apply Hf|reflexivity].
Qed.

Lemma unready_spec (st : kstate) (rp : Z) (L : Z -> list Z) (fuel : nat) :
  rdy_queues st L ->
  (iskernelp st rp = true -> s_stack_guard (priv_of st rp) = STACK_GUARD) ->
  (length (L (p_priority (proc_tab st rp))) < fuel)%nat ->
  exists st',
    unready fuel rp st = Done tt st'
    /\ rdy_queues st'
         (fun q => if q =? p_priority (proc_tab st rp)
                   then remove Z.eq_dec rp (L q) else L q)
    /\ same_but_sched rp st st'
    /\ p_priority (proc_tab st' rp) = p_max_priority (proc_tab st rp)
    /\ p_full_quantums (proc_tab st' rp) = QUANTUMS (p_max_priority (proc_tab st rp))
    /\ p_sched_ticks (proc_tab st' rp) = p_sched_ticks (proc_tab st rp).
Proof.
  intros [Hq Hd] Hguard Hfuel.
  set (q := p_priority (proc_tab st rp)) in *.
  assert (Hloop : exists st1,
             unready_loop fuel rp q (RdyHead q) None st = Done tt st1
             /\ rdy_queues st1 (fun q' => if q' =? q then remove Z.eq_dec rp (L q') else L q')
             /\ same_but_queues st st1).
  { assert (Hd' : forall q1 q2 x,
               In x (if q1 =? q then remove Z.eq_dec rp (L q1) else L q1) ->
               In x (if q2 =? q then remove Z.eq_dec rp (L q2) else L q2) -> q1 = q2).
    { intros q1 q2 x H1 H2. apply (Hd q1 q2 x).
      - destruct (q1 =? q); [now apply in_remove in H1|assumption].
      - destruct (q2 =? q); [now apply in_remove in H2|assumption]. }
    destruct (Hq q) as (Hch & Hnd & Htl).
    destruct (in_dec Z.eq_dec rp (L q)) as [Hin|Hnin].
    - apply in_split in Hin. destruct Hin as (l0 & r2 & El).
      assert (Hrp : ~ In rp (l0 ++ r2)).
      { rewrite El in Hnd. now apply NoDup_remove_2 in Hnd. }
      exists (unlink rp q l0 st). split; [|split].
      + change (RdyHead q) with (rdy_pos q []). change (@None Z) with (rdy_prev []).
        rewrite (unready_loop_found st rp q r2 l0 []); [reflexivity| | |].
        * unfold chain in Hch. now rewrite El in Hch.
        * intros H. apply Hrp. apply in_or_app. now left.
        * rewrite El, length_app in Hfuel. lia.
      + split; [|exact Hd'].
        intros q'. destruct (Z.eqb_spec q' q) as [->|Hne].
        * rewrite El, remove_middle by assumption.
          apply rdy_queue_unlink. rewrite <- El. apply Hq.
        * apply rdy_queue_unlink_other; [assumption|apply Hq|].
          intros x Hx Hx0. apply Hne. apply (Hd q' q x); [assumption|].
          rewrite El. apply in_or_app. now left.
      + apply same_but_queues_unlink.
    - exists st. split; [|split].
      + apply (unready_loop_missing st rp q (L q)); assumption.
      + split; [|exact Hd'].
        intros q'. destruct (Z.eqb_spec q' q) as [->|Hne]; [|apply Hq].
        rewrite notin_remove by assumption. apply Hq.
      + repeat split. }
  destruct Hloop as (st1 & Hrun & HL1 & Hfr1).
  unfold unready. fold q.
  assert (Hg : iskernelp st rp && negb (s_stack_guard (priv_of st rp) =? STACK_GUARD) = false).
  { destruct (iskernelp st rp); [|reflexivity].
    rewrite (Hguard eq_refl), Z.eqb_refl. reflexivity. }
  rewrite Hg. unfold bind. rewrite Hrun.
  eexists. split; [reflexivity|].
  destruct Hfr1 as (Hp1 & Hrest).
  assert (Hfield : forall (A : Type) (f : proc -> A),
             (forall p, f (unlinked p) = f p) ->
             forall x, f (proc_tab st1 x) = f (proc_tab st x)).
  { intros A f Hf x. rewrite <- (Hf (proc_tab st1 x)), <- (Hf (proc_tab st x)).
    now rewrite Hp1. }
  split; [|split; [|split; [|split]]].
  - apply rdy_queues_with_proc; [reflexivity|].
    apply rdy_queues_with_proc; [reflexivity|]. exact HL1.
  - apply (same_but_sched_trans rp st st1);
      [apply same_but_queues_sched; split; assumption|].
    apply (same_but_sched_trans rp st1
             (with_proc rp (fun p => set_p_priority (p_max_priority p) p) st1));
      apply same_but_sched_with_proc; reflexivity.
  - cbn. unfold upd. rewrite !Z.eqb_refl. cbn.
    now rewrite (Hfield _ p_max_priority) by reflexivity.
  - cbn. unfold upd. rewrite !Z.eqb_refl. cbn.
    now rewrite (Hfield _ p_max_priority) by reflexivity.
  - cbn. unfold upd. rewrite !Z.eqb_refl. cbn.
    now rewrite (Hfield _ p_sched_ticks) by reflexivity.
Qed.

End UnreadySpec.

(** *** The rotation in [sched] *)

Section Rotate.

Context {kp : KernelParams}.

Lemma rotate_in (sp : Z) (l : list Z) (x : Z) : In x (rotate sp l) -> In x l.
Proof.
  destruct l as [|a l]; simpl; [tauto|].
  destruct (Z.eqb_spec a sp) as [->|]; [|tauto].
  intros H. apply in_app_or in H. destruct H as [H|[<-|[]]]; auto.
Qed.

Lemma sched_rotate_spec (st : kstate) (sp : Z) (L : Z -> list Z) :
  rdy_queues st L ->
  exists st',
    sched_rotate sp st = Done tt st'
    /\ rdy_queues st'
         (fun q => if q =? p_priority (proc_tab st sp) then rotate sp (L q) else L q)
    /\ same_but_queues st st'.
Proof.
  intros [Hq Hd].
  set (q := p_priority (proc_tab st sp)).
  assert (Hd' : forall q1 q2 x,
             In x (if q1 =? q then rotate sp (L q1) else L q1) ->
             In x (if q2 =? q then rotate sp (L q2) else L q2) -> q1 = q2).
  { intros q1 q2 x H1 H2. apply (Hd q1 q2 x).
    - destruct (q1 =? q); [now apply rotate_in in H1|assumption].
    - destruct (q2 =? q); [now apply rotate_in in H2|assumption]. }
  destruct (Hq q) as (Hch & Hnd & Htl). unfold chain in Hch.
  unfold sched_rotate. fold q.
  destruct (L q) as [|a tl] eqn:ELq.
  - (* empty queue *)
    simpl in Hch. rewrite Hch. cbn [opt_eqb].
    exists st. split; [reflexivity|]. split; [|repeat split].
    split; [|exact Hd'].
    intros q'. destruct (Z.eqb_spec q' q) as [->|]; [|apply Hq].
    rewrite ELq. simpl. rewrite <- ELq. apply Hq.
  - destruct Hch as [Hhead Hch]. rewrite Hhead. cbn [opt_eqb].
    destruct (Z.eqb_spec a sp) as [->|Hne].
    + (* [sp] is the head: rotate *)
      rewrite Htl by discriminate.
      destruct tl as [|b tl'].
      * (* [sp] alone *)
        cbn [last]. cbn. unfold upd. rewrite ?Z.eqb_refl. cbn.
        rewrite ?Hhead. cbn. rewrite ?Z.eqb_refl. cbn.
        eexists. split; [reflexivity|]. split.
        -- split; [|exact Hd'].
           intros q'. destruct (Z.eqb_spec q' q) as [->|Hneq].
           ++ rewrite ELq. simpl. rewrite Z.eqb_refl. simpl.
              unfold rdy_queue, chain, nextready_of. cbn. unfold upd.
              rewrite !Z.eqb_refl. cbn. repeat split. exact Hnd.
           ++ apply (rdy_queue_frame st); [apply Hq| | |].
              ** cbn. unfold upd. now rewrite (proj2 (Z.eqb_neq _ _) Hneq).
              ** cbn. unfold upd. now rewrite (proj2 (Z.eqb_neq _ _) Hneq).
              ** intros x Hx. unfold nextready_of. cbn. unfold upd.
                 destruct (Z.eqb_spec x sp) as [->|]; [|reflexivity].
                 exfalso. apply Hneq. apply (Hd q' q sp); [assumption|].
                 rewrite ELq. now left.
        -- repeat split. intros x. cbn. unfold upd.
           destruct (Z.eqb_spec x sp) as [->|]; rewrite ?Z.eqb_refl; reflexivity.
      * (* others follow *)
        change (last (sp :: b :: tl') 0) with (last (b :: tl') 0).
        destruct (list_snoc_last (b :: tl')) as [tl0 Etl]; [discriminate|].
        remember (last (b :: tl') 0) as t eqn:Et.
        assert (Hin_t : In t (b :: tl')) by (rewrite Etl; apply in_or_app; right; now left).
        assert (Htsp : t <> sp).
        { intros ->. inversion Hnd. contradiction. }
        assert (Hnext_sp : p_nextready (proc_tab st sp) = Some b).
        { simpl in Hch. destruct Hch as [Hch _]. exact Hch. }
        cbn. unfold upd. rewrite ?Z.eqb_refl. cbn.
        rewrite ?Hhead. cbn. rewrite ?Z.eqb_refl. cbn.
        rewrite ?(proj2 (Z.eqb_neq _ _) (not_eq_sym Htsp)). rewrite ?Hnext_sp.
        eexists. split; [reflexivity|]. split.
        -- split; [|exact Hd'].
           intros q'. destruct (Z.eqb_spec q' q) as [->|Hneq].
           ++ rewrite ELq. simpl. rewrite Z.eqb_refl.
              change (b :: tl' ++ [sp]) with ((b :: tl') ++ [sp]).
              unfold rdy_queue, chain. split; [|split].
              ** rewrite Etl. rewrite Etl in Hch.
                 apply lseg_app in Hch. destruct Hch as (mid & Hs1 & Hs2).
                 simpl in Hs2. destruct Hs2 as [-> Hs2].
                 unfold nextready_of at 2 in Hs1. rewrite Hnext_sp in Hs1.
                 rewrite <- app_assoc. apply lseg_app. exists (Some t). split.
                 --- match goal with
                     | |- lseg _ ?h _ _ => replace h with (Some b)
                         by (cbn; unfold upd; now rewrite Z.eqb_refl)
                     end.
                     apply (lseg_frame (nextready_of st)); [|exact Hs1].
                     intros x Hx. unfold nextready_of. cbn. unfold upd.
                     assert (Hxl : In x (b :: tl'))
                       by (rewrite Etl; apply in_or_app; now left).
                     destruct (Z.eqb_spec x sp) as [->|];
                       [inversion Hnd; contradiction|].
                     destruct (Z.eqb_spec x t) as [->|]; [|reflexivity].
                     exfalso. apply NoDup_cons_iff in Hnd. destruct Hnd as [_ Hnd].
                     rewrite Etl in Hnd. apply NoDup_remove_2 in Hnd.
                     rewrite app_nil_r in Hnd. contradiction.
                 --- simpl. unfold nextready_of. cbn. unfold upd.
                     rewrite (proj2 (Z.eqb_neq _ _) Htsp), !Z.eqb_refl. cbn. auto.
              ** apply NoDup_cons_iff in Hnd. destruct Hnd as [Hnsp Hnd].
                 apply NoDup_app; [assumption|repeat constructor; intros []|].
                 intros x Hx [<-|[]]. contradiction.
              ** intros _. rewrite last_last. cbn. unfold upd. now rewrite Z.eqb_refl.
           ++ apply (rdy_queue_frame st); [apply Hq| | |].
              ** cbn. unfold upd. now rewrite (proj2 (Z.eqb_neq _ _) Hneq).
              ** cbn. unfold upd. now rewrite (proj2 (Z.eqb_neq _ _) Hneq).
              ** intros x Hx. unfold nextready_of. cbn. unfold upd.
                 destruct (Z.eqb_spec x sp) as [->|].
                 { exfalso. apply Hneq. apply (Hd q' q sp); [assumption|].
                   rewrite ELq. now left. }
                 destruct (Z.eqb_spec x t) as [->|]; [|reflexivity].
                 exfalso. apply Hneq. apply (Hd q' q t); [assumption|].
                 rewrite ELq. now right.
        -- repeat split. intros x. cbn. unfold upd.
           destruct (Z.eqb_spec x sp) as [->|];
             [destruct (Z.eqb_spec sp t) as [->|]|destruct (Z.eqb_spec x t) as [->|]];
             reflexivity.
    + (* another slot is the head *)
      exists st. split; [reflexivity|]. split; [|repeat split].
      split; [|exact Hd'].
      intros q'. destruct (Z.eqb_spec q' q) as [->|]; [|apply Hq].
      rewrite ELq. simpl. rewrite (proj2 (Z.eqb_neq _ _) Hne).
      rewrite <- ELq. apply Hq.
Qed.

End Rotate.

(** *** [sched] *)

Section Sched.

Context {kp : KernelParams}.

Lemma rdy_queues_ext (st : kstate) (L L' : Z -> list Z) :
  (forall q, L q = L' q) -> rdy_queues st L -> rdy_queues st L'.
Proof.
  intros E [Hq Hd]. split.
  - intros q. rewrite <- E. apply Hq.
  - intros q q' x. rewrite <- !E. apply Hd.
Qed.

Lemma rotate_ready_list (st : kstate) (sp : Z) (l : list Z) :
  ~ In sp l -> rotate sp (ready_list st sp l) = l ++ [sp].
Proof.
  intros Hnot. destruct l as [|a l]; simpl.
  - now rewrite Z.eqb_refl.
  - destruct (Z.land _ RDY_Q_HEAD =? 0); simpl.
    + rewrite (proj2 (Z.eqb_neq a sp)); [reflexivity|].
      intros ->. apply Hnot. now left.
    + now rewrite Z.eqb_refl.
Qed.

Lemma unscheduled_field (sp : Z) (st st' : kstate) (A : Type) (f : proc -> A) :
  same_but_sched sp st st' ->
  (forall p, f (unscheduled p) = f p) ->
  f (proc_tab st' sp) = f (proc_tab st sp).
Proof.
  intros (_ & Hsp & _) Hf.
  rewrite <- (Hf (proc_tab st' sp)), <- (Hf (proc_tab st sp)). now rewrite Hsp.
Qed.

Lemma same_but_sched_priv (sp : Z) (st st' : kstate) :
  same_but_sched sp st st' -> priv_of st' sp = priv_of st sp.
Proof.
  intros H. unfold priv_of, priv_ptr.
  rewrite (unscheduled_field sp st st' _ p_priv H) by reflexivity.
  destruct H as (_ & _ & -> & _). reflexivity.
Qed.

Lemma sched_demote_spec (st : kstate) (sp : Z) (L : Z -> list Z) (fuel : nat) :
  rdy_queues st L ->
  (forall q, In sp (L q) -> q = p_priority (proc_tab st sp)) ->
  (iskernelp st sp = true -> s_stack_guard (priv_of st sp) = STACK_GUARD) ->
  (length (L (p_priority (proc_tab st sp))) < fuel)%nat ->
  let q0 := p_priority (proc_tab st sp) in
  let fq := p_full_quantums (proc_tab st sp) - 1 in
  exists st3,
    sched_demote fuel sp st = Done tt st3
    /\ same_but_sched sp st st3
    /\ p_sched_ticks (proc_tab st3 sp) = p_sched_ticks (proc_tab st sp)
    /\ (fq <= 0 /\ q0 + 1 < IDLE_Q ->
        p_priority (proc_tab st3 sp) = q0 + 1
        /\ p_full_quantums (proc_tab st3 sp) = QUANTUMS (q0 + 1)
        /\ rdy_queues st3
             (fun q => if q =? q0 + 1 then ready_list st sp (L q)
                       else if q =? q0 then remove Z.eq_dec sp (L q) else L q))
    /\ (~ (fq <= 0 /\ q0 + 1 < IDLE_Q) ->
        p_priority (proc_tab st3 sp) = q0
        /\ p_full_quantums (proc_tab st3 sp) = (if fq <=? 0 then QUANTUMS q0 else fq)
        /\ rdy_queues st3 L).
Proof.
  intros HL Hown Hguard Hfuel q0 fq.
  set (st0 := with_proc sp (fun p => set_p_full_quantums (p_full_quantums p - 1) p) st).
  assert (HL0 : rdy_queues st0 L) by (apply rdy_queues_with_proc; [reflexivity|exact HL]).
  assert (Hfr0 : same_but_sched sp st st0) by (apply same_but_sched_with_proc; reflexivity).
  assert (Hfq0 : p_full_quantums (proc_tab st0 sp) = fq).
  { unfold st0. cbn. unfold upd. now rewrite Z.eqb_refl. }
  assert (Hprio0 : p_priority (proc_tab st0 sp) = q0).
  { unfold st0. cbn. unfold upd. now rewrite Z.eqb_refl. }
  assert (Hticks0 : p_sched_ticks (proc_tab st0 sp) = p_sched_ticks (proc_tab st sp)).
  { unfold st0. cbn. unfold upd. now rewrite Z.eqb_refl. }
  unfold sched_demote. fold st0. rewrite Hfq0, Hprio0.
  destruct (Z.leb_spec fq 0) as [Hle|Hgt].
  - destruct (Z.ltb_spec (q0 + 1) IDLE_Q) as [Hlt|Hge].
    + (* lower the priority *)
      destruct (unready_spec st0 sp L fuel) as (st1 & Hun & HL1 & Hfr1 & Hp1 & _ & Ht1).
      * exact HL0.
      * intros Hk. unfold priv_of, priv_ptr, st0. cbn. unfold upd. rewrite Z.eqb_refl.
        apply Hguard. unfold iskernelp, proc_nr, st0 in Hk. cbn in Hk. unfold upd in Hk.
        rewrite Z.eqb_refl in Hk. exact Hk.
      * now rewrite Hprio0.
      * rewrite Hprio0 in HL1.
        set (st1' := with_proc sp (set_p_priority (q0 + 1)) st1).
        assert (HL1' : rdy_queues st1'
                         (fun q => if q =? q0 then remove Z.eq_dec sp (L q) else L q))
          by (apply rdy_queues_with_proc; [reflexivity|exact HL1]).
        assert (Hfr1' : same_but_sched sp st st1').
        { apply (same_but_sched_trans sp st st0); [exact Hfr0|].
          apply (same_but_sched_trans sp st0 st1); [exact Hfr1|].
          apply same_but_sched_with_proc. reflexivity. }
        assert (Hprio1' : p_priority (proc_tab st1' sp) = q0 + 1).
        { unfold st1'. cbn. unfold upd. now rewrite Z.eqb_refl. }
        destruct (ready_spec st1' sp _ HL1') as (st2 & Hrdy & HL2 & Hfr2).
        { intros q. destruct (Z.eqb_spec q q0) as [->|Hne].
          - apply remove_In.
          - intros Hin. apply Hne. now apply Hown. }
        rewrite Hprio1' in HL2.
        assert (Hfield2 : forall (A : Type) (f : proc -> A),
                   (forall p, f (unlinked p) = f p) ->
                   forall x, f (proc_tab st2 x) = f (proc_tab st1' x)).
        { intros A f Hf x. destruct Hfr2 as (Hp2 & _).
          rewrite <- (Hf (proc_tab st2 x)), <- (Hf (proc_tab st1' x)). now rewrite Hp2. }
        eexists. split.
        { unfold bind. rewrite Hun. fold st1'. rewrite Hrdy. reflexivity. }
        split; [|split; [|split]].
        -- apply (same_but_sched_trans sp st st1'); [exact Hfr1'|].
           apply (same_but_sched_trans sp st1' st2);
             [now apply same_but_queues_sched|].
           apply same_but_sched_with_proc. reflexivity.
        -- cbn. unfold upd. rewrite Z.eqb_refl. cbn.
           rewrite (Hfield2 _ p_sched_ticks) by reflexivity.
           unfold st1'. cbn. unfold upd. rewrite Z.eqb_refl. cbn.
           now rewrite Ht1.
        -- intros _. split; [|split].
           ++ cbn. unfold upd. rewrite Z.eqb_refl. cbn.
              now rewrite (Hfield2 _ p_priority) by reflexivity.
           ++ cbn. unfold upd. rewrite Z.eqb_refl. cbn.
              rewrite (Hfield2 _ p_priority) by reflexivity. now rewrite Hprio1'.
           ++ apply rdy_queues_with_proc; [reflexivity|].
              apply (rdy_queues_ext st2
                       (fun q => if q =? q0 + 1
                                 then ready_list st1' sp
                                        (if q =? q0 then remove Z.eq_dec sp (L q) else L q)
                                 else if q =? q0 then remove Z.eq_dec sp (L q) else L q));
                [|exact HL2].
              intros q. destruct (Z.eqb_spec q (q0 + 1)) as [->|]; [|reflexivity].
              rewrite (proj2 (Z.eqb_neq (q0 + 1) q0)) by lia.
              unfold ready_list. now rewrite (same_but_sched_priv sp st st1' Hfr1').
        -- intros Hno. exfalso. apply Hno. split; assumption.
    + (* already at the lowest user priority *)
      eexists. split; [reflexivity|]. split; [|split; [|split]].
      * apply (same_but_sched_trans sp st st0); [exact Hfr0|].
        apply same_but_sched_with_proc. reflexivity.
      * cbn. unfold upd. now rewrite !Z.eqb_refl.
      * intros [_ Hlt]. lia.
      * intros _. split; [|split].
        -- cbn. unfold upd. now rewrite !Z.eqb_refl.
        -- cbn. unfold upd. now rewrite !Z.eqb_refl.
        -- apply rdy_queues_with_proc; [reflexivity|exact HL0].
  - exists st0. split; [reflexivity|]. split; [exact Hfr0|]. split; [exact Hticks0|].
    split.
    + intros [Hle _]. lia.
    + intros _. split; [exact Hprio0|]. split; [exact Hfq0|exact HL0].
Qed.

(** C7.  For a [PREEMPTIBLE] process [sched] counts down [p_full_quantums]
    and, when the count is used up and [p_priority + 1 < IDLE_Q], takes the
    process off its queue and puts it on the queue one priority lower, with
    [p_full_quantums] set to the budget of the new priority.  Then, when the
    process heads its queue, the head is moved to the tail; [p_sched_ticks]
    is refilled from [p_quantum_size]; and [pick_proc] elects the head of
    the first queue that is not empty.  A process that is not
    [PREEMPTIBLE] is left as it is, with the rest of the state. *)
Theorem sched_demotes_and_rotates (st : kstate) (sp : Z) (L : Z -> list Z) (fuel : nat) :
  rdy_queues st L ->
  (forall q, In sp (L q) -> q = p_priority (proc_tab st sp)) ->
  (iskernelp st sp = true -> s_stack_guard (priv_of st sp) = STACK_GUARD) ->
  (length (L (p_priority (proc_tab st sp))) < fuel)%nat ->
  let q0 := p_priority (proc_tab st sp) in
  let fq := p_full_quantums (proc_tab st sp) - 1 in
  (Z.land (s_flags (priv_of st sp)) PREEMPTIBLE = 0 -> sched fuel sp st = Done tt st)
  /\ (Z.land (s_flags (priv_of st sp)) PREEMPTIBLE <> 0 ->
      exists st',
        sched fuel sp st = Done tt st'
        /\ (fq <= 0 /\ q0 + 1 < IDLE_Q ->
            p_priority (proc_tab st' sp) = q0 + 1
            /\ p_full_quantums (proc_tab st' sp) = QUANTUMS (q0 + 1)
            /\ rdy_queues st'
                 (fun q => if q =? q0 + 1 then L q ++ [sp]
                           else if q =? q0 then remove Z.eq_dec sp (L q) else L q))
        /\ (~ (fq <= 0 /\ q0 + 1 < IDLE_Q) ->
            p_priority (proc_tab st' sp) = q0
            /\ p_full_quantums (proc_tab st' sp) = (if fq <=? 0 then QUANTUMS q0 else fq)
            /\ rdy_queues st' (fun q => if q =? q0 then rotate sp (L q) else L q))
        /\ p_sched_ticks (proc_tab st' sp) = p_quantum_size (proc_tab st sp)
        /\ (forall q rp, elects st' q rp -> next_ptr st' = Some rp)
        /\ same_but_sched sp st st').
Proof.
  intros HL Hown Hguard Hfuel q0 fq. split.
  - intros Hnp. unfold sched. now rewrite Hnp.
  - intros Hp. unfold sched. rewrite (proj2 (Z.eqb_neq _ _) Hp).
    destruct (sched_demote_spec st sp L fuel HL Hown Hguard Hfuel)
      as (st3 & Hdem & Hfr3 & Hticks3 & Hyes & Hno).
    fold q0 fq in Hyes, Hno.
    assert (Hcases : exists L3,
               rdy_queues st3 L3
               /\ (fq <= 0 /\ q0 + 1 < IDLE_Q ->
                   p_priority (proc_tab st3 sp) = q0 + 1
                   /\ p_full_quantums (proc_tab st3 sp) = QUANTUMS (q0 + 1)
                   /\ forall q, (if q =? q0 + 1 then rotate sp (L3 q) else L3 q)
                                = (if q =? q0 + 1 then L q ++ [sp]
                                   else if q =? q0 then remove Z.eq_dec sp (L q) else L q))
               /\ (~ (fq <= 0 /\ q0 + 1 < IDLE_Q) ->
                   p_priority (proc_tab st3 sp) = q0
                   /\ p_full_quantums (proc_tab st3 sp)
                      = (if fq <=? 0 then QUANTUMS q0 else fq)
                   /\ L3 = L)).
    { destruct (Z_le_dec fq 0) as [Hle|Hgt];
        [destruct (Z_lt_dec (q0 + 1) IDLE_Q) as [Hlt|Hge]|].
      - destruct (Hyes (conj Hle Hlt)) as (H1 & H2 & H3).
        eexists. split; [exact H3|]. split; [|intros Hn; exfalso; apply Hn; now split].
        intros _. split; [exact H1|]. split; [exact H2|].
        intros q. destruct (Z.eqb_spec q (q0 + 1)) as [->|]; [|reflexivity].
        apply rotate_ready_list. intros Hin. apply Hown in Hin. lia.
      - destruct Hno as (H1 & H2 & H3); [lia|].
        exists L. split; [exact H3|]. split; [lia|]. intros _. now repeat split.
      - destruct Hno as (H1 & H2 & H3); [lia|].
        exists L. split; [exact H3|]. split; [lia|]. intros _. now repeat split. }
    destruct Hcases as (L3 & HL3 & Hyes3 & Hno3).
    destruct (sched_rotate_spec st3 sp L3 HL3) as (st4 & Hrot & HL4 & Hfr4).
    assert (Hfield4 : forall (A : Type) (f : proc -> A),
               (forall p, f (unlinked p) = f p) ->
               forall x, f (proc_tab st4 x) = f (proc_tab st3 x)).
    { intros A f Hf x. destruct Hfr4 as (Hp4 & _).
      rewrite <- (Hf (proc_tab st4 x)), <- (Hf (proc_tab st3 x)). now rewrite Hp4. }
    set (st5 := with_proc sp (fun p => set_p_sched_ticks (p_quantum_size p) p) st4).
    assert (HL5 : rdy_queues (pick_proc st5)
                    (fun q => if q =? p_priority (proc_tab st3 sp)
                              then rotate sp (L3 q) else L3 q)).
    { apply rdy_queues_pick_proc. apply rdy_queues_with_proc; [reflexivity|exact HL4]. }
    assert (Hf5 : forall (A : Type) (f : proc -> A),
               (forall p, f (set_p_sched_ticks 0 (unlinked p)) = f p) ->
               f (proc_tab (pick_proc st5) sp) = f (proc_tab st3 sp)).
    { intros A f Hf.
      destruct (pick_loop_frame (Z.to_nat NR_SCHED_QUEUES) 0 st5) as (Hpt & _).
      unfold pick_proc. rewrite Hpt. unfold st5. cbn. unfold upd. rewrite Z.eqb_refl.
      destruct Hfr4 as (Hp4 & _). specialize (Hp4 sp).
      transitivity (f (set_p_sched_ticks 0 (unlinked (proc_tab st4 sp)))).
      { rewrite <- Hf. reflexivity. }
      rewrite Hp4. apply Hf. }
    exists (pick_proc st5).
    split; [unfold bind; rewrite Hdem, Hrot; reflexivity|].
    split; [|split; [|split; [|split]]].
    + intros Hd. destruct (Hyes3 Hd) as (H1 & H2 & H3).
      split; [now rewrite (Hf5 _ p_priority) by reflexivity|].
      split; [now rewrite (Hf5 _ p_full_quantums) by reflexivity|].
      rewrite H1 in HL5. apply (rdy_queues_ext _ _ _ H3 HL5).
    + intros Hd. destruct (Hno3 Hd) as (H1 & H2 & ->).
      split; [now rewrite (Hf5 _ p_priority) by reflexivity|].
      split; [now rewrite (Hf5 _ p_full_quantums) by reflexivity|].
      rewrite H1 in HL5. exact HL5.
    + destruct (pick_loop_frame (Z.to_nat NR_SCHED_QUEUES) 0 st5) as (Hpt & _).
      unfold pick_proc. rewrite Hpt. unfold st5. cbn. unfold upd. rewrite Z.eqb_refl.
      cbn. rewrite (Hfield4 _ p_quantum_size) by reflexivity.
      now apply (unscheduled_field sp st st3 _ p_quantum_size).
    + intros q rp (Hq & Hhead & Hbelow). apply (pick_proc_elects st5 q rp).
      destruct (pick_loop_frame (Z.to_nat NR_SCHED_QUEUES) 0 st5) as (_ & _ & Hrh & _).
      unfold pick_proc in Hhead, Hbelow. rewrite Hrh in Hhead, Hbelow.
      split; [exact Hq|]. split; [exact Hhead|exact Hbelow].
    + apply (same_but_sched_trans sp st st3); [exact Hfr3|].
      apply (same_but_sched_trans sp st3 st4); [now apply same_but_queues_sched|].
      apply (same_but_sched_trans sp st4 st5);
        [apply same_but_sched_with_proc; reflexivity|].
      apply same_but_queues_sched. apply same_but_queues_pick_proc. repeat split.
Qed.

End Sched.

Section SchedExamples.

#[local] Existing Instance Examples.minix.

Lemma st_two_ready_queues :
  rdy_queues Examples.st_two_ready Examples.queues_two_ready.
Proof.
  split.
  - intros q. unfold Examples.queues_two_ready.
    destruct (Z.eqb_spec q 7) as [->|Hne].
    + unfold rdy_queue, chain. cbn. repeat split.
      repeat constructor; simpl; intuition discriminate.
    + unfold rdy_queue, chain. cbn. unfold upd.
      rewrite (proj2 (Z.eqb_neq _ _) Hne). repeat split.
      * constructor.
      * intros H. now contradiction H.
  - intros q q' x. unfold Examples.queues_two_ready.
    destruct (Z.eqb_spec q 7) as [->|], (Z.eqb_spec q' 7) as [->|];
      simpl; tauto.
Qed.

Lemma sched_demotes_and_rotates_witness :
  exists st',
    sched 3 1 Examples.st_two_ready = Done tt st'
    /\ p_priority (proc_tab st' 1) = 8
    /\ p_full_quantums (proc_tab st' 1) = QUANTUMS 8
    /\ p_sched_ticks (proc_tab st' 1) = 8
    /\ rdy_queues st'
         (fun q => if q =? 8 then [1]
                   else if q =? 7 then [2] else Examples.queues_two_ready q).
Proof.
  destruct (sched_demotes_and_rotates Examples.st_two_ready 1
              Examples.queues_two_ready 3) as [_ H].
  - exact st_two_ready_queues.
  - intros q. unfold Examples.queues_two_ready.
    destruct (Z.eqb_spec q 7) as [->|]; simpl; [reflexivity|tauto].
  - discriminate.
  - simpl. lia.
  - destruct H as (st' & Hrun & Hyes & _ & Hticks & _); [discriminate|].
    destruct Hyes as (H1 & H2 & H3); [simpl; lia|].
    exists st'. split; [exact Hrun|]. split; [exact H1|]. split; [exact H2|].
    split; [exact Hticks|].
    apply (rdy_queues_ext st' _ _ ltac:(intros q; exact eq_refl)).
    apply (rdy_queues_ext st'
             (fun q => if q =? 7 + 1 then Examples.queues_two_ready q ++ [1]
                       else if q =? 7 then remove Z.eq_dec 1 (Examples.queues_two_ready q)
                            else Examples.queues_two_ready q)); [|exact H3].
    intros q. unfold Examples.queues_two_ready. simpl.
    destruct (Z.eqb_spec q 8) as [->|]; [reflexivity|].
    destruct (Z.eqb_spec q 7) as [->|]; reflexivity.
Defined.

End SchedExamples.

(** ** Further properties *)

(** *** What [ready] and [unready] leave alone *)

Section Frames.

Context {kp : KernelParams}.

Lemma same_but_queues_refl (st : kstate) : same_but_queues st st.
Proof. repeat split. Qed.

Lemma same_but_queues_trans (st1 st2 st3 : kstate) :
  same_but_queues st1 st2 -> same_but_queues st2 st3 -> same_but_queues st1 st3.
Proof.
  intros (Ha & H2 & H3 & H4 & H5 & H6 & H7) (Ha' & H2' & H3' & H4' & H5' & H6' & H7').
  repeat split; try congruence; intros x; now rewrite Ha', Ha.
Qed.

(** A field that the ready-queue link does not hold is the same in two
    states that differ in the queues only. *)
Lemma unlinked_field (st st' : kstate) (A : Type) (f : proc -> A) :
  same_but_queues st st' ->
  (forall p, f (unlinked p) = f p) ->
  forall x, f (proc_tab st' x) = f (proc_tab st x).
Proof.
  intros (Hp & _) Hf x.
  rewrite <- (Hf (proc_tab st' x)), <- (Hf (proc_tab st x)). now rewrite Hp.
Qed.

Lemma same_but_queues_priv (st st' : kstate) (x : Z) :
  same_but_queues st st' -> priv_of st' x = priv_of st x.
Proof.
  intros H. unfold priv_of, priv_ptr.
  rewrite (unlinked_field st st' _ p_priv H) by reflexivity.
  destruct H as (_ & -> & _). reflexivity.
Qed.

(** The same for a slot other than the one whose scheduling fields
    changed. *)
Lemma unscheduled_other (sp : Z) (st st' : kstate) (A : Type) (f : proc -> A) :
  same_but_sched sp st st' ->
  (forall p, f (unlinked p) = f p) ->
  forall x, x <> sp -> f (proc_tab st' x) = f (proc_tab st x).
Proof.
  intros (Hp & _) Hf x Hx.
  rewrite <- (Hf (proc_tab st' x)), <- (Hf (proc_tab st x)). now rewrite Hp.
Qed.

(** A field that is no scheduling field is the same for every slot. *)
Lemma unscheduled_any (sp : Z) (st st' : kstate) (A : Type) (f : proc -> A) :
  same_but_sched sp st st' ->
  (forall p, f (unscheduled p) = f p) ->
  (forall p, f (unlinked p) = f p) ->
  forall x, f (proc_tab st' x) = f (proc_tab st x).
Proof.
  intros H Hf Hg x. destruct (Z.eq_dec x sp) as [->|Hx].
  - now apply (unscheduled_field sp st st').
  - now apply (unscheduled_other sp st st').
Qed.

Lemma same_but_sched_refl (sp : Z) (st : kstate) : same_but_sched sp st st.
Proof. repeat split. Qed.

Lemma ready_frame (rp : Z) (st st' : kstate) :
  ready rp st = Done tt st' -> same_but_queues st st'.
Proof.
  unfold ready. intros H.
  destruct (rdy_head st (p_priority (proc_tab st rp)));
    [destruct (negb _); [|destruct (rdy_tail st (p_priority (proc_tab st rp)));
                           [|discriminate]]|];
    injection H as <-; apply same_but_queues_pick_proc; repeat split;
    intros x; cbn; unfold upd;
    repeat match goal with
           | |- context [?a =? ?b] => destruct (Z.eqb_spec a b) as [->|]
           end; reflexivity.
Qed.

Lemma elects_pick_proc (st : kstate) (q x : Z) :
  elects (pick_proc st) q x -> next_ptr (pick_proc st) = Some x.
Proof.
  intros (Hq & Hhead & Hbelow). apply (pick_proc_elects st q x).
  destruct (pick_loop_frame (Z.to_nat NR_SCHED_QUEUES) 0 st) as (_ & _ & Hrh & _).
  unfold pick_proc in Hhead, Hbelow. rewrite Hrh in Hhead, Hbelow.
  split; [exact Hq|]. split; [exact Hhead|exact Hbelow].
Qed.

(** [ready] ends with an election. *)
Lemma ready_elected (rp : Z) (st st' : kstate) :
  ready rp st = Done tt st' ->
  forall q x, elects st' q x -> next_ptr st' = Some x.
Proof.
  unfold ready. intros H.
  destruct (rdy_head st (p_priority (proc_tab st rp)));
    [destruct (negb _); [|destruct (rdy_tail st (p_priority (proc_tab st rp)));
                           [|discriminate]]|];
    injection H as <-; apply elects_pick_proc.
Qed.

Lemma unready_loop_frame (fuel : nat) :
  forall rp q xpp prev st st',
    unready_loop fuel rp q xpp prev st = Done tt st' -> same_but_queues st st'.
Proof.
  induction fuel as [|fuel IH]; intros rp q xpp prev st st' H;
    cbn [unready_loop] in H; [discriminate|].
  destruct (load_rdy st xpp) as [x|];
    [|injection H as <-; apply same_but_queues_refl].
  destruct (x =? rp); [|now apply (IH _ _ _ _ _ _ H)].
  injection H as <-.
  set (st_a := store_rdy xpp (p_nextready (proc_tab st x)) st).
  assert (Ha : same_but_queues st st_a).
  { unfold st_a. destruct xpp as [q'|t]; repeat split.
    intros y. cbn. unfold upd. destruct (Z.eqb_spec y t) as [->|]; reflexivity. }
  set (st_b := if opt_eqb (Some rp) (rdy_tail st_a q)
               then set_rdy_tail (upd (rdy_tail st_a) q prev) st_a else st_a).
  assert (Hb : same_but_queues st st_b).
  { unfold st_b. destruct (opt_eqb _ _); [|exact Ha].
    destruct Ha as (H1 & H2 & H3 & H4 & H5 & H6 & H7). repeat split; assumption. }
  match goal with
  | |- same_but_queues _ (if ?c then _ else _) => destruct c
  end; [apply same_but_queues_pick_proc|]; exact Hb.
Qed.

Lemma unready_frame (fuel : nat) (rp : Z) (st st' : kstate) :
  unready fuel rp st = Done tt st' -> same_but_sched rp st st'.
Proof.
  unfold unready. destruct (iskernelp st rp && _); [discriminate|].
  unfold bind.
  destruct (unready_loop fuel rp _ _ None st) as [[] st1| | |] eqn:E; try discriminate.
  intros H. injection H as <-.
  apply (same_but_sched_trans rp st st1);
    [apply same_but_queues_sched; now apply (unready_loop_frame _ _ _ _ _ _ _ E)|].
  apply (same_but_sched_trans rp st1
           (with_proc rp (fun p => set_p_priority (p_max_priority p) p) st1));
    apply same_but_sched_with_proc; reflexivity.
Qed.

(** Once [unready] has found the running or the elected process on its
    queue, it elects anew. *)
Lemma unlink_elected (st : kstate) (rp q0 : Z) (l0 : list Z) :
  rp = proc_ptr st \/ next_ptr st = Some rp ->
  forall q x, elects (unlink rp q0 l0 st) q x ->
              next_ptr (unlink rp q0 l0 st) = Some x.
Proof.
  intros Hcur. unfold unlink.
  set (st_a := store_rdy (rdy_pos q0 l0) (p_nextready (proc_tab st rp)) st).
  set (st_b := if opt_eqb (Some rp) (rdy_tail st_a q0)
               then set_rdy_tail (upd (rdy_tail st_a) q0 (rdy_prev l0)) st_a else st_a).
  assert (Hpp : proc_ptr st_b = proc_ptr st /\ next_ptr st_b = next_ptr st).
  { unfold st_b, st_a. destruct (opt_eqb _ _); destruct (rdy_pos q0 l0); split; reflexivity. }
  destruct Hpp as [-> ->].
  assert (Hc : (rp =? proc_ptr st) || opt_eqb (Some rp) (next_ptr st) = true).
  { destruct Hcur as [<-| ->]; [now rewrite Z.eqb_refl|].
    cbn. rewrite Z.eqb_refl. apply orb_true_r. }
  rewrite Hc. apply elects_pick_proc.
Qed.

(** The head of a queue is one of its slots. *)
Lemma rdy_head_in (st : kstate) (q x : Z) (l : list Z) :
  rdy_queue st q l -> rdy_head st q = Some x -> In x l.
Proof.
  intros (Hch & _) Hh. unfold chain in Hch. destruct l as [|a l]; simpl in Hch.
  - congruence.
  - destruct Hch as [Ha _]. left. congruence.
Qed.

Lemma rdy_head_nonempty (st : kstate) (q : Z) (l : list Z) :
  rdy_queue st q l -> l <> [] -> rdy_head st q <> None.
Proof.
  intros (Hch & _) Hne. unfold chain in Hch. destruct l as [|a l]; [contradiction|].
  simpl in Hch. destruct Hch as [-> _]. discriminate.
Qed.

(** Below a queue that is not empty there is a first one. *)
Lemma exists_elected (st : kstate) (q : Z) :
  0 <= q < NR_SCHED_QUEUES -> rdy_head st q <> None ->
  exists q1 x, elects st q1 x /\ q1 <= q.
Proof.
  intros Hq Hne.
  assert (Hscan : forall n : nat,
             Z.of_nat n <= q ->
             (forall q', 0 <= q' < Z.of_nat n -> rdy_head st q' = None)
             \/ exists q1 x, elects st q1 x /\ q1 < Z.of_nat n).
  { induction n as [|n IH]; intros Hn; [left; intros q' Hq'; lia|].
    destruct IH as [Hempty|(q1 & x & He & Hlt)]; [lia| |].
    - destruct (rdy_head st (Z.of_nat n)) as [x|] eqn:Eh.
      + right. exists (Z.of_nat n), x. split; [|lia].
        split; [lia|]. split; assumption.
      + left. intros q' Hq'. destruct (Z.eq_dec q' (Z.of_nat n)) as [->|];
          [assumption|apply Hempty; lia].
    - right. exists q1, x. split; [assumption|lia]. }
  destruct (Hscan (Z.to_nat q)) as [Hempty|(q1 & x & He & Hlt)]; [lia| |].
  - destruct (rdy_head st q) as [x|] eqn:Eh; [|contradiction].
    exists q, x. split; [|lia]. split; [lia|]. split; [assumption|].
    intros q' Hq'. apply Hempty. lia.
  - exists q1, x. split; [assumption|lia].
Qed.

Lemma remove_ready_list (st : kstate) (rp : Z) (l : list Z) :
  ~ In rp l -> remove Z.eq_dec rp (ready_list st rp l) = l.
Proof.
  intros Hnot. destruct l as [|a l]; simpl.
  - destruct (Z.eq_dec rp rp); [reflexivity|contradiction].
  - destruct (Z.land _ RDY_Q_HEAD =? 0); cbn [negb].
    + change (a :: l ++ [rp]) with ((a :: l) ++ [rp]).
      rewrite remove_app, notin_remove by assumption. simpl.
      destruct (Z.eq_dec rp rp); [apply (app_nil_r (a :: l))|contradiction].
    + rewrite remove_cons. now apply notin_remove.
Qed.

End Frames.

(** *** The election *)

Section Election.

Context {kp : KernelParams}.

Lemma pick_loop_billable (n : nat) :
  forall q st, bills_billable st -> bills_billable (pick_loop n q st).
Proof.
  induction n as [|n IH]; intros q st Hb; cbn [pick_loop]; [assumption|].
  destruct (rdy_head st q) as [rp|]; [|now apply IH].
  cbv zeta.
  destruct (Z.land (s_flags (priv_of (set_next_ptr (Some rp) st) rp)) BILLABLE =? 0) eqn:E.
  - exact Hb.
  - intros b Hbp. cbn in Hbp. injection Hbp as <-.
    apply Z.eqb_neq in E. exact E.
Qed.

Lemma pick_loop_twice (n : nat) :
  forall q st, pick_loop n q (pick_loop n q st) = pick_loop n q st.
Proof.
  induction n as [|n IH]; intros q st; cbn [pick_loop]; [reflexivity|].
  destruct (rdy_head st q) as [rp|] eqn:Eh.
  - cbv zeta.
    destruct (Z.land (s_flags (priv_of (set_next_ptr (Some rp) st) rp)) BILLABLE =? 0) eqn:Eb.
    + change (rdy_head (set_next_ptr (Some rp) st) q) with (rdy_head st q).
      rewrite Eh.
      change (priv_of (set_next_ptr (Some rp) (set_next_ptr (Some rp) st)) rp)
        with (priv_of (set_next_ptr (Some rp) st) rp).
      rewrite Eb. reflexivity.
    + change (rdy_head (set_bill_ptr (Some rp) (set_next_ptr (Some rp) st)) q)
        with (rdy_head st q).
      rewrite Eh.
      change (priv_of (set_next_ptr (Some rp)
                         (set_bill_ptr (Some rp) (set_next_ptr (Some rp) st))) rp)
        with (priv_of (set_next_ptr (Some rp) st) rp).
      rewrite Eb. reflexivity.
  - destruct (pick_loop_frame n (q + 1) st) as (_ & _ & Hrh & _).
    rewrite Hrh, Eh. apply IH.
Qed.

(** X1.  [bill_ptr] stays on a [BILLABLE] process: [pick_proc] stores in it
    only a process whose privilege flags have [BILLABLE], so if the pointer
    named a billable process (or none) before the election, it does so
    after it; the flags themselves are not touched. *)
Theorem pick_proc_bills_billable (st : kstate) :
  bills_billable st -> bills_billable (pick_proc st).
Proof.
  intros Hb. unfold pick_proc. now apply pick_loop_billable.
Qed.

(** X2.  An election that is repeated changes nothing: [pick_proc] reads
    the queue heads and the privilege flags, which it does not write. *)
Theorem pick_proc_idempotent (st : kstate) :
  pick_proc (pick_proc st) = pick_proc st.
Proof.
  unfold pick_proc. apply pick_loop_twice.
Qed.

End Election.

Section ElectionExamples.

#[local] Existing Instance Examples.minix.

Lemma pick_proc_bills_billable_witness :
  bills_billable (pick_proc Examples.st_run1).
Proof.
  apply (pick_proc_bills_billable Examples.st_run1).
  intros b Hb. cbn in Hb. injection Hb as <-. discriminate.
Defined.

End ElectionExamples.

(** *** [ready] and [unready] through their gateways *)

Section ReadyUnready.

Context {kp : KernelParams}.

(** X3.  [lock_ready] puts a process that is on no queue on the queue of
    its priority: alone when the queue was empty, in front when its
    privilege flags have [RDY_Q_HEAD], at the end otherwise.  The queues stay
    well formed, every queued process is still on the queue of its priority,
    nothing but the queue links and the elected pointers changes, and the
    election that follows leaves [next_ptr] on the head of the first queue
    that is not empty, which is no lower than the queue of the new
    process. *)
Theorem lock_ready_enqueues (st : kstate) (rp : Z) (L : Z -> list Z) :
  rdy_queues st L ->
  queued_by_priority st L ->
  (forall q, ~ In rp (L q)) ->
  0 <= p_priority (proc_tab st rp) < NR_SCHED_QUEUES ->
  let q := p_priority (proc_tab st rp) in
  let L' := fun q' => if q' =? q then ready_list st rp (L q') else L q' in
  exists st',
    lock_ready rp st = Done tt st'
    /\ rdy_queues st' L'
    /\ queued_by_priority st' L'
    /\ In rp (L' q)
    /\ same_but_queues st st'
    /\ exists q1 x, elects st' q1 x /\ q1 <= q /\ next_ptr st' = Some x.
Proof.
  intros HL Hprio Hnot Hq q L'.
  destruct (ready_spec st rp L HL Hnot) as (st' & Hr & HL' & Hfr).
  exists st'. split; [exact Hr|]. split; [exact HL'|].
  assert (Hin : In rp (L' q)).
  { unfold L'. rewrite Z.eqb_refl. apply ready_list_in_iff. now left. }
  split; [|split; [exact Hin|split; [exact Hfr|]]].
  - intros q' x Hx. rewrite (unlinked_field st st' _ p_priority Hfr) by reflexivity.
    unfold L' in Hx. destruct (Z.eqb_spec q' q) as [->|Hne]; [|now apply Hprio].
    apply ready_list_in in Hx. destruct Hx as [->|Hx]; [reflexivity|now apply Hprio].
  - destruct HL' as [Hq' _].
    destruct (exists_elected st' q Hq) as (q1 & x & He & Hle).
    + apply (rdy_head_nonempty st' q (L' q)); [apply Hq'|].
      intros E. fold L' in Hin. rewrite E in Hin. contradiction.
    + exists q1, x. split; [exact He|]. split; [exact Hle|].
      now apply (ready_elected rp st st' Hr q1 x).
Qed.

(** X4.  [lock_unready] takes a process off the ready queues: afterwards
    it is on no queue, the other processes are queued as before and in the
    same order, and the process has its maximum priority and the full
    quantums of that priority again.  When the process removed was the
    running or the elected one, [next_ptr] is set anew and names another
    process, provided some queue is not empty. *)
Theorem lock_unready_removes (st : kstate) (rp : Z) (L : Z -> list Z) (fuel : nat) :
  rdy_queues st L ->
  queued_by_priority st L ->
  (iskernelp st rp = true -> s_stack_guard (priv_of st rp) = STACK_GUARD) ->
  (length (L (p_priority (proc_tab st rp))) < fuel)%nat ->
  let L' := fun q => remove Z.eq_dec rp (L q) in
  exists st',
    lock_unready fuel rp st = Done tt st'
    /\ rdy_queues st' L'
    /\ (forall q, ~ In rp (L' q))
    /\ queued_by_priority st' L'
    /\ p_priority (proc_tab st' rp) = p_max_priority (proc_tab st rp)
    /\ p_full_quantums (proc_tab st' rp) = QUANTUMS (p_max_priority (proc_tab st rp))
    /\ same_but_sched rp st st'
    /\ ((exists q, In rp (L q)) ->
        rp = proc_ptr st \/ next_ptr st = Some rp ->
        forall q x, elects st' q x -> next_ptr st' = Some x /\ x <> rp).
Proof.
  intros HL Hprio Hguard Hfuel L'.
  destruct (unready_spec st rp L fuel HL Hguard Hfuel)
    as (st' & Hrun & HL1 & Hfr & Hp & Hfq & _).
  assert (HL' : rdy_queues st' L').
  { refine (rdy_queues_ext st' _ L' _ HL1).
    intros q. unfold L'. destruct (Z.eqb_spec q (p_priority (proc_tab st rp))) as [->|Hne];
      [reflexivity|].
    symmetry. apply notin_remove. intros Hin. apply Hne. symmetry. now apply Hprio. }
  assert (Hout : forall q, ~ In rp (L' q)).
  { intros q. unfold L'. apply remove_In. }
  exists st'. split; [exact Hrun|]. split; [exact HL'|]. split; [exact Hout|].
  split; [|split; [exact Hp|split; [exact Hfq|split; [exact Hfr|]]]].
  - intros q x Hx. unfold L' in Hx. apply in_remove in Hx. destruct Hx as [Hx Hne].
    rewrite (unscheduled_other rp st st' _ p_priority Hfr) by (reflexivity || assumption).
    now apply Hprio.
  - intros [q0 Hin] Hcur q x He.
    assert (Eq0 : q0 = p_priority (proc_tab st rp)) by (symmetry; now apply Hprio).
    subst q0. set (q0 := p_priority (proc_tab st rp)) in *.
    destruct HL as [Hq Hd]. destruct (Hq q0) as (Hch & Hnd & _).
    apply in_split in Hin. destruct Hin as (l0 & r2 & El).
    assert (Hrp : ~ In rp l0).
    { rewrite El in Hnd. apply NoDup_remove_2 in Hnd. intros H. apply Hnd.
      apply in_or_app. now left. }
    assert (Hloop : unready_loop fuel rp q0 (RdyHead q0) None st
                    = Done tt (unlink rp q0 l0 st)).
    { change (RdyHead q0) with (rdy_pos q0 []). change (@None Z) with (rdy_prev []).
      rewrite (unready_loop_found st rp q0 r2 l0 []); [reflexivity| |exact Hrp|].
      - unfold chain in Hch. now rewrite El in Hch.
      - rewrite El, length_app in Hfuel. lia. }
    unfold lock_unready, unready in Hrun. fold q0 in Hrun.
    destruct (iskernelp st rp && _); [discriminate|].
    unfold bind in Hrun. rewrite Hloop in Hrun. injection Hrun as Est.
    assert (Hnext : next_ptr st' = next_ptr (unlink rp q0 l0 st)) by now rewrite <- Est.
    assert (Hhead : rdy_head st' = rdy_head (unlink rp q0 l0 st)) by now rewrite <- Est.
    assert (He' : elects (unlink rp q0 l0 st) q x).
    { destruct He as (H1 & H2 & H3). rewrite Hhead in H2, H3.
      split; [exact H1|]. split; [exact H2|exact H3]. }
    split.
    + rewrite Hnext. now apply (unlink_elected st rp q0 l0 Hcur q x).
    + intros ->. apply (Hout q). destruct HL' as [Hq' _].
      apply (rdy_head_in st' q rp (L' q)); [apply Hq'|].
      destruct He as (_ & H2 & _). exact H2.
Qed.

(** X5.  The stack check of [unready]: for a kernel task whose stack guard
    word no longer holds [STACK_GUARD] it panics with the number of the
    task, before it touches a queue.  The panic reaches every caller: a
    runnable task in this condition that has to block in [mini_send] is not
    queued, the kernel panics. *)
Theorem unready_stack_overrun (st : kstate) (rp dst m_ptr flags : Z) (fuel : nat) :
  iskernelp st rp = true ->
  s_stack_guard (priv_of st rp) <> STACK_GUARD ->
  lock_unready fuel rp st = Panic (proc_nr st rp)
  /\ (p_rts_flags (proc_tab st rp) = 0 ->
      Z.land (p_rts_flags (proc_tab st (proc_addr dst))) SENDING = 0 ->
      awaits st (proc_addr dst) rp = false ->
      Z.land flags NON_BLOCKING = 0 ->
      (1 <= fuel)%nat ->
      mini_send fuel rp dst m_ptr flags st = Panic (proc_nr st rp)).
Proof.
  intros Hk Hg.
  assert (Hpanic : forall st1,
             proc_tab st1 rp = set_p_messbuf m_ptr (proc_tab st rp) \/ st1 = st ->
             priv_tab st1 = priv_tab st ->
             unready fuel rp st1 = Panic (proc_nr st rp)).
  { intros st1 Hp Hpr. unfold unready, iskernelp, proc_nr, priv_of, priv_ptr in *.
    assert (E : p_nr (proc_tab st1 rp) = p_nr (proc_tab st rp)
                /\ p_priv (proc_tab st1 rp) = p_priv (proc_tab st rp)).
    { destruct Hp as [-> | ->]; split; reflexivity. }
    destruct E as [E1 E2]. rewrite E1, E2, Hpr, Hk.
    rewrite (proj2 (Z.eqb_neq _ _) Hg). reflexivity. }
  split.
  - unfold lock_unready. apply Hpanic; [now right|reflexivity].
  - intros Hf Hns Haw Hnb Hfuel. destruct fuel as [|fuel]; [lia|].
    unfold mini_send. cbn [deadlock_loop]. rewrite Hns. cbn [Z.eqb].
    rewrite Haw, Hnb. cbn [Z.eqb]. unfold bind.
    assert (E : p_rts_flags (proc_tab (with_proc rp (set_p_messbuf m_ptr) st) rp) = 0).
    { cbn. unfold upd. now rewrite Z.eqb_refl. }
    rewrite E. cbn [Z.eqb].
    rewrite Hpanic; [reflexivity| |reflexivity].
    left. cbn. unfold upd. now rewrite Z.eqb_refl.
Qed.

(** X6.  [lock_ready] followed by [lock_unready] of the same process
    leaves every ready queue holding the processes it held, in the same
    order; the process ends with its maximum priority and the full
    quantums of that priority, and nothing else has changed but the
    elected pointers. *)
Theorem ready_unready_round_trip (st : kstate) (rp : Z) (L : Z -> list Z) (fuel : nat) :
  rdy_queues st L ->
  (forall q, ~ In rp (L q)) ->
  (iskernelp st rp = true -> s_stack_guard (priv_of st rp) = STACK_GUARD) ->
  (S (length (L (p_priority (proc_tab st rp)))) < fuel)%nat ->
  exists st',
    (lock_ready rp ;;; lock_unready fuel rp) st = Done tt st'
    /\ rdy_queues st' L
    /\ same_but_sched rp st st'
    /\ p_priority (proc_tab st' rp) = p_max_priority (proc_tab st rp)
    /\ p_full_quantums (proc_tab st' rp) = QUANTUMS (p_max_priority (proc_tab st rp)).
Proof.
  intros HL Hnot Hguard Hfuel.
  destruct (ready_spec st rp L HL Hnot) as (st1 & Hr & HL1 & Hfr1).
  assert (Hprio1 : p_priority (proc_tab st1 rp) = p_priority (proc_tab st rp))
    by now apply (unlinked_field st st1 _ p_priority).
  assert (Hmax1 : p_max_priority (proc_tab st1 rp) = p_max_priority (proc_tab st rp))
    by now apply (unlinked_field st st1 _ p_max_priority).
  destruct (unready_spec st1 rp _ fuel HL1) as (st2 & Hu & HL2 & Hfr2 & Hp & Hfq & _).
  - unfold iskernelp, proc_nr. rewrite (unlinked_field st st1 _ p_nr Hfr1) by reflexivity.
    rewrite (same_but_queues_priv st st1 rp Hfr1). exact Hguard.
  - rewrite Hprio1, Z.eqb_refl.
    assert (Hlen : forall l, (length (ready_list st rp l) = S (length l))%nat).
    { intros [|a l]; simpl; [reflexivity|].
      destruct (Z.land _ RDY_Q_HEAD =? 0); simpl; [|reflexivity].
      rewrite length_app. simpl. lia. }
    rewrite Hlen. exact Hfuel.
  - exists st2. split; [|split; [|split; [|split]]].
    + unfold bind, lock_ready, lock_unready. now rewrite Hr.
    + refine (rdy_queues_ext st2 _ L _ HL2).
      intros q. cbv beta. rewrite Hprio1.
      destruct (Z.eqb_spec q (p_priority (proc_tab st rp))) as [->|Hne]; [|reflexivity].
      now apply remove_ready_list.
    + apply (same_but_sched_trans rp st st1); [now apply same_but_queues_sched|exact Hfr2].
    + now rewrite Hp.
    + now rewrite Hfq, Hmax1.
Qed.

(** X7.  [lock_unready] followed by [lock_ready]: a process that is taken
    off the queues and put back lands on the queue of its maximum priority,
    whatever queue it was on, in front or at the end as its privilege flags
    say, and on that queue only. *)
Theorem unready_ready_requeues (st : kstate) (rp : Z) (L : Z -> list Z) (fuel : nat) :
  rdy_queues st L ->
  queued_by_priority st L ->
  (iskernelp st rp = true -> s_stack_guard (priv_of st rp) = STACK_GUARD) ->
  (length (L (p_priority (proc_tab st rp))) < fuel)%nat ->
  let qmax := p_max_priority (proc_tab st rp) in
  let L' := fun q => if q =? qmax
                     then ready_list st rp (remove Z.eq_dec rp (L q))
                     else remove Z.eq_dec rp (L q) in
  exists st',
    (lock_unready fuel rp ;;; lock_ready rp) st = Done tt st'
    /\ rdy_queues st' L'
    /\ (forall q, In rp (L' q) <-> q = qmax)
    /\ p_priority (proc_tab st' rp) = qmax
    /\ same_but_sched rp st st'.
Proof.
  intros HL Hprio Hguard Hfuel qmax L'.
  destruct (unready_spec st rp L fuel HL Hguard Hfuel)
    as (st1 & Hu & HL1 & Hfr1 & Hp1 & _).
  assert (HL1' : rdy_queues st1 (fun q => remove Z.eq_dec rp (L q))).
  { refine (rdy_queues_ext st1 _ _ _ HL1).
    intros q. cbv beta.
    destruct (Z.eqb_spec q (p_priority (proc_tab st rp))) as [->|Hne]; [reflexivity|].
    symmetry. apply notin_remove. intros Hin. apply Hne. symmetry. now apply Hprio. }
  assert (Hout : forall q, ~ In rp (remove Z.eq_dec rp (L q))).
  { intros q. apply remove_In. }
  destruct (ready_spec st1 rp _ HL1' Hout) as (st2 & Hr & HL2 & Hfr2).
  exists st2. split; [|split; [|split; [|split]]].
  - unfold bind, lock_ready, lock_unready. now rewrite Hu.
  - refine (rdy_queues_ext st2 _ L' _ HL2).
    intros q. unfold L'. rewrite Hp1. fold qmax.
    destruct (q =? qmax); [|reflexivity].
    unfold ready_list. now rewrite (same_but_sched_priv rp st st1 Hfr1).
  - intros q. unfold L'. destruct (Z.eqb_spec q qmax) as [->|Hne].
    + split; [reflexivity|]. intros _. apply ready_list_in_iff. now left.
    + split; [intros H; now apply Hout in H|contradiction].
  - rewrite (unlinked_field st1 st2 _ p_priority Hfr2) by reflexivity. exact Hp1.
  - apply (same_but_sched_trans rp st st1); [exact Hfr1|now apply same_but_queues_sched].
Qed.

End ReadyUnready.

Section ReadyUnreadyExamples.

#[local] Existing Instance Examples.minix.

Lemma st_run1_by_priority :
  queued_by_priority Examples.st_run1 Examples.queues_run1.
Proof.
  intros q x. unfold Examples.queues_run1.
  destruct (Z.eqb_spec q 7) as [->|]; simpl; [|tauto].
  intros [<-|[]]. reflexivity.
Qed.

Lemma run1_not_queued (x : Z) :
  x <> 1 -> forall q, ~ In x (Examples.queues_run1 q).
Proof.
  intros Hx q. unfold Examples.queues_run1.
  destruct (q =? 7); simpl; intuition congruence.
Qed.

Lemma lock_ready_enqueues_witness :
  exists st',
    lock_ready 2 Examples.st_run1 = Done tt st'
    /\ same_but_queues Examples.st_run1 st'.
Proof.
  destruct (lock_ready_enqueues Examples.st_run1 2 Examples.queues_run1)
    as (st' & Hr & _ & _ & _ & Hfr & _).
  - exact st_run1_queues.
  - exact st_run1_by_priority.
  - apply run1_not_queued. discriminate.
  - simpl. lia.
  - exists st'. split; [exact Hr|exact Hfr].
Defined.

Lemma lock_unready_removes_witness :
  exists st',
    lock_unready 2 1 Examples.st_run1 = Done tt st'
    /\ p_priority (proc_tab st' 1) = 7.
Proof.
  destruct (lock_unready_removes Examples.st_run1 1 Examples.queues_run1 2)
    as (st' & Hr & _ & _ & _ & Hp & _).
  - exact st_run1_queues.
  - exact st_run1_by_priority.
  - intros H. discriminate H.
  - simpl. lia.
  - exists st'. split; [exact Hr|exact Hp].
Defined.

Lemma unready_stack_overrun_witness :
  lock_unready 1 (-2) MoreExamples.st_overrun = Panic (-2).
Proof.
  destruct (unready_stack_overrun MoreExamples.st_overrun (-2) 1 0 0 1) as [H _].
  - reflexivity.
  - discriminate.
  - exact H.
Defined.

Lemma ready_unready_round_trip_witness :
  exists st',
    (lock_ready 2 ;;; lock_unready 3 2) Examples.st_run1 = Done tt st'
    /\ rdy_queues st' Examples.queues_run1.
Proof.
  destruct (ready_unready_round_trip Examples.st_run1 2 Examples.queues_run1 3)
    as (st' & Hr & HL & _).
  - exact st_run1_queues.
  - apply run1_not_queued. discriminate.
  - intros H. discriminate H.
  - simpl. lia.
  - exists st'. split; [exact Hr|exact HL].
Defined.

Lemma unready_ready_requeues_witness :
  exists st',
    (lock_unready 2 1 ;;; lock_ready 1) Examples.st_run1 = Done tt st'
    /\ p_priority (proc_tab st' 1) = 7.
Proof.
  destruct (unready_ready_requeues Examples.st_run1 1 Examples.queues_run1 2)
    as (st' & Hr & _ & _ & Hp & _).
  - exact st_run1_queues.
  - exact st_run1_by_priority.
  - intros H. discriminate H.
  - simpl. lia.
  - exists st'. split; [exact Hr|exact Hp].
Defined.

End ReadyUnreadyExamples.

(** *** Caller queues *)

Section CallerQueues.

Context {kp : KernelParams}.

Lemma proc_tab_with_proc (rp : Z) (g : proc -> proc) (st : kstate) (x : Z) :
  proc_tab (with_proc rp g st) x
  = if x =? rp then g (proc_tab st rp) else proc_tab st x.
Proof. reflexivity. Qed.

Lemma with_proc_field (A : Type) (f : proc -> A) (rp : Z) (g : proc -> proc)
    (st : kstate) :
  (forall p, f (g p) = f p) ->
  forall x, f (proc_tab (with_proc rp g st) x) = f (proc_tab st x).
Proof.
  intros Hf x. rewrite proc_tab_with_proc.
  destruct (Z.eqb_spec x rp) as [->|]; [apply Hf|reflexivity].
Qed.

Lemma store_cq_field (A : Type) (f : proc -> A) (xpp : caller_pp) (v : option Z)
    (st : kstate) :
  (forall p w, f (set_p_caller_q w p) = f p) ->
  (forall p w, f (set_p_q_link w p) = f p) ->
  forall x, f (proc_tab (store_cq xpp v st) x) = f (proc_tab st x).
Proof.
  intros H1 H2 x. destruct xpp as [rp|rp]; unfold store_cq;
    apply with_proc_field; intros p; [apply H1|apply H2].
Qed.

(** A chain that ends in a null pointer determines its list, and visits
    no slot twice. *)
Lemma chain_unique (next : Z -> option Z) (l1 : list Z) :
  forall l2 h, chain next h l1 -> chain next h l2 -> l1 = l2.
Proof.
  unfold chain. induction l1 as [|a l1 IH]; intros [|b l2] h H1 H2; simpl in *.
  - reflexivity.
  - destruct H2 as [H2 _]. congruence.
  - destruct H1 as [H1 _]. congruence.
  - destruct H1 as [E1 H1], H2 as [E2 H2].
    assert (a = b) by congruence. subst b.
    f_equal. now apply (IH l2 (next a)).
Qed.

Lemma chain_NoDup (next : Z -> option Z) (l : list Z) :
  forall h, chain next h l -> NoDup l.
Proof.
  induction l as [|a l IH]; intros h H; [constructor|].
  destruct H as [_ H]. constructor; [|now apply (IH (next a))].
  intros Hin. apply in_split in Hin. destruct Hin as (l1 & l2 & El).
  assert (H' : lseg next (next a) (l1 ++ a :: l2) None) by now rewrite <- El.
  apply lseg_app in H'. destruct H' as (m & _ & _ & H2).
  pose proof (chain_unique next l l2 (next a) H H2) as E.
  rewrite El in E at 1.
  apply (f_equal (@length Z)) in E. rewrite length_app in E. simpl in E. lia.
Qed.

Lemma cq_pos_snoc (xpp : caller_pp) (l : list Z) (a : Z) :
  cq_pos xpp (l ++ [a]) = QLink a.
Proof.
  unfold cq_pos. destruct (l ++ [a]) eqn:E; [now destruct l|].
  now rewrite <- E, last_last.
Qed.

Lemma cq_pos_cons (rp a : Z) (l : list Z) :
  cq_pos (QLink a) l = cq_pos (CallerQ rp) (a :: l).
Proof.
  destruct l as [|b l]; [reflexivity|].
  unfold cq_pos. reflexivity.
Qed.

Lemma cq_pos_cases (xpp : caller_pp) (l : list Z) :
  cq_pos xpp l = xpp \/ exists t, In t l /\ cq_pos xpp l = QLink t.
Proof.
  destruct l as [|a l]; [now left|]. right.
  exists (last (a :: l) 0). split; [apply last_in; discriminate|reflexivity].
Qed.

(** The walk to the end of a caller queue. *)
Lemma caller_q_end_spec (st : kstate) (l : list Z) :
  forall xpp fuel,
    lseg (q_link_of st) (load_cq st xpp) l None ->
    (length l < fuel)%nat ->
    caller_q_end fuel xpp st = Some (cq_pos xpp l).
Proof.
  induction l as [|a l IH]; intros xpp fuel Hseg Hfuel;
    (destruct fuel as [|fuel]; [simpl in Hfuel; lia|]); simpl in *.
  - now rewrite Hseg.
  - destruct Hseg as [-> Hseg].
    rewrite (IH (QLink a) fuel); [|exact Hseg|lia].
    destruct l; reflexivity.
Qed.

(** Storing a slot through the link that ends a queue appends it. *)
Lemma caller_queue_append (st : kstate) (dst rp : Z) (l : list Z) :
  caller_queue st dst l ->
  ~ In rp l -> rp <> dst ->
  caller_queue
    (with_proc rp (set_p_q_link None)
       (store_cq (cq_pos (CallerQ dst) l) (Some rp) st)) dst (l ++ [rp]).
Proof.
  intros Hch Hnin Hne. pose proof (chain_NoDup _ _ _ Hch) as Hnd.
  unfold caller_queue, chain in *.
  destruct (list_eq_dec Z.eq_dec l []) as [->|Hnil].
  - simpl. unfold q_link_of. cbn. unfold upd.
    rewrite (proj2 (Z.eqb_neq _ _) (not_eq_sym Hne)), !Z.eqb_refl. cbn.
    split; reflexivity.
  - destruct (list_snoc_last l Hnil) as [l0 El0].
    remember (last l 0) as t eqn:Et. subst l. clear Et.
    rewrite cq_pos_snoc.
    assert (Htrp : t <> rp).
    { intros ->. apply Hnin. apply in_or_app. right. now left. }
    apply lseg_app in Hch. destruct Hch as (mid & Hs1 & Hs2).
    simpl in Hs2. destruct Hs2 as [-> Hs2].
    assert (Eh : p_caller_q (proc_tab (with_proc rp (set_p_q_link None)
                               (store_cq (QLink t) (Some rp) st)) dst)
                 = p_caller_q (proc_tab st dst)).
    { rewrite (with_proc_field _ p_caller_q) by reflexivity.
      cbn [store_cq]. now rewrite (with_proc_field _ p_caller_q) by reflexivity. }
    rewrite Eh.
    apply lseg_app. exists (Some rp). split.
    + apply lseg_app. exists (Some t). split.
      * apply (lseg_frame (q_link_of st)); [|exact Hs1].
        intros x Hx. unfold q_link_of. cbn. unfold upd.
        destruct (Z.eqb_spec x rp) as [->|].
        -- exfalso. apply Hnin. apply in_or_app. now left.
        -- destruct (Z.eqb_spec x t) as [->|]; [|reflexivity].
           exfalso. apply NoDup_remove_2 in Hnd. rewrite app_nil_r in Hnd. contradiction.
      * simpl. split; [reflexivity|]. unfold q_link_of. cbn. unfold upd.
        rewrite (proj2 (Z.eqb_neq _ _) Htrp), !Z.eqb_refl. reflexivity.
    + simpl. split; [reflexivity|]. unfold q_link_of. cbn. unfold upd.
      rewrite !Z.eqb_refl. reflexivity.
Qed.

End CallerQueues.

(** *** The blocking path of [mini_send] *)

Section SendBlocks.

Context {kp : KernelParams}.

Lemma deadlock_loop_false (st : kstate) (caller xp : Z) (fuel : nat) :
  deadlock_loop fuel caller xp st = Some false -> ~ sending_path st xp caller.
Proof.
  intros Hloop Hpath. destruct (deadlock_loop_path _ _ _ Hpath) as [n Hn].
  pose proof (deadlock_loop_mono _ _ _ (n + fuel) _ _ Hn ltac:(lia)) as H1.
  pose proof (deadlock_loop_mono _ _ _ (n + fuel) _ _ Hloop ltac:(lia)) as H2.
  congruence.
Qed.

(** With acyclic chains and no chain from the destination to the caller
    the deadlock check passes. *)
Lemma deadlock_loop_passes (st : kstate) (caller dst : Z) :
  acyclic st -> sendto_in_table st -> is_slot dst ->
  ~ sending_path st dst caller ->
  forall fuel, (nr_slots <= fuel)%nat ->
    deadlock_loop fuel caller dst st = Some false.
Proof.
  intros Hac Hin Hdst Hnp fuel Hfuel.
  destruct (deadlock_loop_total st caller dst Hac Hin Hdst) as (r & Hloop).
  rewrite (Hloop fuel Hfuel). destruct r; [|reflexivity].
  exfalso. apply Hnp. apply (deadlock_loop_true st caller fuel).
  now apply Hloop.
Qed.

Lemma mini_send_enqueue (st : kstate) (caller dst m_ptr flags : Z)
    (L : Z -> list Z) (l : list Z) (fuel : nat) :
  deadlock_loop fuel caller (proc_addr dst) st = Some false ->
  awaits st (proc_addr dst) caller = false ->
  Z.land flags NON_BLOCKING = 0 ->
  caller <> proc_addr dst ->
  rdy_queues st L ->
  (iskernelp st caller = true -> s_stack_guard (priv_of st caller) = STACK_GUARD) ->
  caller_queue st (proc_addr dst) l ->
  ~ In caller l ->
  (length l < fuel)%nat ->
  (length (L (p_priority (proc_tab st caller))) < fuel)%nat ->
  let runnable := p_rts_flags (proc_tab st caller) =? 0 in
  exists st',
    mini_send fuel caller dst m_ptr flags st = Done OK st'
    /\ caller_queue st' (proc_addr dst) (l ++ [caller])
    /\ p_rts_flags (proc_tab st' caller)
       = Z.lor (p_rts_flags (proc_tab st caller)) SENDING
    /\ p_sendto (proc_tab st' caller) = dst
    /\ p_messbuf (proc_tab st' caller) = m_ptr
    /\ rdy_queues st'
         (fun q => if runnable && (q =? p_priority (proc_tab st caller))
                   then remove Z.eq_dec caller (L q) else L q)
    /\ (runnable = true ->
        p_priority (proc_tab st' caller) = p_max_priority (proc_tab st caller))
    /\ unsent (proc_tab st' caller) = unsent (proc_tab st caller)
    /\ (forall x, x <> caller -> unqueued (proc_tab st' x) = unqueued (proc_tab st x))
    /\ (forall x, x <> proc_addr dst ->
          p_caller_q (proc_tab st' x) = p_caller_q (proc_tab st x))
    /\ (forall x, x <> caller -> ~ In x l ->
          p_q_link (proc_tab st' x) = p_q_link (proc_tab st x))
    /\ priv_tab st' = priv_tab st
    /\ umem st' = umem st
    /\ notify_buffer st' = notify_buffer st
    /\ notify_bitmap st' = notify_bitmap st
    /\ proc_ptr st' = proc_ptr st.
Proof.
  intros Hloop Haw Hnb Hne HL Hguard Hcq Hnin Hfl HfL runnable.
  unfold proc_addr in *.
  set (st_a := with_proc caller (set_p_messbuf m_ptr) st).
  set (Lb := fun q => if runnable && (q =? p_priority (proc_tab st caller))
                      then remove Z.eq_dec caller (L q) else L q).
  assert (Hfa : p_rts_flags (proc_tab st_a caller) = p_rts_flags (proc_tab st caller)).
  { unfold st_a. now rewrite (with_proc_field _ p_rts_flags) by reflexivity. }
  assert (Hunr : exists st_b,
             (if p_rts_flags (proc_tab st_a caller) =? 0
              then unready fuel caller else ret tt) st_a = Done tt st_b
             /\ same_but_sched caller st_a st_b
             /\ rdy_queues st_b Lb
             /\ (runnable = true ->
                 p_priority (proc_tab st_b caller) = p_max_priority (proc_tab st caller))).
  { rewrite Hfa. fold runnable. unfold Lb. destruct runnable.
    - destruct (unready_spec st_a caller L fuel) as (st_b & Hu & HLb & Hfr & Hp & _).
      + unfold st_a. apply rdy_queues_with_proc; [reflexivity|exact HL].
      + unfold iskernelp, proc_nr, priv_of, priv_ptr in *.
        change (priv_tab st_a) with (priv_tab st). unfold st_a.
        rewrite (with_proc_field _ p_nr), (with_proc_field _ p_priv) by reflexivity.
        exact Hguard.
      + unfold st_a. rewrite (with_proc_field _ p_priority) by reflexivity. exact HfL.
      + exists st_b.
        unfold st_a in HLb, Hp.
        rewrite (with_proc_field _ p_priority) in HLb by reflexivity.
        rewrite (with_proc_field _ p_max_priority) in Hp by reflexivity.
        split; [exact Hu|]. split; [exact Hfr|]. split; [exact HLb|].
        intros _. exact Hp.
    - exists st_a. split; [reflexivity|]. split; [apply same_but_sched_refl|].
      split; [|discriminate].
      unfold st_a. apply rdy_queues_with_proc; [reflexivity|exact HL]. }
  destruct Hunr as (st_b & Hrun & Hfr & HLb & Hpb).
  set (st_c := with_proc caller (set_p_sendto dst)
                 (with_proc caller
                    (fun p => set_p_rts_flags (Z.lor (p_rts_flags p) SENDING) p) st_b)).
  set (st_d := with_proc caller (set_p_q_link None)
                 (store_cq (cq_pos (CallerQ dst) l) (Some caller) st_c)).
  assert (Hab : forall (A : Type) (f : proc -> A),
             (forall p, f (unscheduled p) = f p) ->
             (forall p, f (unlinked p) = f p) ->
             (forall p w, f (set_p_messbuf w p) = f p) ->
             forall x, f (proc_tab st_b x) = f (proc_tab st x)).
  { intros A f H1 H2 H3 x.
    rewrite (unscheduled_any caller st_a st_b _ f Hfr H1 H2).
    unfold st_a. apply with_proc_field. intros p. apply H3. }
  assert (Hac : forall (A : Type) (f : proc -> A),
             (forall p, f (unscheduled p) = f p) ->
             (forall p, f (unlinked p) = f p) ->
             (forall p w, f (set_p_messbuf w p) = f p) ->
             (forall p w, f (set_p_sendto w p) = f p) ->
             (forall p w, f (set_p_rts_flags w p) = f p) ->
             forall x, f (proc_tab st_c x) = f (proc_tab st x)).
  { intros A f H1 H2 H3 H4 H5 x. unfold st_c.
    rewrite !with_proc_field; [now apply Hab| |]; intros p; [apply H5|apply H4]. }
  assert (Hcq_c : caller_queue st_c dst l).
  { unfold caller_queue, chain in *.
    rewrite (Hac _ p_caller_q) by reflexivity.
    apply (lseg_frame (q_link_of st)); [|exact Hcq].
    intros x _. unfold q_link_of. now rewrite (Hac _ p_q_link) by reflexivity. }
  assert (Hsend : mini_send fuel caller dst m_ptr flags st = Done OK st_d).
  { unfold mini_send, proc_addr. rewrite Hloop, Haw, Hnb. cbn [Z.eqb]. cbv zeta.
    fold st_a. unfold bind. rewrite Hrun. fold st_c.
    rewrite (caller_q_end_spec st_c l); [reflexivity|exact Hcq_c|exact Hfl]. }
  assert (Hother : forall x, x <> caller -> proc_tab st_c x = proc_tab st_b x).
  { intros x Hx. unfold st_c. rewrite !proc_tab_with_proc.
    now rewrite (proj2 (Z.eqb_neq _ _) Hx). }
  assert (Hcd : forall (A : Type) (f : proc -> A),
             (forall p w, f (set_p_caller_q w p) = f p) ->
             (forall p w, f (set_p_q_link w p) = f p) ->
             forall x, f (proc_tab st_d x) = f (proc_tab st_c x)).
  { intros A f H1 H2 x. unfold st_d.
    rewrite with_proc_field by (intros p; apply H2).
    now apply store_cq_field. }
  exists st_d. split; [exact Hsend|]. split.
  { now apply caller_queue_append. }
  split.
  { rewrite (Hcd _ p_rts_flags) by reflexivity. unfold st_c.
    rewrite (with_proc_field _ p_rts_flags) by reflexivity.
    rewrite proc_tab_with_proc, Z.eqb_refl. cbn.
    now rewrite (Hab _ p_rts_flags) by reflexivity. }
  split.
  { rewrite (Hcd _ p_sendto) by reflexivity. unfold st_c.
    rewrite proc_tab_with_proc, Z.eqb_refl. reflexivity. }
  split.
  { rewrite (Hcd _ p_messbuf) by reflexivity.
    unfold st_c. rewrite !(with_proc_field _ p_messbuf) by reflexivity.
    rewrite (unscheduled_any caller st_a st_b _ p_messbuf Hfr) by reflexivity.
    unfold st_a. rewrite proc_tab_with_proc, Z.eqb_refl. reflexivity. }
  split.
  { unfold st_d, st_c. apply rdy_queues_with_proc; [reflexivity|].
    assert (Hs : forall xpp v s, rdy_queues s Lb -> rdy_queues (store_cq xpp v s) Lb).
    { intros [rp|rp] v s Hs; cbn [store_cq];
        (apply rdy_queues_with_proc; [reflexivity|exact Hs]). }
    apply Hs. apply rdy_queues_with_proc; [reflexivity|].
    apply rdy_queues_with_proc; [reflexivity|]. exact HLb. }
  split.
  { intros Hr. rewrite (Hcd _ p_priority) by reflexivity. unfold st_c.
    rewrite !(with_proc_field _ p_priority) by reflexivity. now apply Hpb. }
  split.
  { assert (Hpos : proc_tab (store_cq (cq_pos (CallerQ dst) l) (Some caller) st_c) caller
                   = proc_tab st_c caller).
    { destruct (cq_pos_cases (CallerQ dst) l) as [E|(t & Ht & E)]; rewrite E;
        cbn [store_cq]; rewrite proc_tab_with_proc.
      - now rewrite (proj2 (Z.eqb_neq _ _) Hne).
      - destruct (Z.eqb_spec caller t) as [E'|]; [|reflexivity].
        exfalso. apply Hnin. now rewrite E'. }
    unfold st_d. rewrite proc_tab_with_proc, Z.eqb_refl, Hpos.
    change (unsent (set_p_q_link None (proc_tab st_c caller)))
      with (unsent (proc_tab st_c caller)).
    unfold st_c.
    rewrite !(with_proc_field _ unsent) by reflexivity.
    rewrite (unscheduled_field caller st_a st_b _ unsent Hfr) by reflexivity.
    unfold st_a. now rewrite (with_proc_field _ unsent) by reflexivity. }
  split.
  { intros x Hx. rewrite (Hcd _ unqueued) by reflexivity.
    rewrite (Hother x Hx).
    rewrite (unscheduled_other caller st_a st_b _ unqueued Hfr) by (reflexivity || exact Hx).
    unfold st_a. rewrite proc_tab_with_proc. now rewrite (proj2 (Z.eqb_neq _ _) Hx). }
  split.
  { intros x Hx. rewrite <- (Hac _ p_caller_q) by reflexivity.
    unfold st_d. rewrite (with_proc_field _ p_caller_q) by reflexivity.
    destruct (cq_pos_cases (CallerQ dst) l) as [E|(t & Ht & E)]; rewrite E;
      cbn [store_cq].
    - rewrite proc_tab_with_proc. now rewrite (proj2 (Z.eqb_neq _ _) Hx).
    - now rewrite (with_proc_field _ p_caller_q) by reflexivity. }
  split.
  { intros x Hx Hxl. rewrite <- (Hac _ p_q_link) by reflexivity.
    unfold st_d. rewrite proc_tab_with_proc. rewrite (proj2 (Z.eqb_neq _ _) Hx).
    destruct (cq_pos_cases (CallerQ dst) l) as [E|(t & Ht & E)]; rewrite E;
      cbn [store_cq].
    - now rewrite (with_proc_field _ p_q_link) by reflexivity.
    - rewrite proc_tab_with_proc. destruct (Z.eqb_spec x t) as [E'|]; [|reflexivity].
      exfalso. apply Hxl. now rewrite E'. }
  destruct Hfr as (_ & _ & Hpr & Hpp & Hnb' & Hbm & Hum & _).
  assert (Hs : forall xpp v s,
             priv_tab (store_cq xpp v s) = priv_tab s
             /\ umem (store_cq xpp v s) = umem s
             /\ notify_buffer (store_cq xpp v s) = notify_buffer s
             /\ notify_bitmap (store_cq xpp v s) = notify_bitmap s
             /\ proc_ptr (store_cq xpp v s) = proc_ptr s).
  { intros [rp|rp] v s; repeat split. }
  destruct (Hs (cq_pos (CallerQ dst) l) (Some caller) st_c) as (E1 & E2 & E3 & E4 & E5).
  unfold st_d. cbn [with_proc priv_tab umem notify_buffer notify_bitmap proc_ptr set_proc_tab].
  rewrite E1, E2, E3, E4, E5. unfold st_c. cbn.
  rewrite Hpr, Hum, Hnb', Hbm, Hpp. repeat split.
Qed.

(** Every way [mini_send] can return, with what it has done to the
    [SENDING] flags and to [p_sendto]. *)
Lemma mini_send_inv (fuel : nat) (caller dst m_ptr flags : Z) (st st' : kstate) (r : Z) :
  mini_send fuel caller dst m_ptr flags st = Done r st' ->
  (r = ELOCKED /\ st' = st
   /\ deadlock_loop fuel caller (proc_addr dst) st = Some true)
  \/ (r = ENOTREADY /\ st' = st
      /\ deadlock_loop fuel caller (proc_addr dst) st = Some false)
  \/ (r = OK
      /\ deadlock_loop fuel caller (proc_addr dst) st = Some false
      /\ awaits st (proc_addr dst) caller = true
      /\ (forall x, p_sendto (proc_tab st' x) = p_sendto (proc_tab st x))
      /\ (forall x, x <> proc_addr dst ->
            p_rts_flags (proc_tab st' x) = p_rts_flags (proc_tab st x))
      /\ p_rts_flags (proc_tab st' (proc_addr dst))
         = Z.land (p_rts_flags (proc_tab st (proc_addr dst))) (Z.lnot RECEIVING))
  \/ (r = OK
      /\ deadlock_loop fuel caller (proc_addr dst) st = Some false
      /\ awaits st (proc_addr dst) caller = false
      /\ Z.land flags NON_BLOCKING = 0
      /\ (forall x, x <> caller ->
            p_sendto (proc_tab st' x) = p_sendto (proc_tab st x)
            /\ p_rts_flags (proc_tab st' x) = p_rts_flags (proc_tab st x))
      /\ p_sendto (proc_tab st' caller) = dst
      /\ p_rts_flags (proc_tab st' caller)
         = Z.lor (p_rts_flags (proc_tab st caller)) SENDING).
Proof.
  unfold mini_send, proc_addr.
  destruct (deadlock_loop fuel caller dst st) as [[|]|] eqn:El; [| |discriminate].
  { intros H. injection H as <- <-. left. auto. }
  destruct (awaits st dst caller) eqn:Haw.
  - cbv zeta.
    set (st1 := with_proc dst
                  (fun p => set_p_rts_flags (Z.land (p_rts_flags p) (Z.lnot RECEIVING)) p)
                  (CopyMess (p_nr (proc_tab st caller)) (umem st caller m_ptr) dst
                     (p_messbuf (proc_tab st dst)) st)).
    assert (H1 : (forall x, p_sendto (proc_tab st1 x) = p_sendto (proc_tab st x))
                 /\ (forall x, x <> dst ->
                       p_rts_flags (proc_tab st1 x) = p_rts_flags (proc_tab st x))
                 /\ p_rts_flags (proc_tab st1 dst)
                    = Z.land (p_rts_flags (proc_tab st dst)) (Z.lnot RECEIVING)).
    { unfold st1. split; [|split].
      - intros x. now rewrite (with_proc_field _ p_sendto) by reflexivity.
      - intros x Hx. rewrite proc_tab_with_proc.
        now rewrite (proj2 (Z.eqb_neq _ _) Hx).
      - rewrite proc_tab_with_proc, Z.eqb_refl. reflexivity. }
    destruct H1 as (Hs1 & Hf1 & Hd1).
    unfold bind. destruct (p_rts_flags (proc_tab st1 dst) =? 0).
    + destruct (ready dst st1) as [[] st2| | |] eqn:Er; try discriminate.
      unfold ret. intros H. injection H as <- <-.
      pose proof (ready_frame _ _ _ Er) as Hfr.
      right. right. left. repeat split; try reflexivity.
      * intros x. now rewrite (unlinked_field st1 st2 _ p_sendto Hfr) by reflexivity.
      * intros x Hx. rewrite (unlinked_field st1 st2 _ p_rts_flags Hfr) by reflexivity.
        now apply Hf1.
      * now rewrite (unlinked_field st1 st2 _ p_rts_flags Hfr) by reflexivity.
    + unfold ret. intros H. injection H as <- <-.
      right. right. left. repeat split; try reflexivity; assumption.
  - destruct (Z.eqb_spec (Z.land flags NON_BLOCKING) 0) as [Enb|Enb].
    + cbv zeta. set (st_a := with_proc caller (set_p_messbuf m_ptr) st).
      unfold bind.
      destruct ((if p_rts_flags (proc_tab st_a caller) =? 0
                 then unready fuel caller else ret tt) st_a)
        as [[] st_b| | |] eqn:Eu; try discriminate.
      assert (Hfr : same_but_sched caller st_a st_b).
      { destruct (p_rts_flags (proc_tab st_a caller) =? 0);
          [now apply unready_frame in Eu|].
        injection Eu as <-. apply same_but_sched_refl. }
      destruct (caller_q_end fuel (CallerQ dst) _) as [xpp|]; [|discriminate].
      intros H. injection H as <- <-.
      right. right. right. repeat split; try reflexivity; try assumption.
      * rewrite (with_proc_field _ p_sendto) by reflexivity.
        rewrite (store_cq_field _ p_sendto) by reflexivity.
        rewrite !proc_tab_with_proc. rewrite (proj2 (Z.eqb_neq _ _) H).
        rewrite (unscheduled_any caller st_a st_b _ p_sendto Hfr) by reflexivity.
        unfold st_a. now rewrite (with_proc_field _ p_sendto) by reflexivity.
      * rewrite (with_proc_field _ p_rts_flags) by reflexivity.
        rewrite (store_cq_field _ p_rts_flags) by reflexivity.
        rewrite !proc_tab_with_proc. rewrite (proj2 (Z.eqb_neq _ _) H).
        rewrite (unscheduled_any caller st_a st_b _ p_rts_flags Hfr) by reflexivity.
        unfold st_a. now rewrite (with_proc_field _ p_rts_flags) by reflexivity.
      * rewrite (with_proc_field _ p_sendto) by reflexivity.
        rewrite (store_cq_field _ p_sendto) by reflexivity.
        rewrite proc_tab_with_proc, Z.eqb_refl. reflexivity.
      * rewrite (with_proc_field _ p_rts_flags) by reflexivity.
        rewrite (store_cq_field _ p_rts_flags) by reflexivity.
        rewrite (with_proc_field _ p_rts_flags) by reflexivity.
        rewrite proc_tab_with_proc, Z.eqb_refl. cbn [p_rts_flags set_p_rts_flags].
        rewrite (unscheduled_any caller st_a st_b _ p_rts_flags Hfr) by reflexivity.
        unfold st_a. now rewrite (with_proc_field _ p_rts_flags) by reflexivity.
    + intros H. injection H as <- <-. right. left. auto.
Qed.

Lemma sending_path_trans (st : kstate) (a b c : Z) :
  sending_path st a b -> sending_path st b c -> sending_path st a c.
Proof.
  induction 1 as [x Hs|x y Hs P IH]; intros Q.
  - now apply sending_path_more.
  - apply sending_path_more; [assumption|]. now apply IH.
Qed.

(** A state whose [SENDING] links are links of another state has its
    chains. *)
Lemma sending_path_sub (st st' : kstate) :
  (forall x, is_sending st' x ->
             is_sending st x /\ p_sendto (proc_tab st' x) = p_sendto (proc_tab st x)) ->
  forall x y, sending_path st' x y -> sending_path st x y.
Proof.
  intros H x y P. induction P as [x Hs|x y Hs P IH]; destruct (H x Hs) as [Hs' E].
  - rewrite E. now constructor.
  - apply sending_path_more; [assumption|]. now rewrite <- E.
Qed.

(** One more link, from [c] to [d], closes no cycle unless a chain led
    from [d] to [c]. *)
Lemma acyclic_add_edge (st st' : kstate) (c d : Z) :
  (forall x, x <> c -> is_sending st' x ->
             is_sending st x /\ p_sendto (proc_tab st' x) = p_sendto (proc_tab st x)) ->
  (is_sending st' c -> p_sendto (proc_tab st' c) = d) ->
  c <> d ->
  ~ sending_path st d c ->
  acyclic st -> acyclic st'.
Proof.
  intros Hold Hnew Hcd Hnp Hac.
  assert (La : forall x y, sending_path st' x y -> x <> c ->
             sending_path st x y \/ (sending_path st x c /\ sending_path st' c y)).
  { intros x y P. induction P as [x Hs|x y Hs P IH]; intros Hx;
      destruct (Hold x Hx Hs) as [Hs' E].
    - left. rewrite E. now constructor.
    - destruct (Z.eq_dec (p_sendto (proc_tab st' x)) c) as [Ez|Nz].
      + right. split; [rewrite <- Ez, E; now constructor|rewrite <- Ez; exact P].
      + destruct (IH Nz) as [Q|[Q1 Q2]].
        * left. apply sending_path_more; [assumption|]. now rewrite <- E.
        * right. split; [|assumption].
          apply sending_path_more; [assumption|]. now rewrite <- E. }
  assert (Lc : forall y, sending_path st' c y -> y = d \/ sending_path st' d y).
  { intros y P. inversion P as [x Hs Ex|x y' Hs P' Ex Ey]; subst.
    - left. now apply Hnew.
    - right. rewrite <- (Hnew Hs). exact P'. }
  intros x P. destruct (Z.eq_dec x c) as [->|Hx].
  - destruct (Lc c P) as [E|Q]; [congruence|].
    destruct (La d c Q (not_eq_sym Hcd)) as [Q'|[Q' _]]; exact (Hnp Q').
  - destruct (La x x P Hx) as [Q|[Q1 Q2]]; [exact (Hac x Q)|].
    destruct (Lc x Q2) as [E|Q3].
    + subst x. exact (Hnp Q1).
    + destruct (La d x Q3 (not_eq_sym Hcd)) as [Q4|[Q4 _]].
      * apply Hnp. now apply (sending_path_trans st d x c).
      * exact (Hnp Q4).
Qed.

(** X8.  The blocking path of [mini_send]: when the destination is not
    waiting for the caller, the flags allow blocking and no chain of
    senders leads from the destination back to the caller, the caller is
    blocked and queued.  It gets [SENDING], [p_sendto] and [p_messbuf] are
    set, it is appended at the end of the destination's caller queue, after
    the senders already queued, and when it was runnable it is taken off its
    ready queue.  The message is not copied yet, and no other slot changes
    but in queue links. *)
Theorem mini_send_blocks (st : kstate) (caller dst m_ptr flags : Z)
    (L : Z -> list Z) (l : list Z) (fuel : nat) :
  acyclic st -> sendto_in_table st -> is_slot dst ->
  ~ sending_path st (proc_addr dst) caller ->
  awaits st (proc_addr dst) caller = false ->
  Z.land flags NON_BLOCKING = 0 ->
  caller <> proc_addr dst ->
  rdy_queues st L ->
  (iskernelp st caller = true -> s_stack_guard (priv_of st caller) = STACK_GUARD) ->
  caller_queue st (proc_addr dst) l ->
  ~ In caller l ->
  (nr_slots <= fuel)%nat ->
  (length l < fuel)%nat ->
  (length (L (p_priority (proc_tab st caller))) < fuel)%nat ->
  let runnable := p_rts_flags (proc_tab st caller) =? 0 in
  exists st',
    mini_send fuel caller dst m_ptr flags st = Done OK st'
    /\ caller_queue st' (proc_addr dst) (l ++ [caller])
    /\ p_rts_flags (proc_tab st' caller)
       = Z.lor (p_rts_flags (proc_tab st caller)) SENDING
    /\ p_sendto (proc_tab st' caller) = dst
    /\ p_messbuf (proc_tab st' caller) = m_ptr
    /\ rdy_queues st'
         (fun q => if runnable && (q =? p_priority (proc_tab st caller))
                   then remove Z.eq_dec caller (L q) else L q)
    /\ (forall x, x <> caller -> unqueued (proc_tab st' x) = unqueued (proc_tab st x))
    /\ umem st' = umem st.
Proof.
  intros Hac Hin Hdst Hnp Haw Hnb Hne HL Hguard Hcq Hnin Hf1 Hf2 Hf3 runnable.
  destruct (mini_send_enqueue st caller dst m_ptr flags L l fuel)
    as (st' & Hs & Hq & Hfl & Hst & Hmb & HL' & _ & _ & Hfr & _ & _ & _ & Hum & _);
    try assumption.
  { unfold proc_addr in *. now apply deadlock_loop_passes. }
  exists st'. repeat (split; [assumption|]). assumption.
Qed.

(** X9.  [mini_send] reports a deadlock only where there is one: when it
    returns [ELOCKED], a chain of [SENDING] slots leads from the
    destination to the caller, and the state is the one it was given. *)
Theorem mini_send_elocked_sound (fuel : nat) (caller dst m_ptr flags : Z)
    (st st' : kstate) :
  ELOCKED <> OK -> ELOCKED <> ENOTREADY ->
  mini_send fuel caller dst m_ptr flags st = Done ELOCKED st' ->
  sending_path st (proc_addr dst) caller /\ st' = st.
Proof.
  intros H1 H2 H. apply mini_send_inv in H.
  destruct H as [(_ & E & Hl)|[(E & _)|[(E & _)|(E & _)]]]; try contradiction.
  split; [|exact E]. now apply (deadlock_loop_true st caller fuel).
Qed.

(** X10.  [mini_send] keeps the chains of [SENDING] slots acyclic, which
    is what its own deadlock check relies on: if no chain leads back to
    where it started before the call, none does after it, whatever the
    call returns.  The caller must not be its own destination: the check
    does not look at that case. *)
Theorem mini_send_keeps_acyclic (fuel : nat) (caller dst m_ptr flags : Z)
    (st st' : kstate) (r : Z) :
  caller <> proc_addr dst ->
  acyclic st ->
  mini_send fuel caller dst m_ptr flags st = Done r st' ->
  acyclic st'.
Proof.
  intros Hne Hac H. apply mini_send_inv in H. unfold proc_addr in *.
  destruct H as [(_ & -> & _)|[(_ & -> & _)|[H|H]]]; try assumption.
  - destruct H as (_ & _ & _ & Hs & Hf & Hd).
    intros x P. apply (Hac x). revert P. apply sending_path_sub.
    intros y Hy. split; [|apply Hs]. unfold is_sending in *.
    destruct (Z.eq_dec y dst) as [->|Hy']; [|now rewrite <- Hf].
    rewrite Hd in Hy. intros E. apply Hy.
    rewrite <- Z.land_assoc, (Z.land_comm (Z.lnot RECEIVING)), Z.land_assoc, E.
    apply Z.land_0_l.
  - destruct H as (_ & Hl & _ & _ & Hx & Hs & _).
    apply (acyclic_add_edge st st' caller dst); try assumption.
    + intros x Hxc Hsx. destruct (Hx x Hxc) as [E1 E2].
      split; [|exact E1]. unfold is_sending in *. now rewrite <- E2.
    + intros _. exact Hs.
    + now apply (deadlock_loop_false st caller dst fuel).
Qed.

End SendBlocks.

Section SendBlocksExamples.

#[local] Existing Instance Examples.minix.

Lemma st_2_sends_1_queues :
  rdy_queues Examples.st_2_sends_1 Examples.queues_run1.
Proof.
  unfold Examples.st_2_sends_1.
  apply rdy_queues_with_proc; [reflexivity|].
  apply rdy_queues_with_proc; [reflexivity|].
  exact st_run1_queues.
Qed.

Lemma mini_send_blocks_witness :
  exists st',
    mini_send 68 3 1 0 0 Examples.st_2_sends_1 = Done OK st'
    /\ caller_queue st' 1 [2; 3].
Proof.
  destruct (mini_send_blocks Examples.st_2_sends_1 3 1 0 0 Examples.queues_run1 [2] 68)
    as (st' & Hs & Hq & _).
  - exact st_2_sends_1_acyclic.
  - exact st_2_sends_1_in_table.
  - unfold is_slot. simpl. lia.
  - intros Hp. apply st_2_sends_1_path in Hp. destruct Hp as [Hp _]. discriminate Hp.
  - reflexivity.
  - reflexivity.
  - discriminate.
  - exact st_2_sends_1_queues.
  - intros H. discriminate H.
  - unfold caller_queue, chain. simpl. split; reflexivity.
  - simpl. intuition discriminate.
  - apply Nat.eq_le_incl. reflexivity.
  - simpl. lia.
  - simpl. lia.
  - exists st'. split; [exact Hs|exact Hq].
Defined.

Lemma mini_send_elocked_sound_witness :
  sending_path Examples.st_2_sends_1 (proc_addr 2) 1.
Proof.
  destruct (mini_send_elocked_sound 1 1 2 0 0 Examples.st_2_sends_1 Examples.st_2_sends_1)
    as [Hp _].
  - discriminate.
  - discriminate.
  - reflexivity.
  - exact Hp.
Defined.

Lemma mini_send_keeps_acyclic_witness :
  match mini_send 3 3 2 0 0 Examples.st_2_sends_1 with
  | Done _ st' => acyclic st'
  | _ => False
  end.
Proof.
  destruct (mini_send 3 3 2 0 0 Examples.st_2_sends_1) as [r st'| | |] eqn:E;
    try (vm_compute in E; discriminate E).
  apply (mini_send_keeps_acyclic 3 3 2 0 0 Examples.st_2_sends_1 st' r).
  - discriminate.
  - exact st_2_sends_1_acyclic.
  - exact E.
Defined.

End SendBlocksExamples.

(** *** The caller queue in [mini_receive] *)

Section ReceiveQueue.

Context {kp : KernelParams}.

Lemma notify_scan_none (st : kstate) (map : sys_map_t) (src : Z) (fuel : nat) :
  none_pending map ->
  forall n c, notify_scan fuel n c map src st = ScanNone.
Proof.
  intros Hnone. induction n as [|n IH]; intros c; simpl; [reflexivity|].
  rewrite (Hnone (Z.to_nat c)). cbn [Z.eqb]. apply IH.
Qed.

Lemma ntf_q_scan_miss (st : kstate) (src : Z) (l : list Z) :
  forall pp fuel,
    lseg (n_next_of st) (load_ntf st pp) l None ->
    (forall np, In np l -> accepts_ntf st src np = false) ->
    (length l < fuel)%nat ->
    ntf_q_scan fuel pp src st = Some None.
Proof.
  induction l as [|a l IH]; intros pp fuel Hseg Hl Hfuel;
    (destruct fuel as [|fuel]; [simpl in Hfuel; lia|]); simpl in *.
  - now rewrite Hseg.
  - destruct Hseg as [-> Hseg].
    pose proof (Hl a (or_introl eq_refl)) as Ha. unfold accepts_ntf in Ha. rewrite Ha.
    apply IH; [exact Hseg|intros x Hx; apply Hl; now right|lia].
Qed.

Lemma caller_q_scan_hit (st : kstate) (src x : Z) (lb : list Z) (la : list Z) :
  forall l0 rp fuel,
    lseg (q_link_of st) (load_cq st (cq_pos (CallerQ rp) l0)) (la ++ x :: lb) None ->
    (forall y, In y la -> accepts st src y = false) ->
    accepts st src x = true ->
    (length la < fuel)%nat ->
    caller_q_scan fuel (cq_pos (CallerQ rp) l0) src st
    = Some (Some (cq_pos (CallerQ rp) (l0 ++ la), x)).
Proof.
  induction la as [|a la IH]; intros l0 rp fuel Hseg Hla Hx Hfuel;
    (destruct fuel as [|fuel]; [simpl in Hfuel; lia|]); simpl in Hseg.
  - destruct Hseg as [Hload _]. cbn [caller_q_scan]. rewrite Hload.
    unfold accepts in Hx. rewrite Hx. now rewrite app_nil_r.
  - destruct Hseg as [Hload Hseg]. cbn [caller_q_scan]. rewrite Hload.
    pose proof (Hla a (or_introl eq_refl)) as Ha. unfold accepts in Ha. rewrite Ha.
    rewrite <- (cq_pos_snoc (CallerQ rp) l0 a).
    rewrite (IH (l0 ++ [a]) rp fuel).
    + now rewrite <- app_assoc.
    + rewrite cq_pos_snoc. exact Hseg.
    + intros y Hy. apply Hla. now right.
    + exact Hx.
    + simpl in Hfuel. lia.
Qed.

Lemma caller_q_scan_miss (st : kstate) (src : Z) (l : list Z) :
  forall xpp fuel,
    lseg (q_link_of st) (load_cq st xpp) l None ->
    (forall y, In y l -> accepts st src y = false) ->
    (length l < fuel)%nat ->
    caller_q_scan fuel xpp src st = Some None.
Proof.
  induction l as [|a l IH]; intros xpp fuel Hseg Hl Hfuel;
    (destruct fuel as [|fuel]; [simpl in Hfuel; lia|]); simpl in *.
  - now rewrite Hseg.
  - destruct Hseg as [-> Hseg].
    pose proof (Hl a (or_introl eq_refl)) as Ha. unfold accepts in Ha. rewrite Ha.
    apply IH; [exact Hseg|intros x Hx; apply Hl; now right|lia].
Qed.

Lemma rdy_queues_store_cq (xpp : caller_pp) (v : option Z) (st : kstate)
    (L : Z -> list Z) :
  rdy_queues st L -> rdy_queues (store_cq xpp v st) L.
Proof.
  intros H. destruct xpp as [rp|rp]; cbn [store_cq];
    (apply rdy_queues_with_proc; [reflexivity|exact H]).
Qed.

(** Storing the successor of a slot through the link that leads to it
    takes the slot out of the queue. *)
Lemma caller_queue_remove (st : kstate) (rp x : Z) (la lb : list Z) :
  caller_queue st rp (la ++ x :: lb) ->
  caller_queue (store_cq (cq_pos (CallerQ rp) la) (q_link_of st x) st) rp (la ++ lb).
Proof.
  intros Hch. pose proof (chain_NoDup _ _ _ Hch) as Hnd.
  unfold caller_queue, chain in *.
  apply lseg_app in Hch. destruct Hch as (mid & Hs1 & Hs2).
  simpl in Hs2. destruct Hs2 as [-> Hs2].
  destruct (list_eq_dec Z.eq_dec la []) as [->|Hnil].
  - simpl in Hs1. cbn [app cq_pos store_cq].
    rewrite proc_tab_with_proc, Z.eqb_refl. cbn [p_caller_q set_p_caller_q].
    apply (lseg_frame (q_link_of st)); [|exact Hs2].
    intros y _. unfold q_link_of. now rewrite (with_proc_field _ p_q_link) by reflexivity.
  - destruct (list_snoc_last la Hnil) as [l0 El0].
    remember (last la 0) as t eqn:Et. subst la. clear Et.
    rewrite cq_pos_snoc. cbn [store_cq].
    rewrite (with_proc_field _ p_caller_q) by reflexivity.
    apply lseg_app in Hs1. destruct Hs1 as (mid & Hs1 & Hs3).
    simpl in Hs3. destruct Hs3 as [-> Hs3].
    rewrite <- !app_assoc in Hnd. simpl in Hnd.
    pose proof (NoDup_remove_2 _ _ _ Hnd) as Ht.
    rewrite <- app_assoc. apply lseg_app. exists (Some t). split.
    + apply (lseg_frame (q_link_of st)); [|exact Hs1].
      intros y Hy. unfold q_link_of. rewrite proc_tab_with_proc.
      destruct (Z.eqb_spec y t) as [E|]; [|reflexivity].
      exfalso. apply Ht. apply in_or_app. left. now rewrite <- E.
    + simpl. split; [reflexivity|].
      replace (q_link_of (with_proc t (set_p_q_link (q_link_of st x)) st) t)
        with (q_link_of st x)
        by (unfold q_link_of; rewrite proc_tab_with_proc, Z.eqb_refl; reflexivity).
      apply (lseg_frame (q_link_of st)); [|exact Hs2].
      intros y Hy. unfold q_link_of. rewrite proc_tab_with_proc.
      destruct (Z.eqb_spec y t) as [E|]; [|reflexivity].
      exfalso. apply Ht. apply in_or_app. right. right. now rewrite <- E.
Qed.

(** The caller queue part of [mini_receive] when an acceptable sender is
    queued. *)
Lemma receive_caller_q_dequeue (st : kstate) (caller src m_ptr flags x : Z)
    (L : Z -> list Z) (la lb : list Z) (fuel : nat) :
  caller_queue st caller (la ++ x :: lb) ->
  (forall y, In y la -> accepts st src y = false) ->
  accepts st src x = true ->
  rdy_queues st L ->
  (Z.land (p_rts_flags (proc_tab st x)) (Z.lnot SENDING) = 0 ->
   forall q, ~ In x (L q)) ->
  (length la < fuel)%nat ->
  let woken := Z.land (p_rts_flags (proc_tab st x)) (Z.lnot SENDING) =? 0 in
  exists st',
    receive_caller_q fuel caller src m_ptr flags st = Done OK st'
    /\ umem st' caller m_ptr
       = cp_mess (p_nr (proc_tab st x)) (umem st x (p_messbuf (proc_tab st x)))
    /\ p_rts_flags (proc_tab st' x)
       = Z.land (p_rts_flags (proc_tab st x)) (Z.lnot SENDING)
    /\ caller_queue st' caller (la ++ lb)
    /\ rdy_queues st'
         (fun q => if woken && (q =? p_priority (proc_tab st x))
                   then ready_list st x (L q) else L q)
    /\ (forall y, y <> x -> unqueued (proc_tab st' y) = unqueued (proc_tab st y))
    /\ unqueued (set_p_rts_flags 0 (proc_tab st' x))
       = unqueued (set_p_rts_flags 0 (proc_tab st x))
    /\ priv_tab st' = priv_tab st
    /\ notify_buffer st' = notify_buffer st
    /\ notify_bitmap st' = notify_bitmap st
    /\ proc_ptr st' = proc_ptr st
    /\ (forall p a, p <> caller \/ a <> m_ptr -> umem st' p a = umem st p a).
Proof.
  intros Hcq Hla Hx HL Hnot Hfuel woken.
  set (st1 := with_proc x
                (fun p => set_p_rts_flags (Z.land (p_rts_flags p) (Z.lnot SENDING)) p)
                (CopyMess (p_nr (proc_tab st x)) (umem st x (p_messbuf (proc_tab st x)))
                   caller m_ptr st)).
  set (L' := fun q => if woken && (q =? p_priority (proc_tab st x))
                      then ready_list st x (L q) else L q).
  assert (H1 : forall (A : Type) (f : proc -> A),
             (forall p w, f (set_p_rts_flags w p) = f p) ->
             forall y, f (proc_tab st1 y) = f (proc_tab st y)).
  { intros A f Hf y. unfold st1. rewrite with_proc_field by (intros p; apply Hf).
    reflexivity. }
  assert (Hf1 : p_rts_flags (proc_tab st1 x)
                = Z.land (p_rts_flags (proc_tab st x)) (Z.lnot SENDING)).
  { unfold st1. rewrite proc_tab_with_proc, Z.eqb_refl. reflexivity. }
  assert (HL1 : rdy_queues st1 L).
  { unfold st1. apply rdy_queues_with_proc; [reflexivity|].
    destruct HL as [Hq Hd]. split; [|exact Hd].
    intros q. apply (rdy_queue_frame st); [apply Hq|reflexivity|reflexivity|].
    intros y _. reflexivity. }
  assert (Hrdy : exists st2,
             (if p_rts_flags (proc_tab st1 x) =? 0 then ready x else ret tt) st1
             = Done tt st2
             /\ same_but_queues st1 st2
             /\ rdy_queues st2 L').
  { rewrite Hf1. fold woken. unfold L'. destruct woken eqn:Ew.
    - apply Z.eqb_eq in Ew.
      destruct (ready_spec st1 x L HL1 (Hnot Ew)) as (st2 & Hr & HL2 & Hfr).
      exists st2. split; [exact Hr|]. split; [exact Hfr|].
      refine (rdy_queues_ext st2 _ _ _ HL2).
      intros q. cbv beta. rewrite (H1 _ p_priority) by reflexivity.
      cbn [andb]. destruct (q =? p_priority (proc_tab st x)); [|reflexivity].
      unfold ready_list, priv_of, priv_ptr. rewrite (H1 _ p_priv) by reflexivity.
      reflexivity.
    - exists st1. split; [reflexivity|]. split; [apply same_but_queues_refl|exact HL1]. }
  destruct Hrdy as (st2 & Hrun & Hfr & HL2).
  assert (H2 : forall (A : Type) (f : proc -> A),
             (forall p, f (unlinked p) = f p) ->
             (forall p w, f (set_p_rts_flags w p) = f p) ->
             forall y, f (proc_tab st2 y) = f (proc_tab st y)).
  { intros A f Hf Hg y. rewrite (unlinked_field st1 st2 _ f Hfr Hf). now apply H1. }
  assert (Hcq2 : caller_queue st2 caller (la ++ x :: lb)).
  { unfold caller_queue, chain in *. rewrite (H2 _ p_caller_q) by reflexivity.
    apply (lseg_frame (q_link_of st)); [|exact Hcq].
    intros y _. unfold q_link_of. now rewrite (H2 _ p_q_link) by reflexivity. }
  set (st3 := store_cq (cq_pos (CallerQ caller) la) (p_q_link (proc_tab st2 x)) st2).
  assert (Hrun3 : receive_caller_q fuel caller src m_ptr flags st = Done OK st3).
  { unfold receive_caller_q.
    change (CallerQ caller) with (cq_pos (CallerQ caller) []).
    rewrite (caller_q_scan_hit st src x lb la [] caller fuel); try assumption.
    cbv zeta. fold st1. unfold bind. rewrite Hrun. reflexivity. }
  assert (H3 : forall (A : Type) (f : proc -> A),
             (forall p w, f (set_p_caller_q w p) = f p) ->
             (forall p w, f (set_p_q_link w p) = f p) ->
             forall y, f (proc_tab st3 y) = f (proc_tab st2 y)).
  { intros A f Ha Hb y. unfold st3. now apply store_cq_field. }
  assert (Hst3 : priv_tab st3 = priv_tab st2 /\ notify_buffer st3 = notify_buffer st2
                 /\ notify_bitmap st3 = notify_bitmap st2 /\ proc_ptr st3 = proc_ptr st2
                 /\ umem st3 = umem st2).
  { unfold st3. destruct (cq_pos (CallerQ caller) la); repeat split. }
  destruct Hst3 as (E1 & E2 & E3 & E4 & E5).
  pose proof Hfr as (Hp & Hpr & Hpp & Hnb & Hbm & Hum & _).
  exists st3. split; [exact Hrun3|].
  split.
  { rewrite E5, Hum. unfold st1. cbn. unfold upd. now rewrite !Z.eqb_refl. }
  split.
  { rewrite (H3 _ p_rts_flags) by reflexivity.
    rewrite (unlinked_field st1 st2 _ p_rts_flags Hfr) by reflexivity.
    exact Hf1. }
  split.
  { unfold st3. now apply caller_queue_remove. }
  split.
  { unfold st3. now apply rdy_queues_store_cq. }
  split.
  { intros y Hy. rewrite (H3 _ unqueued) by reflexivity.
    rewrite (unlinked_field st1 st2 _ unqueued Hfr) by reflexivity.
    unfold st1. rewrite proc_tab_with_proc.
    now rewrite (proj2 (Z.eqb_neq _ _) Hy). }
  split.
  { rewrite (H3 _ (fun p => unqueued (set_p_rts_flags 0 p))) by reflexivity.
    now rewrite (H2 _ (fun p => unqueued (set_p_rts_flags 0 p))) by reflexivity. }
  split; [now rewrite E1, Hpr|].
  split; [now rewrite E2, Hnb|].
  split; [now rewrite E3, Hbm|].
  split; [now rewrite E4, Hpp|].
  intros p a Hpa. rewrite E5, Hum. unfold st1. cbn. unfold upd.
  destruct (Z.eqb_spec p caller) as [->|]; [|reflexivity].
  destruct (Z.eqb_spec a m_ptr) as [->|]; [|reflexivity].
  destruct Hpa; contradiction.
Qed.

End ReceiveQueue.

(** *** [mini_receive]: queued senders and blocking *)

Section Receive.

Context {kp : KernelParams}.


Lemma land_lor_absorb (r s : Z) : Z.land r (Z.lor r s) = r.
Proof.
  apply Z.bits_inj'. intros n Hn. rewrite Z.land_spec, Z.lor_spec.
  destruct (Z.testbit r n), (Z.testbit s n); reflexivity.
Qed.

(** With no notification to deliver [mini_receive] turns to the caller
    queue. *)
Lemma mini_receive_quiet (st : kstate) (caller src m_ptr flags : Z) (ln : list Z)
    (fuel : nat) :
  Z.land (p_rts_flags (proc_tab st caller)) SENDING = 0 ->
  no_notification st caller src flags ln ->
  (length ln < fuel)%nat ->
  mini_receive fuel caller src m_ptr flags st
  = receive_caller_q fuel caller src m_ptr flags st.
Proof.
  intros Hns Hq Hfuel. unfold mini_receive. rewrite Hns. cbn [Z.eqb].
  destruct (Z.eqb_spec (Z.land flags FRESH_ANSWER) 0) as [E|E]; [|reflexivity].
  destruct Hq as [Hq|(Hnone & Hch & Hacc)]; [contradiction|].
  unfold pending_of in Hnone. rewrite (notify_scan_none st _ src fuel Hnone).
  unfold receive_ntf_q.
  now rewrite (ntf_q_scan_miss st src ln (NtfQ caller) fuel Hch Hacc Hfuel).
Qed.

(** What [no_notification] reads. *)
Lemma no_notification_frame (st st' : kstate) (caller src flags : Z) (ln : list Z) :
  priv_tab st' = priv_tab st ->
  notify_buffer st' = notify_buffer st ->
  p_priv (proc_tab st' caller) = p_priv (proc_tab st caller) ->
  p_ntf_q (proc_tab st' caller) = p_ntf_q (proc_tab st caller) ->
  no_notification st caller src flags ln ->
  no_notification st' caller src flags ln.
Proof.
  intros Hpr Hnb Hp Hq [H|(H1 & H2 & H3)]; [now left|right].
  unfold pending_of, priv_of, priv_ptr, ntf_queue, accepts_ntf, n_next_of in *.
  rewrite Hpr, Hp, Hq, Hnb. repeat split; assumption.
Qed.

(** With nothing to receive, or with the caller still [SENDING],
    [mini_receive] goes to its last part. *)
Lemma mini_receive_nothing (st : kstate) (caller src m_ptr flags : Z)
    (lq ln : list Z) (fuel : nat) :
  is_sending st caller
  \/ (no_notification st caller src flags ln
      /\ caller_queue st caller lq
      /\ forall y, In y lq -> accepts st src y = false) ->
  (length lq < fuel)%nat ->
  (length ln < fuel)%nat ->
  mini_receive fuel caller src m_ptr flags st
  = receive_block fuel caller src m_ptr flags st.
Proof.
  intros H Hf1 Hf2.
  destruct (Z.eq_dec (Z.land (p_rts_flags (proc_tab st caller)) SENDING) 0) as [E|E].
  - destruct H as [H|(Hq & Hc & Hacc)]; [contradiction|].
    rewrite (mini_receive_quiet st caller src m_ptr flags ln fuel E Hq Hf2).
    unfold receive_caller_q.
    now rewrite (caller_q_scan_miss st src lq (CallerQ caller) fuel Hc Hacc Hf1).
  - unfold mini_receive. now rewrite (proj2 (Z.eqb_neq _ _) E).
Qed.

Lemma receive_block_spec (st : kstate) (caller src m_ptr flags : Z)
    (L : Z -> list Z) (fuel : nat) :
  rdy_queues st L ->
  (iskernelp st caller = true -> s_stack_guard (priv_of st caller) = STACK_GUARD) ->
  (length (L (p_priority (proc_tab st caller))) < fuel)%nat ->
  Z.land flags NON_BLOCKING = 0 ->
  let runnable := p_rts_flags (proc_tab st caller) =? 0 in
  exists st',
    receive_block fuel caller src m_ptr flags st = Done OK st'
    /\ p_rts_flags (proc_tab st' caller)
       = Z.lor (p_rts_flags (proc_tab st caller)) RECEIVING
    /\ p_getfrom (proc_tab st' caller) = src
    /\ p_messbuf (proc_tab st' caller) = m_ptr
    /\ rdy_queues st'
         (fun q => if runnable && (q =? p_priority (proc_tab st caller))
                   then remove Z.eq_dec caller (L q) else L q)
    /\ (forall x, x <> caller -> unlinked (proc_tab st' x) = unlinked (proc_tab st x))
    /\ unreceived (proc_tab st' caller) = unreceived (proc_tab st caller)
    /\ priv_tab st' = priv_tab st
    /\ umem st' = umem st
    /\ notify_buffer st' = notify_buffer st
    /\ notify_bitmap st' = notify_bitmap st
    /\ proc_ptr st' = proc_ptr st
    /\ (runnable = true ->
        p_priority (proc_tab st' caller) = p_max_priority (proc_tab st caller)).
Proof.
  intros HL Hguard HfL Hnb runnable.
  set (st_a := with_proc caller (set_p_messbuf m_ptr)
                 (with_proc caller (set_p_getfrom src) st)).
  assert (Ha : forall (A : Type) (f : proc -> A),
             (forall p w, f (set_p_messbuf w p) = f p) ->
             (forall p w, f (set_p_getfrom w p) = f p) ->
             forall x, f (proc_tab st_a x) = f (proc_tab st x)).
  { intros A f H1 H2 x. unfold st_a.
    rewrite !with_proc_field; [reflexivity| |]; intros p; [apply H2|apply H1]. }
  assert (HLa : rdy_queues st_a L).
  { unfold st_a. apply rdy_queues_with_proc; [reflexivity|].
    apply rdy_queues_with_proc; [reflexivity|exact HL]. }
  assert (Hunr : exists st_b,
             (if p_rts_flags (proc_tab st_a caller) =? 0
              then unready fuel caller else ret tt) st_a = Done tt st_b
             /\ same_but_sched caller st_a st_b
             /\ rdy_queues st_b
                  (fun q => if runnable && (q =? p_priority (proc_tab st caller))
                            then remove Z.eq_dec caller (L q) else L q)
             /\ (runnable = true ->
                 p_priority (proc_tab st_b caller) = p_max_priority (proc_tab st caller))).
  { rewrite (Ha _ p_rts_flags) by reflexivity. fold runnable. destruct runnable.
    - destruct (unready_spec st_a caller L fuel HLa) as (st_b & Hu & HLb & Hfr & Hp & _).
      + unfold iskernelp, proc_nr, priv_of, priv_ptr in *.
        change (priv_tab st_a) with (priv_tab st).
        rewrite (Ha _ p_nr), (Ha _ p_priv) by reflexivity. exact Hguard.
      + rewrite (Ha _ p_priority) by reflexivity. exact HfL.
      + exists st_b. rewrite (Ha _ p_priority) in HLb by reflexivity.
        rewrite (Ha _ p_max_priority) in Hp by reflexivity.
        split; [exact Hu|]. split; [exact Hfr|]. split; [exact HLb|].
        intros _. exact Hp.
    - exists st_a. split; [reflexivity|]. split; [apply same_but_sched_refl|].
      split; [exact HLa|discriminate]. }
  destruct Hunr as (st_b & Hrun & Hfr & HLb & Hpb).
  set (st_c := with_proc caller
                 (fun p => set_p_rts_flags (Z.lor (p_rts_flags p) RECEIVING) p) st_b).
  assert (Hrun_c : receive_block fuel caller src m_ptr flags st = Done OK st_c).
  { unfold receive_block. rewrite Hnb. cbn [Z.eqb]. cbv zeta. fold st_a.
    unfold bind. now rewrite Hrun. }
  assert (Hb : forall (A : Type) (f : proc -> A),
             (forall p, f (unscheduled p) = f p) ->
             (forall p, f (unlinked p) = f p) ->
             forall x, f (proc_tab st_b x) = f (proc_tab st_a x)).
  { intros A f H1 H2 x. now apply (unscheduled_any caller st_a st_b). }
  pose proof Hfr as (_ & _ & Hpr & Hpp & Hnbf & Hbm & Hum & _).
  exists st_c. split; [exact Hrun_c|].
  split.
  { unfold st_c. rewrite proc_tab_with_proc, Z.eqb_refl. cbn [p_rts_flags set_p_rts_flags].
    rewrite (Hb _ p_rts_flags) by reflexivity.
    now rewrite (Ha _ p_rts_flags) by reflexivity. }
  split.
  { unfold st_c. rewrite (with_proc_field _ p_getfrom) by reflexivity.
    rewrite (Hb _ p_getfrom) by reflexivity.
    unfold st_a. rewrite (with_proc_field _ p_getfrom) by reflexivity.
    rewrite proc_tab_with_proc, Z.eqb_refl. reflexivity. }
  split.
  { unfold st_c. rewrite (with_proc_field _ p_messbuf) by reflexivity.
    rewrite (Hb _ p_messbuf) by reflexivity.
    unfold st_a. rewrite proc_tab_with_proc, Z.eqb_refl. reflexivity. }
  split.
  { unfold st_c. apply rdy_queues_with_proc; [reflexivity|exact HLb]. }
  split.
  { intros x Hx. unfold st_c. rewrite proc_tab_with_proc.
    rewrite (proj2 (Z.eqb_neq _ _) Hx).
    rewrite (unscheduled_other caller st_a st_b _ unlinked Hfr) by (reflexivity || exact Hx).
    unfold st_a. rewrite !proc_tab_with_proc.
    now rewrite (proj2 (Z.eqb_neq _ _) Hx). }
  split.
  { unfold st_c. rewrite (with_proc_field _ unreceived) by reflexivity.
    rewrite (unscheduled_field caller st_a st_b _ unreceived Hfr) by reflexivity.
    now rewrite (Ha _ unreceived) by reflexivity. }
  split; [unfold st_c; cbn; now rewrite Hpr|].
  split; [unfold st_c; cbn; now rewrite Hum|].
  split; [unfold st_c; cbn; now rewrite Hnbf|].
  split; [unfold st_c; cbn; now rewrite Hbm|].
  split; [unfold st_c; cbn; now rewrite Hpp|].
  intros Hr. unfold st_c. rewrite (with_proc_field _ p_priority) by reflexivity.
  now apply Hpb.
Qed.

(** X11.  [mini_receive] takes the first acceptable sender off the
    caller queue: with the caller not [SENDING] and no notification to
    deliver, the message of the first queued sender whose process number
    is the requested source (any sender for [ANY]) is copied to the
    caller's buffer, stamped with the sender's number; the sender loses
    [SENDING], is made ready when no other flag is left, and is unlinked;
    the senders before and behind it stay queued in their order.  The call
    returns [OK] and the caller is not blocked. *)
Theorem mini_receive_dequeues (st : kstate) (caller src m_ptr flags x : Z)
    (L : Z -> list Z) (la lb ln : list Z) (fuel : nat) :
  Z.land (p_rts_flags (proc_tab st caller)) SENDING = 0 ->
  no_notification st caller src flags ln ->
  caller_queue st caller (la ++ x :: lb) ->
  (forall y, In y la -> accepts st src y = false) ->
  accepts st src x = true ->
  rdy_queues st L ->
  (Z.land (p_rts_flags (proc_tab st x)) (Z.lnot SENDING) = 0 ->
   forall q, ~ In x (L q)) ->
  (length la < fuel)%nat ->
  (length ln < fuel)%nat ->
  let woken := Z.land (p_rts_flags (proc_tab st x)) (Z.lnot SENDING) =? 0 in
  exists st',
    mini_receive fuel caller src m_ptr flags st = Done OK st'
    /\ umem st' caller m_ptr
       = cp_mess (p_nr (proc_tab st x)) (umem st x (p_messbuf (proc_tab st x)))
    /\ p_rts_flags (proc_tab st' x)
       = Z.land (p_rts_flags (proc_tab st x)) (Z.lnot SENDING)
    /\ caller_queue st' caller (la ++ lb)
    /\ rdy_queues st'
         (fun q => if woken && (q =? p_priority (proc_tab st x))
                   then ready_list st x (L q) else L q)
    /\ (forall y, y <> x -> unqueued (proc_tab st' y) = unqueued (proc_tab st y))
    /\ priv_tab st' = priv_tab st.
Proof.
  intros Hns Hq Hcq Hla Hx HL Hnot Hf1 Hf2 woken.
  destruct (receive_caller_q_dequeue st caller src m_ptr flags x L la lb fuel
              Hcq Hla Hx HL Hnot Hf1)
    as (st' & Hr & Hm & Hfl & Hcq' & HL' & Hfr & _ & Hpr & _).
  exists st'. split.
  { now rewrite (mini_receive_quiet st caller src m_ptr flags ln fuel Hns Hq Hf2). }
  repeat (split; [assumption|]). assumption.
Qed.

(** X12.  [mini_receive] blocks the caller when there is nothing to
    receive, and always when the caller is still [SENDING] (a [SENDREC]
    whose send is queued): pending notifications and queued senders are then
    left alone.  With [NON_BLOCKING] it returns [ENOTREADY] and the state
    as it was.  Otherwise it records the source in [p_getfrom] and the
    buffer in [p_messbuf], takes the caller off its ready queue when it was
    runnable, sets [RECEIVING] and returns [OK]; a caller that was runnable
    then waits for exactly the senders it asked for. *)
Theorem mini_receive_blocks (st : kstate) (caller src m_ptr flags : Z)
    (L : Z -> list Z) (lq ln : list Z) (fuel : nat) :
  is_sending st caller
  \/ (no_notification st caller src flags ln
      /\ caller_queue st caller lq
      /\ forall y, In y lq -> accepts st src y = false) ->
  rdy_queues st L ->
  (iskernelp st caller = true -> s_stack_guard (priv_of st caller) = STACK_GUARD) ->
  (length lq < fuel)%nat ->
  (length ln < fuel)%nat ->
  (length (L (p_priority (proc_tab st caller))) < fuel)%nat ->
  let runnable := p_rts_flags (proc_tab st caller) =? 0 in
  (Z.land flags NON_BLOCKING <> 0 ->
   mini_receive fuel caller src m_ptr flags st = Done ENOTREADY st)
  /\ (Z.land flags NON_BLOCKING = 0 ->
      exists st',
        mini_receive fuel caller src m_ptr flags st = Done OK st'
        /\ p_rts_flags (proc_tab st' caller)
           = Z.lor (p_rts_flags (proc_tab st caller)) RECEIVING
        /\ p_getfrom (proc_tab st' caller) = src
        /\ p_messbuf (proc_tab st' caller) = m_ptr
        /\ rdy_queues st'
             (fun q => if runnable && (q =? p_priority (proc_tab st caller))
                       then remove Z.eq_dec caller (L q) else L q)
        /\ (forall x, x <> caller -> unlinked (proc_tab st' x) = unlinked (proc_tab st x))
        /\ unreceived (proc_tab st' caller) = unreceived (proc_tab st caller)
        /\ priv_tab st' = priv_tab st
        /\ umem st' = umem st
        /\ (runnable = true ->
            forall s, awaits st' caller s
                      = (src =? ANY) || (src =? p_nr (proc_tab st' s)))).
Proof.
  intros Hnothing HL Hguard Hf1 Hf2 Hf3 runnable.
  rewrite (mini_receive_nothing st caller src m_ptr flags lq ln fuel Hnothing Hf1 Hf2).
  split.
  - intros Hnb. unfold receive_block. now rewrite (proj2 (Z.eqb_neq _ _) Hnb).
  - intros Hnb.
    destruct (receive_block_spec st caller src m_ptr flags L fuel HL Hguard Hf3 Hnb)
      as (st' & Hr & Hfl & Hgf & Hmb & HL' & Hfr & Hun & Hpr & Hum & _).
    exists st'. repeat (split; [assumption|]).
    intros Hrun s. unfold awaits. rewrite Hfl, Hgf.
    apply Z.eqb_eq in Hrun. rewrite Hrun. cbn [Z.lor].
    rewrite land_lor_absorb, Z.eqb_refl. reflexivity.
Qed.

End Receive.

(** *** A send that blocks, then the receive that takes it *)

Section RoundTrip.

Context {kp : KernelParams}.

Lemma proj_field (g : proc -> proc) (A : Type) (f : proc -> A) (p q : proc) :
  g p = g q -> (forall r, f (g r) = f r) -> f p = f q.
Proof.
  intros E H. rewrite <- (H p), <- (H q), E. reflexivity.
Qed.

(** X13.  A send that has to wait and the receive that takes it: process
    [a], runnable, sends to [b], which is not waiting for it; [a] is blocked
    and queued.  When [b] then receives from [a] or from [ANY], with no
    notification to deliver and no acceptable sender queued before [a], it
    gets the message [a] sent, stamped with the number of [a]; [a] is
    runnable again, back on a ready queue (that of its maximum priority),
    and the caller queue of [b] holds the senders it held before. *)
Theorem send_receive_round_trip (st : kstate) (a b m_a m_b flags_a flags_b src : Z)
    (L : Z -> list Z) (l ln : list Z) (fuel : nat) :
  acyclic st -> sendto_in_table st -> is_slot b ->
  ~ sending_path st (proc_addr b) a ->
  awaits st (proc_addr b) a = false ->
  Z.land flags_a NON_BLOCKING = 0 ->
  a <> proc_addr b ->
  rdy_queues st L ->
  queued_by_priority st L ->
  (iskernelp st a = true -> s_stack_guard (priv_of st a) = STACK_GUARD) ->
  caller_queue st (proc_addr b) l ->
  ~ In a l ->
  p_rts_flags (proc_tab st a) = 0 ->
  Z.land (p_rts_flags (proc_tab st (proc_addr b))) SENDING = 0 ->
  no_notification st (proc_addr b) src flags_b ln ->
  (forall y, In y l -> accepts st src y = false) ->
  accepts st src a = true ->
  (nr_slots <= fuel)%nat ->
  (length l < fuel)%nat ->
  (length ln < fuel)%nat ->
  (length (L (p_priority (proc_tab st a))) < fuel)%nat ->
  let qmax := p_max_priority (proc_tab st a) in
  exists st2,
    (mini_send fuel a b m_a flags_a ;;;
     mini_receive fuel (proc_addr b) src m_b flags_b) st = Done OK st2
    /\ umem st2 (proc_addr b) m_b = cp_mess (p_nr (proc_tab st a)) (umem st a m_a)
    /\ p_rts_flags (proc_tab st2 a) = 0
    /\ caller_queue st2 (proc_addr b) l
    /\ rdy_queues st2
         (fun q => if q =? qmax
                   then ready_list st a (remove Z.eq_dec a (L q))
                   else remove Z.eq_dec a (L q))
    /\ (forall y, y <> a -> unqueued (proc_tab st2 y) = unqueued (proc_tab st y)).
Proof.
  intros Hac Hin Hb Hnp Haw Hnb Hne HL Hprio Hguard Hcq Hnin Hrun Hbs Hquiet
    Hl Ha Hf0 Hf1 Hf2 Hf3 qmax.
  destruct (mini_send_enqueue st a b m_a flags_a L l fuel)
    as (st1 & Hs & Hq1 & Hfl1 & Hst1 & Hmb1 & HL1 & Hp1 & Huns & Hfr1 & _ & _
        & Hpr1 & Hum1 & Hnb1 & _); try assumption.
  { unfold proc_addr in *. now apply deadlock_loop_passes. }
  unfold proc_addr in *.
  rewrite Hrun in HL1, Hp1, Hfl1. cbn [Z.eqb andb Z.lor] in HL1, Hp1, Hfl1.
  specialize (Hp1 eq_refl).
  assert (Hnr : forall y, p_nr (proc_tab st1 y) = p_nr (proc_tab st y)).
  { intros y. destruct (Z.eq_dec y a) as [->|Hy].
    - now apply (proj_field unsent _ p_nr _ _ Huns).
    - now apply (proj_field unqueued _ p_nr _ _ (Hfr1 y Hy)). }
  assert (Hacc : forall y, accepts st1 src y = accepts st src y).
  { intros y. unfold accepts, proc_nr. now rewrite Hnr. }
  assert (Hremove : forall q,
             (if q =? p_priority (proc_tab st a)
              then remove Z.eq_dec a (L q) else L q) = remove Z.eq_dec a (L q)).
  { intros q. destruct (Z.eqb_spec q (p_priority (proc_tab st a))) as [->|Hq];
      [reflexivity|].
    symmetry. apply notin_remove. intros Hi. apply Hq. symmetry. now apply Hprio. }
  assert (HL1' : rdy_queues st1 (fun q => remove Z.eq_dec a (L q))).
  { refine (rdy_queues_ext st1 _ _ _ HL1). exact Hremove. }
  assert (Hwoken : Z.land (p_rts_flags (proc_tab st1 a)) (Z.lnot SENDING) = 0).
  { rewrite Hfl1. apply Z.land_lnot_diag. }
  destruct (receive_caller_q_dequeue st1 b src m_b flags_b a
              (fun q => remove Z.eq_dec a (L q)) l [] fuel)
    as (st2 & Hr & Hm2 & Hfl2 & Hq2 & HL2 & Hfr2 & _); try assumption.
  { intros y Hy. rewrite Hacc. now apply Hl. }
  { now rewrite Hacc. }
  { intros _ q. apply remove_In. }
  exists st2. split; [|split; [|split; [|split; [|split]]]].
  - unfold bind. rewrite Hs.
    rewrite (mini_receive_quiet st1 b src m_b flags_b ln fuel); [exact Hr| | |exact Hf2].
    + rewrite (proj_field unqueued _ p_rts_flags _ _ (Hfr1 b (not_eq_sym Hne)))
        by reflexivity.
      exact Hbs.
    + apply (no_notification_frame st st1); try assumption.
      * now apply (proj_field unqueued _ p_priv _ _ (Hfr1 b (not_eq_sym Hne))).
      * now apply (proj_field unqueued _ p_ntf_q _ _ (Hfr1 b (not_eq_sym Hne))).
  - rewrite Hm2, Hnr, Hmb1, Hum1. reflexivity.
  - now rewrite Hfl2.
  - now rewrite app_nil_r in Hq2.
  - refine (rdy_queues_ext st2 _ _ _ HL2).
    intros q. cbv beta. rewrite Hwoken, Hp1. cbn [Z.eqb andb]. fold qmax.
    destruct (q =? qmax); [|reflexivity].
    unfold ready_list, priv_of, priv_ptr.
    rewrite Hpr1, (proj_field unsent _ p_priv _ _ Huns) by reflexivity.
    reflexivity.
  - intros y Hy. rewrite (Hfr2 y Hy). now apply Hfr1.
Qed.

End RoundTrip.

Section ReceiveExamples.

#[local] Existing Instance Examples.minix.

Lemma none_pending_empty : none_pending [0; 0].
Proof.
  intros [|[|[|c]]]; reflexivity.
Qed.

Lemma st_2_sends_1_quiet (src flags : Z) :
  no_notification Examples.st_2_sends_1 1 src flags [].
Proof.
  right. split; [exact none_pending_empty|]. split; [reflexivity|].
  intros np [].
Qed.

Lemma mini_receive_dequeues_witness :
  exists st',
    mini_receive 1 1 31438 0 0 Examples.st_2_sends_1 = Done OK st'
    /\ p_rts_flags (proc_tab st' 2) = 0
    /\ caller_queue st' 1 [].
Proof.
  destruct (mini_receive_dequeues Examples.st_2_sends_1 1 31438 0 0 2
              Examples.queues_run1 [] [] [] 1)
    as (st' & Hr & _ & Hfl & Hq & _).
  - reflexivity.
  - apply st_2_sends_1_quiet.
  - unfold caller_queue, chain. simpl. split; reflexivity.
  - intros y [].
  - reflexivity.
  - exact st_2_sends_1_queues.
  - intros _. apply run1_not_queued. discriminate.
  - simpl. lia.
  - simpl. lia.
  - exists st'. split; [exact Hr|]. split; [exact Hfl|exact Hq].
Defined.

Lemma mini_receive_blocks_witness :
  exists st',
    mini_receive 2 1 31438 0 0 Examples.st_run1 = Done OK st'
    /\ p_rts_flags (proc_tab st' 1) = 8
    /\ p_getfrom (proc_tab st' 1) = 31438.
Proof.
  destruct (mini_receive_blocks Examples.st_run1 1 31438 0 0
              Examples.queues_run1 [] [] 2) as [_ H].
  - right. split; [|split].
    + right. split; [exact none_pending_empty|]. split; [reflexivity|intros np []].
    + reflexivity.
    + intros y [].
  - exact st_run1_queues.
  - intros H. discriminate H.
  - simpl. lia.
  - simpl. lia.
  - simpl. lia.
  - destruct H as (st' & Hr & Hfl & Hgf & _); [reflexivity|].
    exists st'. split; [exact Hr|]. split; [exact Hfl|exact Hgf].
Defined.

Lemma send_receive_round_trip_witness :
  exists st2,
    (mini_send 68 3 1 7 0 ;;; mini_receive 68 (proc_addr 1) 3 9 0)
      Examples.st_2_sends_1 = Done OK st2
    /\ umem st2 (proc_addr 1) 9 = cp_mess 3 Examples.mess0
    /\ caller_queue st2 (proc_addr 1) [2].
Proof.
  destruct (send_receive_round_trip Examples.st_2_sends_1 3 1 7 9 0 0 3
              Examples.queues_run1 [2] [] 68)
    as (st2 & Hr & Hm & _ & Hq & _).
  - exact st_2_sends_1_acyclic.
  - exact st_2_sends_1_in_table.
  - unfold is_slot. simpl. lia.
  - intros Hp. apply st_2_sends_1_path in Hp. destruct Hp as [Hp _]. discriminate Hp.
  - reflexivity.
  - reflexivity.
  - discriminate.
  - exact st_2_sends_1_queues.
  - intros q x. unfold Examples.queues_run1.
    destruct (Z.eqb_spec q 7) as [->|]; simpl; [|tauto].
    intros [<-|[]]. reflexivity.
  - intros H. discriminate H.
  - unfold caller_queue, chain. simpl. split; reflexivity.
  - simpl. intuition discriminate.
  - reflexivity.
  - reflexivity.
  - apply st_2_sends_1_quiet.
  - intros y [<-|[]]. reflexivity.
  - reflexivity.
  - apply Nat.eq_le_incl. reflexivity.
  - simpl. lia.
  - simpl. lia.
  - simpl. lia.
  - exists st2. split; [exact Hr|]. split; [exact Hm|exact Hq].
Defined.

End ReceiveExamples.

(** *** Pending notifications in [mini_receive] *)

Section PendingFirst.

Context {kp : KernelParams}.


(** What [mini_receive] computes when the lowest pending bit is bit [id]
    and its source is acceptable. *)
Lemma mini_receive_pending_run (st : kstate) (caller src m_ptr flags id : Z)
    (fuel : nat) :
  Z.land (p_rts_flags (proc_tab st caller)) SENDING = 0 ->
  Z.land flags FRESH_ANSWER = 0 ->
  sys_map_ok (pending_of st caller) ->
  0 <= id < NR_SYS_PROCS ->
  get_sys_bit (pending_of st caller) id = true ->
  (forall b, 0 <= b < id -> get_sys_bit (pending_of st caller) b = false) ->
  src = ANY \/ src = id_to_nr st id ->
  (Z.to_nat BITCHUNK_BITS <= fuel)%nat ->
  let st1 := with_priv (priv_ptr st caller)
               (fun sp => set_s_notify_pending
                            (unset_sys_bit (s_notify_pending sp) id) sp) st in
  let built := BuildMess uninit_mess (id_to_nr st id) caller st1 in
  mini_receive fuel caller src m_ptr flags st
  = Done OK (CopyMess (id_to_nr st id) (fst built) caller m_ptr (snd built)).
Proof.
  intros Hns Hfa Hok Hid Hset Hclear Hsrc Hfuel st1 built.
  unfold mini_receive. rewrite Hns, Hfa. cbn [Z.eqb].
  fold (pending_of st caller).
  rewrite (notify_scan_first st _ src id fuel) by assumption.
  cbv zeta.
  change (with_priv (priv_ptr st caller)
            (fun sp => set_s_notify_pending
                         (upd_nth (Z.to_nat (id / BITCHUNK_BITS))
                            (Z.land (nth (Z.to_nat (id / BITCHUNK_BITS))
                                       (s_notify_pending sp) 0)
                                    (Z.lnot (Z.shiftl 1 (id mod BITCHUNK_BITS))))
                            (s_notify_pending sp)) sp) st)
    with st1.
  fold built. destruct built as [m st2]. reflexivity.
Qed.


(** X15.  The argument of a notification is filled in when the
    notification is picked up, not when it was sent.  For the source
    [HARDWARE] the receiver gets its pending interrupt bits and they are
    reset; for [SYSTEM] the same with the pending signal bits; for any
    other source [BuildMess] stores no argument, the field of the local
    message is left as it was, and both sets of bits are kept. *)
Theorem mini_receive_hands_over_pending (st : kstate) (caller src m_ptr flags id : Z)
    (fuel : nat) :
  Z.land (p_rts_flags (proc_tab st caller)) SENDING = 0 ->
  Z.land flags FRESH_ANSWER = 0 ->
  sys_map_ok (pending_of st caller) ->
  0 <= id < NR_SYS_PROCS ->
  get_sys_bit (pending_of st caller) id = true ->
  (forall b, 0 <= b < id -> get_sys_bit (pending_of st caller) b = false) ->
  src = ANY \/ src = id_to_nr st id ->
  (Z.to_nat BITCHUNK_BITS <= fuel)%nat ->
  HARDWARE <> SYSTEM ->
  let s := id_to_nr st id in
  exists st' m,
    mini_receive fuel caller src m_ptr flags st = Done OK st'
    /\ umem st' caller m_ptr = cp_mess s m
    /\ (s = HARDWARE ->
        NOTIFY_ARG m = s_int_pending (priv_of st caller)
        /\ s_int_pending (priv_of st' caller) = 0
        /\ s_sig_pending (priv_of st' caller) = s_sig_pending (priv_of st caller))
    /\ (s = SYSTEM ->
        NOTIFY_ARG m = s_sig_pending (priv_of st caller)
        /\ s_sig_pending (priv_of st' caller) = 0
        /\ s_int_pending (priv_of st' caller) = s_int_pending (priv_of st caller))
    /\ (s <> HARDWARE -> s <> SYSTEM ->
        NOTIFY_ARG m = NOTIFY_ARG uninit_mess
        /\ s_int_pending (priv_of st' caller) = s_int_pending (priv_of st caller)
        /\ s_sig_pending (priv_of st' caller) = s_sig_pending (priv_of st caller)).
Proof.
  intros Hns Hfa Hok Hid Hset Hclear Hsrc Hfuel Hhs s.
  pose proof (mini_receive_pending_run st caller src m_ptr flags id fuel
                Hns Hfa Hok Hid Hset Hclear Hsrc Hfuel) as Hrun.
  cbv zeta in Hrun. fold s in Hrun.
  eexists. eexists. split; [exact Hrun|]. split.
  { cbn. unfold upd. now rewrite !Z.eqb_refl. }
  unfold BuildMess.
  destruct (Z.eqb_spec s HARDWARE) as [Eh|Eh];
    [|destruct (Z.eqb_spec s SYSTEM) as [Es|Es]].
  - split; [intros _|split; [intros E; congruence|intros E; contradiction]].
    unfold priv_of, priv_ptr. cbn. unfold upd. rewrite !Z.eqb_refl. cbn.
    repeat split.
  - split; [intros E; contradiction|split; [intros _|intros _ E; contradiction]].
    unfold priv_of, priv_ptr. cbn. unfold upd. rewrite !Z.eqb_refl. cbn.
    repeat split.
  - split; [intros E; contradiction|split; [intros E; contradiction|intros _ _]].
    unfold priv_of, priv_ptr. cbn. unfold upd. rewrite !Z.eqb_refl. cbn.
    repeat split.
Qed.

End PendingFirst.

Section PendingFirstExamples.

#[local] Existing Instance Examples.minix.

Lemma two_chunks_ok (a b : Z) :
  0 <= a < 65536 -> 0 <= b < 65536 -> sys_map_ok [a; b].
Proof.
  intros Ha Hb. unfold sys_map_ok. cbn. split; [lia|]. split; [lia|].
  split; [reflexivity|]. intros chunk [<-|[<-|[]]]; lia.
Qed.


Lemma mini_receive_hands_over_pending_witness :
  exists st' m,
    mini_receive 16 1 ANY 0 0 MoreExamples.st_hw_pending = Done OK st'
    /\ umem st' 1 0 = cp_mess HARDWARE m
    /\ NOTIFY_ARG m = 5
    /\ s_int_pending (priv_of st' 1) = 0.
Proof.
  destruct (mini_receive_hands_over_pending MoreExamples.st_hw_pending 1 ANY 0 0 3 16)
    as (st' & m & Hr & Hm & Hhw & _).
  - reflexivity.
  - reflexivity.
  - apply two_chunks_ok; lia.
  - cbn. lia.
  - reflexivity.
  - intros b Hb. assert (b = 0 \/ b = 1 \/ b = 2) as [->|[->| ->]] by lia; reflexivity.
  - now left.
  - cbn. lia.
  - discriminate.
  - destruct (Hhw eq_refl) as (Ha & Hi & _).
    exists st', m. repeat split; assumption.
Defined.

End PendingFirstExamples.

(** *** The notification queue in [mini_receive] *)

Section ReceiveNtfQ.

Context {kp : KernelParams}.

Lemma notify_buffer_with_ntf (np : Z) (f : notification -> notification)
    (st : kstate) (x : Z) :
  notify_buffer (with_ntf np f st) x
  = if x =? np then f (notify_buffer st np) else notify_buffer st x.
Proof. reflexivity. Qed.

Lemma ntf_q_last_snoc (pp : ntf_pp) (l : list Z) (a : Z) :
  ntf_q_last pp (l ++ [a]) = NNext a.
Proof.
  unfold ntf_q_last. destruct (l ++ [a]) eqn:E; [now destruct l|].
  now rewrite <- E, last_last.
Qed.

Lemma ntf_q_scan_hit (st : kstate) (src np : Z) (lb : list Z) (la : list Z) :
  forall l0 rp fuel,
    lseg (n_next_of st) (load_ntf st (ntf_q_last (NtfQ rp) l0)) (la ++ np :: lb) None ->
    (forall y, In y la -> accepts_ntf st src y = false) ->
    accepts_ntf st src np = true ->
    (length la < fuel)%nat ->
    ntf_q_scan fuel (ntf_q_last (NtfQ rp) l0) src st
    = Some (Some (ntf_q_last (NtfQ rp) (l0 ++ la), np)).
Proof.
  induction la as [|a la IH]; intros l0 rp fuel Hseg Hla Hx Hfuel;
    (destruct fuel as [|fuel]; [simpl in Hfuel; lia|]); simpl in Hseg.
  - destruct Hseg as [Hload _]. cbn [ntf_q_scan]. rewrite Hload.
    unfold accepts_ntf in Hx. rewrite Hx. now rewrite app_nil_r.
  - destruct Hseg as [Hload Hseg]. cbn [ntf_q_scan]. rewrite Hload.
    pose proof (Hla a (or_introl eq_refl)) as Ha. unfold accepts_ntf in Ha. rewrite Ha.
    rewrite <- (ntf_q_last_snoc (NtfQ rp) l0 a).
    rewrite (IH (l0 ++ [a]) rp fuel).
    + now rewrite <- app_assoc.
    + rewrite ntf_q_last_snoc. exact Hseg.
    + intros y Hy. apply Hla. now right.
    + exact Hx.
    + simpl in Hfuel. lia.
Qed.

(** Storing the successor of a record through the link that leads to it
    takes the record out of the queue. *)
Lemma ntf_queue_remove (st : kstate) (rp x : Z) (la lb : list Z) :
  ntf_queue st rp (la ++ x :: lb) ->
  ntf_queue (store_ntf (ntf_q_last (NtfQ rp) la) (n_next_of st x) st) rp (la ++ lb).
Proof.
  intros Hch. pose proof (chain_NoDup _ _ _ Hch) as Hnd.
  unfold ntf_queue, chain in *.
  apply lseg_app in Hch. destruct Hch as (mid & Hs1 & Hs2).
  simpl in Hs2. destruct Hs2 as [-> Hs2].
  destruct (list_eq_dec Z.eq_dec la []) as [->|Hnil].
  - simpl in Hs1. cbn [app ntf_q_last store_ntf].
    rewrite proc_tab_with_proc, Z.eqb_refl. cbn [p_ntf_q set_p_ntf_q].
    exact Hs2.
  - destruct (list_snoc_last la Hnil) as [l0 El0].
    remember (last la 0) as t eqn:Et. subst la. clear Et.
    rewrite ntf_q_last_snoc. cbn [store_ntf].
    change (proc_tab (with_ntf t (set_n_next (n_next_of st x)) st)) with (proc_tab st).
    apply lseg_app in Hs1. destruct Hs1 as (mid & Hs1 & Hs3).
    simpl in Hs3. destruct Hs3 as [-> Hs3].
    rewrite <- !app_assoc in Hnd. simpl in Hnd.
    pose proof (NoDup_remove_2 _ _ _ Hnd) as Ht.
    rewrite <- app_assoc. apply lseg_app. exists (Some t). split.
    + apply (lseg_frame (n_next_of st)); [|exact Hs1].
      intros y Hy. unfold n_next_of. rewrite notify_buffer_with_ntf.
      destruct (Z.eqb_spec y t) as [E|]; [|reflexivity].
      exfalso. apply Ht. apply in_or_app. left. now rewrite <- E.
    + simpl. split; [reflexivity|].
      replace (n_next_of (with_ntf t (set_n_next (n_next_of st x)) st) t)
        with (n_next_of st x)
        by (unfold n_next_of; rewrite notify_buffer_with_ntf, Z.eqb_refl; reflexivity).
      apply (lseg_frame (n_next_of st)); [|exact Hs2].
      intros y Hy. unfold n_next_of. rewrite notify_buffer_with_ntf.
      destruct (Z.eqb_spec y t) as [E|]; [|reflexivity].
      exfalso. apply Ht. apply in_or_app. right. right. now rewrite <- E.
Qed.




(** The notification queue part of [mini_receive] when a record from an
    acceptable source is queued. *)
Lemma receive_ntf_q_pickup (st : kstate) (caller src m_ptr flags np : Z)
    (la lb : list Z) (fuel : nat) :
  ntf_queue st caller (la ++ np :: lb) ->
  (forall y, In y la -> accepts_ntf st src y = false) ->
  accepts_ntf st src np = true ->
  (length la < fuel)%nat ->
  let n := notify_buffer st np in
  let hw := n_source n =? HARDWARE in
  exists st' m,
    receive_ntf_q fuel caller src m_ptr flags st = Done OK st'
    /\ umem st' caller m_ptr = cp_mess (n_source n) m
    /\ m_source m = n_source n
    /\ m_type m = n_type n
    /\ NOTIFY_FLAGS m = n_flags n
    /\ NOTIFY_ARG m = (if hw then s_int_pending (priv_of st caller) else n_arg n)
    /\ ntf_queue st' caller (la ++ lb)
    /\ notify_bitmap st' = free_bit np (notify_bitmap st) NR_NOTIFY_BUFS
    /\ (forall x, set_p_ntf_q None (proc_tab st' x) = set_p_ntf_q None (proc_tab st x))
    /\ (forall x, set_n_next None (notify_buffer st' x)
                  = set_n_next None (notify_buffer st x))
    /\ s_int_pending (priv_of st' caller)
       = (if hw then 0 else s_int_pending (priv_of st caller))
    /\ rdy_head st' = rdy_head st
    /\ rdy_tail st' = rdy_tail st
    /\ next_ptr st' = next_ptr st.
Proof.
  intros Hq Hla Hnp Hfuel n hw.
  pose proof (ntf_queue_remove st caller np la lb Hq) as Hrem.
  unfold receive_ntf_q.
  change (NtfQ caller) with (ntf_q_last (NtfQ caller) []).
  rewrite (ntf_q_scan_hit st src np lb la [] caller fuel); try assumption.
  cbn [app]. cbv zeta. fold n.
  change (m_source (BuildOldMess uninit_mess n)) with (n_source n). fold hw.
  set (pos := ntf_q_last (NtfQ caller) la) in *.
  assert (Hpos : forall s v,
             (forall x, set_p_ntf_q None (proc_tab (store_ntf pos v s) x)
                        = set_p_ntf_q None (proc_tab s x))
             /\ (forall x, set_n_next None (notify_buffer (store_ntf pos v s) x)
                           = set_n_next None (notify_buffer s x))
             /\ priv_tab (store_ntf pos v s) = priv_tab s
             /\ umem (store_ntf pos v s) = umem s
             /\ rdy_head (store_ntf pos v s) = rdy_head s
             /\ rdy_tail (store_ntf pos v s) = rdy_tail s
             /\ next_ptr (store_ntf pos v s) = next_ptr s
             /\ notify_bitmap (store_ntf pos v s) = notify_bitmap s
             /\ (forall x, p_priv (proc_tab (store_ntf pos v s) x) = p_priv (proc_tab s x))).
  { intros s v. destruct pos as [rp|t]; cbn [store_ntf]; repeat split; try intros x;
      rewrite ?proc_tab_with_proc, ?notify_buffer_with_ntf; try reflexivity;
      match goal with
      | |- context [?a =? ?b] => destruct (Z.eqb_spec a b) as [->|]
      end; reflexivity. }
  destruct hw eqn:Ehw.
  - set (m := set_NOTIFY_ARG (s_int_pending (priv_of st caller))
                (BuildOldMess uninit_mess n)).
    set (st1 := CopyMess (n_source n) m caller m_ptr
                  (with_priv (priv_ptr st caller) (set_s_int_pending 0) st)).
    destruct (Hpos st1 (n_next (notify_buffer st1 np)))
      as (H1 & H2 & H3 & H4 & H5 & H6 & H7 & H8 & H9).
    assert (Hrem1 : ntf_queue (store_ntf pos (n_next (notify_buffer st1 np)) st1)
                      caller (la ++ lb)).
    { unfold ntf_queue, chain, n_next_of in *. destruct pos; exact Hrem. }
    exists (set_notify_bitmap
              (free_bit np
                 (notify_bitmap (store_ntf pos (n_next (notify_buffer st1 np)) st1))
                 NR_NOTIFY_BUFS)
              (store_ntf pos (n_next (notify_buffer st1 np)) st1)), m.
    split; [reflexivity|].
    split.
    { cbn [umem set_notify_bitmap]. rewrite H4. unfold st1. cbn. unfold upd.
      now rewrite !Z.eqb_refl. }
    repeat (split; [reflexivity|]).
    split; [exact Hrem1|].
    split; [cbn [notify_bitmap set_notify_bitmap]; now rewrite H8|].
    split; [intros x; cbn [proc_tab set_notify_bitmap]; now rewrite H1|].
    split; [intros x; cbn [notify_buffer set_notify_bitmap]; now rewrite H2|].
    split.
    { unfold priv_of, priv_ptr. cbn [priv_tab proc_tab set_notify_bitmap].
      rewrite H3, H9. unfold st1. cbn. unfold upd. now rewrite Z.eqb_refl. }
    cbn [rdy_head rdy_tail next_ptr set_notify_bitmap].
    rewrite H5, H6, H7. repeat split.
  - set (m := BuildOldMess uninit_mess n).
    set (st1 := CopyMess (n_source n) m caller m_ptr st).
    destruct (Hpos st1 (n_next (notify_buffer st1 np)))
      as (H1 & H2 & H3 & H4 & H5 & H6 & H7 & H8 & H9).
    assert (Hrem1 : ntf_queue (store_ntf pos (n_next (notify_buffer st1 np)) st1)
                      caller (la ++ lb)).
    { unfold ntf_queue, chain, n_next_of in *. destruct pos; exact Hrem. }
    exists (set_notify_bitmap
              (free_bit np
                 (notify_bitmap (store_ntf pos (n_next (notify_buffer st1 np)) st1))
                 NR_NOTIFY_BUFS)
              (store_ntf pos (n_next (notify_buffer st1 np)) st1)), m.
    split; [reflexivity|].
    split.
    { cbn [umem set_notify_bitmap]. rewrite H4. unfold st1. cbn. unfold upd.
      now rewrite !Z.eqb_refl. }
    repeat (split; [reflexivity|]).
    split; [exact Hrem1|].
    split; [cbn [notify_bitmap set_notify_bitmap]; now rewrite H8|].
    split; [intros x; cbn [proc_tab set_notify_bitmap]; now rewrite H1|].
    split; [intros x; cbn [notify_buffer set_notify_bitmap]; now rewrite H2|].
    split.
    { unfold priv_of, priv_ptr. cbn [priv_tab proc_tab set_notify_bitmap].
      rewrite H3, H9. reflexivity. }
    cbn [rdy_head rdy_tail next_ptr set_notify_bitmap].
    rewrite H5, H6, H7. repeat split.
Qed.

End ReceiveNtfQ.

Section NotifyReceive.

Context {kp : KernelParams}.

Lemma mini_receive_no_bits (st : kstate) (caller src m_ptr flags : Z) (fuel : nat) :
  Z.land (p_rts_flags (proc_tab st caller)) SENDING = 0 ->
  Z.land flags FRESH_ANSWER = 0 ->
  none_pending (pending_of st caller) ->
  mini_receive fuel caller src m_ptr flags st
  = receive_ntf_q fuel caller src m_ptr flags st.
Proof.
  intros Hns Hfa Hnone. unfold mini_receive. rewrite Hns, Hfa. cbn [Z.eqb].
  unfold pending_of in Hnone. now rewrite (notify_scan_none st _ src fuel Hnone).
Qed.

(** X16.  With no bit pending, [mini_receive] takes the first queued
    notification record whose source is acceptable: the message carries
    the record's source, type and flags, and its argument (for the source
    [HARDWARE] the receiver's pending interrupt bits instead, which are
    reset); the record is unlinked, the records before and behind it stay
    queued in their order, and its buffer is given back to the pool.
    Queued senders are not looked at: no slot changes but in the head of
    the caller's notification queue. *)
Theorem mini_receive_takes_notification (st : kstate) (caller src m_ptr flags np : Z)
    (la lb : list Z) (fuel : nat) :
  Z.land (p_rts_flags (proc_tab st caller)) SENDING = 0 ->
  Z.land flags FRESH_ANSWER = 0 ->
  none_pending (pending_of st caller) ->
  ntf_queue st caller (la ++ np :: lb) ->
  (forall y, In y la -> accepts_ntf st src y = false) ->
  accepts_ntf st src np = true ->
  (length la < fuel)%nat ->
  let n := notify_buffer st np in
  let hw := n_source n =? HARDWARE in
  exists st' m,
    mini_receive fuel caller src m_ptr flags st = Done OK st'
    /\ umem st' caller m_ptr = cp_mess (n_source n) m
    /\ m_source m = n_source n
    /\ m_type m = n_type n
    /\ NOTIFY_FLAGS m = n_flags n
    /\ NOTIFY_ARG m = (if hw then s_int_pending (priv_of st caller) else n_arg n)
    /\ ntf_queue st' caller (la ++ lb)
    /\ notify_bitmap st' = free_bit np (notify_bitmap st) NR_NOTIFY_BUFS
    /\ (forall x, set_p_ntf_q None (proc_tab st' x) = set_p_ntf_q None (proc_tab st x))
    /\ s_int_pending (priv_of st' caller)
       = (if hw then 0 else s_int_pending (priv_of st caller)).
Proof.
  intros Hns Hfa Hnone Hq Hla Hnp Hfuel n hw.
  destruct (receive_ntf_q_pickup st caller src m_ptr flags np la lb fuel Hq Hla Hnp Hfuel)
    as (st' & m & Hr & H1 & H2 & H3 & H4 & H5 & H6 & H7 & H8 & _ & H9 & _).
  exists st', m. split.
  { now rewrite (mini_receive_no_bits st caller src m_ptr flags fuel Hns Hfa Hnone). }
  repeat (split; [assumption|]). assumption.
Qed.


End NotifyReceive.

Section NotifyReceiveExamples.

#[local] Existing Instance Examples.minix.

Lemma mini_receive_takes_notification_witness :
  exists st' m,
    mini_receive 1 1 ANY 0 0 MoreExamples.st_ntf_queued = Done OK st'
    /\ m_source m = 2
    /\ NOTIFY_ARG m = 9
    /\ ntf_queue st' 1 [].
Proof.
  destruct (mini_receive_takes_notification MoreExamples.st_ntf_queued 1 ANY 0 0 0
              [] [] 1)
    as (st' & m & Hr & _ & Hs & _ & _ & Ha & Hq & _).
  - reflexivity.
  - reflexivity.
  - exact none_pending_empty.
  - unfold ntf_queue, chain. simpl. split; reflexivity.
  - intros y [].
  - reflexivity.
  - simpl. lia.
  - exists st', m. split; [exact Hr|]. split; [exact Hs|]. split; [exact Ha|exact Hq].
Defined.


End NotifyReceiveExamples.

(** *** Traps that pass the checks of [sys_call] *)

Section SysCallDispatch.

Context {kp : KernelParams}.

(** A trap that passes every check goes to the [switch] and prints
    nothing. *)
Lemma sys_call_passes (fuel : nat) (call_nr src_dst m_ptr : Z) (st : kstate) :
  let function := Z.land call_nr SYSCALL_FUNC in
  may_call st function src_dst ->
  endpoint_ok function src_dst ->
  buffer_ok st function m_ptr ->
  may_send st function src_dst ->
  dst_alive st function src_dst ->
  sys_call fuel call_nr src_dst m_ptr st
  = (sys_call_switch fuel call_nr src_dst m_ptr st, []).
Proof.
  intros function Hc He Hb Hs Ha. unfold sys_call, sys_call_check. fold function.
  apply may_call_iff in Hc. apply endpoint_ok_iff in He. apply buffer_ok_iff in Hb.
  rewrite Hc, He, Hb. unfold may_send, dst_alive in *.
  destruct (Z.eqb_spec (Z.land function SEND) 0) as [E|E]; cbn [negb]; [reflexivity|].
  destruct (Hs E) as [Hin Hbit].
  now rewrite Hin, Hbit, (Ha E).
Qed.

(** The message [mini_send] delivers at once, and what else it does
    then. *)
Lemma mini_send_deliver (st : kstate) (caller dst m_ptr flags : Z) (L : Z -> list Z) :
  Z.land RECEIVING SENDING = 0 ->
  awaits st (proc_addr dst) caller = true ->
  rdy_queues st L ->
  let flags' := Z.land (p_rts_flags (proc_tab st (proc_addr dst))) (Z.lnot RECEIVING) in
  let woken := flags' =? 0 in
  (flags' = 0 -> forall q, ~ In (proc_addr dst) (L q)) ->
  exists st',
    (forall fuel, (1 <= fuel)%nat ->
       mini_send fuel caller dst m_ptr flags st = Done OK st')
    /\ umem st' (proc_addr dst) (p_messbuf (proc_tab st (proc_addr dst)))
       = cp_mess (p_nr (proc_tab st caller)) (umem st caller m_ptr)
    /\ p_rts_flags (proc_tab st' (proc_addr dst)) = flags'
    /\ rdy_queues st'
         (fun q => if woken && (q =? p_priority (proc_tab st (proc_addr dst)))
                   then ready_list st (proc_addr dst) (L q) else L q)
    /\ (forall x, x <> proc_addr dst -> unlinked (proc_tab st' x) = unlinked (proc_tab st x))
    /\ unlinked (set_p_rts_flags 0 (proc_tab st' (proc_addr dst)))
       = unlinked (set_p_rts_flags 0 (proc_tab st (proc_addr dst)))
    /\ priv_tab st' = priv_tab st
    /\ proc_ptr st' = proc_ptr st
    /\ notify_buffer st' = notify_buffer st
    /\ notify_bitmap st' = notify_bitmap st
    /\ (forall p a, p <> proc_addr dst \/ a <> p_messbuf (proc_tab st (proc_addr dst)) ->
          umem st' p a = umem st p a).
Proof.
  intros Hdisj Haw HL flags' woken Hnot. unfold proc_addr in *.
  pose proof (awaits_not_sending _ _ _ Hdisj Haw) as Hns.
  set (st1 := delivered st (p_nr (proc_tab st caller)) (umem st caller m_ptr) dst).
  assert (H1 : forall (A : Type) (f : proc -> A),
             (forall p w, f (set_p_rts_flags w p) = f p) ->
             forall x, f (proc_tab st1 x) = f (proc_tab st x)).
  { intros A f Hf x. unfold st1, delivered.
    rewrite with_proc_field by (intros p; apply Hf). reflexivity. }
  assert (Hf1 : p_rts_flags (proc_tab st1 dst) = flags').
  { unfold st1, delivered. rewrite proc_tab_with_proc, Z.eqb_refl. reflexivity. }
  assert (Hsend : forall fuel, (1 <= fuel)%nat ->
            mini_send fuel caller dst m_ptr flags st =
            ((if woken then ready dst else ret tt) ;;; ret OK) st1).
  { intros [|fuel] Hfuel; [lia|]. unfold mini_send, proc_addr. cbn [deadlock_loop].
    rewrite Hns. cbn [Z.eqb]. rewrite Haw. cbv zeta.
    change (with_proc dst
              (fun p => set_p_rts_flags (Z.land (p_rts_flags p) (Z.lnot RECEIVING)) p)
              (CopyMess (p_nr (proc_tab st caller)) (umem st caller m_ptr) dst
                 (p_messbuf (proc_tab st dst)) st))
      with st1.
    rewrite Hf1. reflexivity. }
  assert (HL1 : rdy_queues st1 L).
  { unfold st1, delivered. apply rdy_queues_with_proc; [reflexivity|].
    destruct HL as [Hq Hd]. split; [|exact Hd].
    intros q. apply (rdy_queue_frame st); [apply Hq|reflexivity|reflexivity|].
    intros y _. reflexivity. }
  assert (Hrdy : exists st2,
             (if woken then ready dst else ret tt) st1 = Done tt st2
             /\ same_but_queues st1 st2
             /\ rdy_queues st2
                  (fun q => if woken && (q =? p_priority (proc_tab st dst))
                            then ready_list st dst (L q) else L q)).
  { destruct woken eqn:Ew.
    - apply Z.eqb_eq in Ew.
      destruct (ready_spec st1 dst L HL1 (Hnot Ew)) as (st2 & Hr & HL2 & Hfr).
      exists st2. split; [exact Hr|]. split; [exact Hfr|].
      refine (rdy_queues_ext st2 _ _ _ HL2).
      intros q. cbv beta. rewrite (H1 _ p_priority) by reflexivity.
      cbn [andb]. destruct (q =? p_priority (proc_tab st dst)); [|reflexivity].
      unfold ready_list, priv_of, priv_ptr. rewrite (H1 _ p_priv) by reflexivity.
      reflexivity.
    - exists st1. split; [reflexivity|]. split; [apply same_but_queues_refl|exact HL1]. }
  destruct Hrdy as (st2 & Hrun & Hfr & HL2).
  pose proof Hfr as (Hp & Hpr & Hpp & Hnb & Hbm & Hum & _).
  exists st2. split.
  { intros fuel Hfuel. rewrite (Hsend fuel Hfuel). unfold bind. now rewrite Hrun. }
  split.
  { rewrite Hum. unfold st1, delivered. cbn. unfold upd. now rewrite !Z.eqb_refl. }
  split.
  { now rewrite (unlinked_field st1 st2 _ p_rts_flags Hfr) by reflexivity. }
  split; [exact HL2|].
  split.
  { intros x Hx. rewrite Hp. unfold st1, delivered. rewrite proc_tab_with_proc.
    now rewrite (proj2 (Z.eqb_neq _ _) Hx). }
  split.
  { rewrite (unlinked_field st1 st2 _ (fun p => unlinked (set_p_rts_flags 0 p)) Hfr)
      by reflexivity.
    now rewrite (H1 _ (fun p => unlinked (set_p_rts_flags 0 p))) by reflexivity. }
  split; [now rewrite Hpr|]. split; [now rewrite Hpp|].
  split; [now rewrite Hnb|]. split; [now rewrite Hbm|].
  intros p a Hpa. rewrite Hum. unfold st1, delivered. cbn. unfold upd.
  destruct (Z.eqb_spec p dst) as [->|]; [|reflexivity].
  destruct (Z.eqb_spec a (p_messbuf (proc_tab st dst))) as [->|]; [|reflexivity].
  destruct Hpa; contradiction.
Qed.

(** X18.  A [SENDREC] whose send would close a cycle of senders is
    refused as a whole: [sys_call] returns [ELOCKED], the receive half is
    not attempted, nothing is printed and the state is as it was; the
    caller is neither queued nor blocked receiving. *)
Theorem sys_call_sendrec_deadlock (call_nr src_dst m_ptr : Z) (st : kstate) :
  let function := Z.land call_nr SYSCALL_FUNC in
  function = SENDREC ->
  may_call st function src_dst ->
  endpoint_ok function src_dst ->
  buffer_ok st function m_ptr ->
  may_send st function src_dst ->
  dst_alive st function src_dst ->
  ELOCKED <> OK ->
  sending_path st (proc_addr src_dst) (proc_ptr st) ->
  exists n, forall fuel, (n <= fuel)%nat ->
    sys_call fuel call_nr src_dst m_ptr st = (Done ELOCKED st, []).
Proof.
  intros function Hf Hc He Hb Hs Ha Hne Hpath.
  destruct (deadlock_loop_path _ _ _ Hpath) as [n Hn].
  exists n. intros fuel Hfuel.
  rewrite (sys_call_passes fuel call_nr src_dst m_ptr st Hc He Hb Hs Ha).
  f_equal. unfold sys_call_switch. fold function. rewrite Hf, Z.eqb_refl. cbn [orb].
  unfold bind, mini_send.
  rewrite (deadlock_loop_mono _ _ _ _ _ _ Hn Hfuel).
  rewrite (proj2 (Z.eqb_neq _ _) Hne). cbn [negb].
  rewrite orb_true_r. reflexivity.
Qed.

(** X19.  A [SENDREC] to a server that waits for the caller: the request
    is delivered at once and the server loses [RECEIVING]; then, in the
    same trap, the caller is blocked receiving from that server only
    ([p_getfrom] is the server, [RECEIVING] is set, the caller leaves its
    ready queue), and [sys_call] returns [OK].  With [FRESH_ANSWER] among
    the flags no pending notification is delivered in place of the
    reply. *)
Theorem sys_call_sendrec_rendezvous (call_nr src_dst m_ptr : Z) (st : kstate)
    (L : Z -> list Z) (lq : list Z) (fuel : nat) :
  let function := Z.land call_nr SYSCALL_FUNC in
  let flags := Z.land call_nr SYSCALL_FLAGS in
  let caller := proc_ptr st in
  let dst := proc_addr src_dst in
  function = SENDREC ->
  SENDREC <> SEND ->
  may_call st function src_dst ->
  endpoint_ok function src_dst ->
  buffer_ok st function m_ptr ->
  may_send st function src_dst ->
  dst_alive st function src_dst ->
  Z.land RECEIVING SENDING = 0 ->
  Z.land flags NON_BLOCKING = 0 ->
  Z.land flags FRESH_ANSWER <> 0 ->
  awaits st dst caller = true ->
  caller <> dst ->
  rdy_queues st L ->
  (Z.land (p_rts_flags (proc_tab st dst)) (Z.lnot RECEIVING) = 0 ->
   forall q, ~ In dst (L q)) ->
  (iskernelp st caller = true -> s_stack_guard (priv_of st caller) = STACK_GUARD) ->
  caller_queue st caller lq ->
  (forall y, In y lq -> accepts st src_dst y = false) ->
  (length lq < fuel)%nat ->
  (S (length (L (p_priority (proc_tab st caller)))) < fuel)%nat ->
  let woken := Z.land (p_rts_flags (proc_tab st dst)) (Z.lnot RECEIVING) =? 0 in
  let runnable := p_rts_flags (proc_tab st caller) =? 0 in
  let L1 := fun q => if woken && (q =? p_priority (proc_tab st dst))
                     then ready_list st dst (L q) else L q in
  exists st',
    sys_call fuel call_nr src_dst m_ptr st = (Done OK st', [])
    /\ umem st' dst (p_messbuf (proc_tab st dst))
       = cp_mess (p_nr (proc_tab st caller)) (umem st caller m_ptr)
    /\ p_rts_flags (proc_tab st' dst)
       = Z.land (p_rts_flags (proc_tab st dst)) (Z.lnot RECEIVING)
    /\ p_rts_flags (proc_tab st' caller)
       = Z.lor (p_rts_flags (proc_tab st caller)) RECEIVING
    /\ p_getfrom (proc_tab st' caller) = src_dst
    /\ p_messbuf (proc_tab st' caller) = m_ptr
    /\ rdy_queues st'
         (fun q => if runnable && (q =? p_priority (proc_tab st caller))
                   then remove Z.eq_dec caller (L1 q) else L1 q)
    /\ priv_tab st' = priv_tab st.
Proof.
  intros function flags caller dst Hf Hss Hc He Hb Hs Ha Hdisj Hnb Hfa Haw Hne HL Hnot
    Hguard Hcq Hacc Hf1 Hf2 woken runnable L1.
  unfold proc_addr in *. subst dst.
  destruct (mini_send_deliver st caller src_dst m_ptr flags L Hdisj Haw HL Hnot)
    as (st1 & Hsend & Hm1 & Hfl1 & HL1 & Hfr1 & Hd1 & Hpr1 & Hpp1 & Hnb1 & Hbm1 & Hum1).
  unfold proc_addr in *. fold woken in HL1. fold L1 in HL1.
  assert (Hfuel : (1 <= fuel)%nat) by lia.
  assert (Hany : forall (A : Type) (f : proc -> A),
             (forall p, f (unlinked p) = f p) ->
             (forall p w, f (set_p_rts_flags w p) = f p) ->
             forall x, f (proc_tab st1 x) = f (proc_tab st x)).
  { intros A f H1 H2 x. destruct (Z.eq_dec x src_dst) as [->|Hx].
    - rewrite <- (H1 (proc_tab st1 src_dst)), <- (H1 (proc_tab st src_dst)).
      rewrite <- (H2 (unlinked (proc_tab st1 src_dst)) 0),
              <- (H2 (unlinked (proc_tab st src_dst)) 0).
      change (f (set_p_rts_flags 0 (unlinked (proc_tab st1 src_dst)))
              = f (set_p_rts_flags 0 (unlinked (proc_tab st src_dst))))
        with (f (unlinked (set_p_rts_flags 0 (proc_tab st1 src_dst)))
              = f (unlinked (set_p_rts_flags 0 (proc_tab st src_dst)))).
      now rewrite Hd1.
    - now apply (proj_field unlinked _ f _ _ (Hfr1 x Hx)). }
  assert (Hc1 : forall (A : Type) (f : proc -> A),
             (forall p, f (unlinked p) = f p) ->
             f (proc_tab st1 caller) = f (proc_tab st caller)).
  { intros A f H1. now apply (proj_field unlinked _ f _ _ (Hfr1 caller Hne)). }
  assert (Hnothing : is_sending st1 caller
                     \/ (no_notification st1 caller src_dst flags []
                         /\ caller_queue st1 caller lq
                         /\ forall y, In y lq -> accepts st1 src_dst y = false)).
  { right. split; [now left|]. split.
    - unfold caller_queue, chain in *. rewrite (Hany _ p_caller_q) by reflexivity.
      apply (lseg_frame (q_link_of st)); [|exact Hcq].
      intros y _. unfold q_link_of. now rewrite (Hany _ p_q_link) by reflexivity.
    - intros y Hy. unfold accepts, proc_nr. rewrite (Hany _ p_nr) by reflexivity.
      now apply Hacc. }
  assert (Hlen : forall q, (length (L1 q) <= S (length (L q)))%nat).
  { intros q. unfold L1. destruct (woken && _); [|lia].
    destruct (L q) as [|a l]; simpl; [lia|].
    destruct (Z.land _ RDY_Q_HEAD =? 0); simpl; [|lia].
    rewrite length_app. simpl. lia. }
  destruct (receive_block_spec st1 caller src_dst m_ptr flags L1 fuel HL1)
    as (st2 & Hr & Hfl2 & Hgf2 & Hmb2 & HL2 & Hfr2 & Hun2 & Hpr2 & Hum2 & _).
  { unfold iskernelp, proc_nr, priv_of, priv_ptr in *.
    rewrite Hpr1, (Hc1 _ p_nr), (Hc1 _ p_priv) by reflexivity. exact Hguard. }
  { rewrite (Hc1 _ p_priority) by reflexivity.
    specialize (Hlen (p_priority (proc_tab st caller))). lia. }
  { exact Hnb. }
  rewrite (Hc1 _ p_rts_flags) in Hfl2, HL2 by reflexivity.
  rewrite (Hc1 _ p_priority) in HL2 by reflexivity.
  exists st2. split.
  { rewrite (sys_call_passes fuel call_nr src_dst m_ptr st Hc He Hb Hs Ha).
    f_equal. unfold sys_call_switch. fold function flags caller.
    rewrite Hf, Z.eqb_refl. cbn [orb]. unfold bind.
    rewrite (Hsend fuel Hfuel). rewrite Z.eqb_refl. cbn [negb].
    rewrite (proj2 (Z.eqb_neq _ _) Hss). cbn [orb].
    now rewrite (mini_receive_nothing st1 caller src_dst m_ptr flags lq [] fuel
                   Hnothing Hf1 ltac:(simpl; lia)). }
  split.
  { rewrite Hum2. exact Hm1. }
  split.
  { rewrite (proj_field unlinked _ p_rts_flags _ _ (Hfr2 src_dst (not_eq_sym Hne)))
      by reflexivity.
    exact Hfl1. }
  split; [exact Hfl2|]. split; [exact Hgf2|]. split; [exact Hmb2|].
  split; [exact HL2|].
  now rewrite Hpr2.
Qed.


End SysCallDispatch.

Section SysCallDispatchExamples.

#[local] Existing Instance Examples.minix.

Lemma sys_call_sendrec_deadlock_witness :
  exists n, forall fuel, (n <= fuel)%nat ->
    sys_call fuel 3 2 0 Examples.st_2_sends_1 = (Done ELOCKED Examples.st_2_sends_1, []).
Proof.
  apply (sys_call_sendrec_deadlock 3 2 0 Examples.st_2_sends_1).
  - reflexivity.
  - split; [discriminate|reflexivity].
  - left. reflexivity.
  - intros _. reflexivity.
  - intros _. split; reflexivity.
  - intros _. reflexivity.
  - discriminate.
  - apply (sending_path_one Examples.st_2_sends_1 2).
    unfold is_sending. vm_compute. discriminate.
Defined.

Lemma sys_call_sendrec_rendezvous_witness :
  exists st',
    sys_call 3 35 3 0 Examples.st_3_receives = (Done OK st', [])
    /\ p_rts_flags (proc_tab st' 3) = 0
    /\ p_rts_flags (proc_tab st' 1) = 8
    /\ p_getfrom (proc_tab st' 1) = 3.
Proof.
  destruct (sys_call_sendrec_rendezvous 35 3 0 Examples.st_3_receives
              Examples.queues_run1 [] 3)
    as (st' & Hr & _ & Hd & Hc & Hg & _).
  - reflexivity.
  - discriminate.
  - split; [discriminate|reflexivity].
  - left. reflexivity.
  - intros _. reflexivity.
  - intros _. split; reflexivity.
  - intros _. reflexivity.
  - reflexivity.
  - reflexivity.
  - discriminate.
  - reflexivity.
  - discriminate.
  - exact st_3_receives_queues.
  - intros _. apply run1_not_queued. discriminate.
  - intros H. discriminate H.
  - reflexivity.
  - intros y [].
  - simpl. lia.
  - simpl. lia.
  - exists st'. split; [exact Hr|]. split; [exact Hd|]. split; [exact Hc|exact Hg].
Defined.


End SysCallDispatchExamples.

(** *** Notifications delivered at once *)

Section NotifyNow.

Context {kp : KernelParams}.

(** The end of the three routines that deliver at once: copy the message,
    clear [RECEIVING], make the destination ready when no flag is left. *)
Lemma deliver_spec (st st_h : kstate) (s : Z) (m : message) (dst buf : Z)
    (L : Z -> list Z) :
  proc_tab st_h = proc_tab st ->
  rdy_head st_h = rdy_head st ->
  rdy_tail st_h = rdy_tail st ->
  (forall i, s_flags (priv_tab st_h i) = s_flags (priv_tab st i)) ->
  rdy_queues st L ->
  let flags' := Z.land (p_rts_flags (proc_tab st dst)) (Z.lnot RECEIVING) in
  (flags' = 0 -> forall q, ~ In dst (L q)) ->
  let st1 := with_proc dst
               (fun p => set_p_rts_flags (Z.land (p_rts_flags p) (Z.lnot RECEIVING)) p)
               (CopyMess s m dst buf st_h) in
  exists st2,
    ((if p_rts_flags (proc_tab st1 dst) =? 0 then ready dst else ret tt) ;;; ret OK) st1
    = Done OK st2
    /\ same_but_queues st1 st2
    /\ p_rts_flags (proc_tab st2 dst) = flags'
    /\ umem st2 dst buf = cp_mess s m
    /\ rdy_queues st2
         (fun q => if (flags' =? 0) && (q =? p_priority (proc_tab st dst))
                   then ready_list st dst (L q) else L q).
Proof.
  intros Hpt Hrh Hrt Hsf HL flags' Hnot st1.
  assert (H1 : forall (A : Type) (f : proc -> A),
             (forall p w, f (set_p_rts_flags w p) = f p) ->
             forall x, f (proc_tab st1 x) = f (proc_tab st x)).
  { intros A f Hf x. unfold st1.
    rewrite with_proc_field by (intros p; apply Hf).
    change (proc_tab (CopyMess s m dst buf st_h)) with (proc_tab st_h).
    now rewrite Hpt. }
  assert (Hf1 : p_rts_flags (proc_tab st1 dst) = flags').
  { unfold st1. rewrite proc_tab_with_proc, Z.eqb_refl.
    change (proc_tab (CopyMess s m dst buf st_h)) with (proc_tab st_h).
    now rewrite Hpt. }
  assert (HL1 : rdy_queues st1 L).
  { unfold st1. apply rdy_queues_with_proc; [reflexivity|].
    destruct HL as [Hq Hd]. split; [|exact Hd].
    intros q. apply (rdy_queue_frame st); [apply Hq| | |].
    - change (rdy_head (CopyMess s m dst buf st_h)) with (rdy_head st_h).
      now rewrite Hrh.
    - change (rdy_tail (CopyMess s m dst buf st_h)) with (rdy_tail st_h).
      now rewrite Hrt.
    - intros y _. unfold nextready_of.
      change (proc_tab (CopyMess s m dst buf st_h)) with (proc_tab st_h).
      now rewrite Hpt. }
  assert (Hum1 : umem st1 dst buf = cp_mess s m).
  { unfold st1. cbn. unfold upd. now rewrite !Z.eqb_refl. }
  rewrite Hf1. destruct (Z.eqb_spec flags' 0) as [E|E].
  - destruct (ready_spec st1 dst L HL1 (Hnot E)) as (st2 & Hr & HL2 & Hfr).
    exists st2. split; [unfold bind; now rewrite Hr|]. split; [exact Hfr|].
    split; [now rewrite (unlinked_field st1 st2 _ p_rts_flags Hfr) by reflexivity|].
    split; [destruct Hfr as (_ & _ & _ & _ & _ & -> & _); exact Hum1|].
    refine (rdy_queues_ext st2 _ _ _ HL2).
    intros q. cbv beta. rewrite (H1 _ p_priority) by reflexivity.
    cbn [andb]. destruct (q =? p_priority (proc_tab st dst)); [|reflexivity].
    unfold ready_list, priv_of, priv_ptr. rewrite (H1 _ p_priv) by reflexivity.
    change (priv_tab st1) with (priv_tab st_h). now rewrite Hsf.
  - exists st1. split; [reflexivity|]. split; [apply same_but_queues_refl|].
    split; [exact Hf1|]. split; [exact Hum1|exact HL1].
Qed.

(** X21.  [mini_notify] to a destination that waits for the caller
    delivers the caller's message at once: it is copied to the
    destination's buffer, stamped with the caller's number, [RECEIVING] is
    cleared and the destination is made ready when no flag is left.  For
    the caller [HARDWARE] the argument is replaced by the destination's
    pending interrupt bits, which are reset.  No record is queued and no
    buffer is taken from the pool, and no pending bit is set. *)
Theorem mini_notify_delivers (st : kstate) (caller dst m_ptr : Z)
    (L : Z -> list Z) (fuel : nat) :
  awaits st (proc_addr dst) caller = true ->
  rdy_queues st L ->
  let dst_ptr := proc_addr dst in
  let flags' := Z.land (p_rts_flags (proc_tab st dst_ptr)) (Z.lnot RECEIVING) in
  (flags' = 0 -> forall q, ~ In dst_ptr (L q)) ->
  let hw := proc_nr st caller =? HARDWARE in
  let m := umem st caller m_ptr in
  let m' := if hw then set_NOTIFY_ARG (s_int_pending (priv_of st dst_ptr)) m else m in
  exists st',
    mini_notify fuel caller dst m_ptr st = Done OK st'
    /\ umem st' dst_ptr (p_messbuf (proc_tab st dst_ptr)) = cp_mess (proc_nr st caller) m'
    /\ p_rts_flags (proc_tab st' dst_ptr) = flags'
    /\ rdy_queues st'
         (fun q => if (flags' =? 0) && (q =? p_priority (proc_tab st dst_ptr))
                   then ready_list st dst_ptr (L q) else L q)
    /\ notify_bitmap st' = notify_bitmap st
    /\ notify_buffer st' = notify_buffer st
    /\ (forall x, p_ntf_q (proc_tab st' x) = p_ntf_q (proc_tab st x))
    /\ (forall x, pending_of st' x = pending_of st x)
    /\ s_int_pending (priv_of st' dst_ptr)
       = (if hw then 0 else s_int_pending (priv_of st dst_ptr)).
Proof.
  intros Haw HL dst_ptr flags' Hnot hw m m'. unfold proc_addr in *. subst dst_ptr.
  unfold mini_notify, proc_addr. rewrite Haw. cbv zeta. fold hw.
  set (st_h := if hw
               then with_priv
                      (priv_ptr
                         (set_umem
                            (upd (umem st) caller
                               (upd (umem st caller) m_ptr
                                  (set_NOTIFY_ARG (s_int_pending (priv_of st dst))
                                     (umem st caller m_ptr)))) st) dst)
                      (set_s_int_pending 0)
                      (set_umem
                         (upd (umem st) caller
                            (upd (umem st caller) m_ptr
                               (set_NOTIFY_ARG (s_int_pending (priv_of st dst))
                                  (umem st caller m_ptr)))) st)
               else st).
  assert (Hh : proc_tab st_h = proc_tab st
               /\ rdy_head st_h = rdy_head st
               /\ rdy_tail st_h = rdy_tail st
               /\ notify_buffer st_h = notify_buffer st
               /\ notify_bitmap st_h = notify_bitmap st
               /\ umem st_h caller m_ptr = m'
               /\ (forall i, s_flags (priv_tab st_h i) = s_flags (priv_tab st i))
               /\ (forall i, s_notify_pending (priv_tab st_h i)
                             = s_notify_pending (priv_tab st i))
               /\ s_int_pending (priv_tab st_h (p_priv (proc_tab st dst)))
                  = (if hw then 0 else s_int_pending (priv_of st dst))).
  { unfold st_h, m'. destruct hw.
    - repeat split; try intros i; cbn; unfold upd, priv_ptr, priv_of; cbn;
        rewrite ?Z.eqb_refl; try reflexivity;
        destruct (Z.eqb_spec i (p_priv (proc_tab st dst))) as [->|]; reflexivity.
    - repeat split. }
  destruct Hh as (Hpt & Hrh & Hrt & Hnb & Hbm & Hmh & Hsf & Hsp & Hip).
  assert (Enr : proc_nr st_h caller = proc_nr st caller)
    by (unfold proc_nr; now rewrite Hpt).
  rewrite Enr, Hmh, Hpt.
  destruct (deliver_spec st st_h (proc_nr st caller) m' dst (p_messbuf (proc_tab st dst)) L
              Hpt Hrh Hrt Hsf HL Hnot)
    as (st2 & Hrun & Hfr & Hfl & Hum & HL2).
  cbv zeta in Hrun. exists st2. split; [exact Hrun|].
  split; [exact Hum|]. split; [exact Hfl|]. split; [exact HL2|].
  pose proof Hfr as (Hp & Hpr & _ & Hnb2 & Hbm2 & _).
  assert (Hproc : forall (A : Type) (f : proc -> A),
             (forall p, f (unlinked p) = f p) ->
             (forall p w, f (set_p_rts_flags w p) = f p) ->
             forall x, f (proc_tab st2 x) = f (proc_tab st x)).
  { intros A f H1 H2 x. rewrite (unlinked_field _ st2 _ f Hfr H1).
    rewrite with_proc_field by (intros p; apply H2).
    change (f (proc_tab st_h x) = f (proc_tab st x)). now rewrite Hpt. }
  split; [now rewrite Hbm2|]. split; [now rewrite Hnb2|].
  split; [intros x; now apply Hproc|].
  split.
  { intros x. unfold pending_of, priv_of, priv_ptr.
    rewrite Hpr, (Hproc _ p_priv) by reflexivity. apply Hsp. }
  unfold priv_of at 1. unfold priv_ptr. rewrite Hpr, (Hproc _ p_priv) by reflexivity.
  exact Hip.
Qed.

(** X22.  [lock_alert] does the same, whatever [k_reenter] says, and an
    alert from [HARDWARE] to a driver that waits for it hands over the
    pending interrupts: the notification delivered has source [HARDWARE],
    its argument is the destination's pending interrupt bits, and these are
    reset.  When the destination does not wait, the bits are kept and only
    the bit of [HARDWARE] is set in the destination's pending map. *)
Theorem lock_alert_interrupt (st : kstate) (k_reenter src dst : Z) (L : Z -> list Z) :
  proc_nr st (proc_addr src) = HARDWARE ->
  rdy_queues st L ->
  let dst_ptr := proc_addr dst in
  let flags' := Z.land (p_rts_flags (proc_tab st dst_ptr)) (Z.lnot RECEIVING) in
  (awaits st dst_ptr (proc_addr src) = true -> flags' = 0 ->
   forall q, ~ In dst_ptr (L q)) ->
  exists st',
    lock_alert k_reenter src dst st = Done OK st'
    /\ (awaits st dst_ptr (proc_addr src) = true ->
        exists m,
          umem st' dst_ptr (p_messbuf (proc_tab st dst_ptr)) = cp_mess HARDWARE m
          /\ m_source m = HARDWARE
          /\ NOTIFY_ARG m = s_int_pending (priv_of st dst_ptr)
          /\ s_int_pending (priv_of st' dst_ptr) = 0
          /\ p_rts_flags (proc_tab st' dst_ptr) = flags'
          /\ pending_of st' dst_ptr = pending_of st dst_ptr)
    /\ (awaits st dst_ptr (proc_addr src) = false ->
        s_int_pending (priv_of st' dst_ptr) = s_int_pending (priv_of st dst_ptr)
        /\ pending_of st' dst_ptr
           = set_sys_bit (pending_of st dst_ptr) (s_id (priv_of st (proc_addr src)))
        /\ proc_tab st' = proc_tab st
        /\ umem st' = umem st).
Proof.
  intros Hhw HL dst_ptr flags' Hnot. unfold proc_addr in *. subst dst_ptr.
  assert (Hk : lock_alert k_reenter src dst st = mini_alert src dst st).
  { unfold lock_alert, proc_addr. destruct (k_reenter >=? 0); reflexivity. }
  rewrite Hk. unfold mini_alert, proc_addr.
  destruct (awaits st dst src) eqn:Haw.
  - unfold BuildMess. rewrite Hhw, Z.eqb_refl.
    set (m := set_NOTIFY_ARG (s_int_pending (priv_of st dst))
                (set_NOTIFY_TIMESTAMP (get_uptime st)
                   (set_m_type (NOTIFY_FROM HARDWARE)
                      (set_m_source HARDWARE uninit_mess)))).
    set (st_h := with_priv (priv_ptr st dst) (set_s_int_pending 0) st).
    assert (Enr : proc_nr st_h src = HARDWARE) by exact Hhw.
    rewrite Enr.
    assert (Hsf : forall i, s_flags (priv_tab st_h i) = s_flags (priv_tab st i)).
    { intros i. unfold st_h. cbn. unfold upd.
      destruct (Z.eqb_spec i (priv_ptr st dst)) as [->|]; reflexivity. }
    destruct (deliver_spec st st_h HARDWARE m dst (p_messbuf (proc_tab st dst)) L
                eq_refl eq_refl eq_refl Hsf HL (Hnot eq_refl))
      as (st2 & Hrun & Hfr & Hfl & Hum & HL2).
    cbv zeta in Hrun. exists st2. split; [exact Hrun|].
    split; [|discriminate]. intros _.
    pose proof Hfr as (Hp & Hpr & _).
    assert (Epriv : p_priv (proc_tab st2 dst) = p_priv (proc_tab st dst)).
    { rewrite (unlinked_field _ st2 _ p_priv Hfr) by reflexivity.
      now rewrite (with_proc_field _ p_priv) by reflexivity. }
    exists m. split; [exact Hum|]. split; [reflexivity|]. split; [reflexivity|].
    split.
    { unfold priv_of, priv_ptr. rewrite Hpr, Epriv. cbn. unfold upd.
      now rewrite Z.eqb_refl. }
    split; [exact Hfl|].
    unfold pending_of, priv_of, priv_ptr. rewrite Hpr, Epriv. cbn. unfold upd.
    now rewrite Z.eqb_refl.
  - eexists. split; [reflexivity|]. split; [discriminate|]. intros _.
    unfold pending_of, priv_of, priv_ptr. cbn. unfold upd. rewrite !Z.eqb_refl.
    repeat split.
Qed.

End NotifyNow.

Section NotifyNowExamples.

#[local] Existing Instance Examples.minix.

Lemma mini_notify_delivers_witness :
  exists st',
    mini_notify 1 1 3 0 Examples.st_3_receives = Done OK st'
    /\ umem st' (proc_addr 3) 0 = cp_mess 1 Examples.mess0
    /\ p_rts_flags (proc_tab st' (proc_addr 3)) = 0
    /\ notify_bitmap st' = notify_bitmap Examples.st_3_receives.
Proof.
  destruct (mini_notify_delivers Examples.st_3_receives 1 3 0 Examples.queues_run1 1)
    as (st' & Hr & Hm & Hf & _ & Hb & _).
  - reflexivity.
  - exact st_3_receives_queues.
  - intros _. apply run1_not_queued. discriminate.
  - exists st'. split; [exact Hr|]. split; [exact Hm|]. split; [exact Hf|exact Hb].
Defined.

Lemma lock_alert_interrupt_witness :
  exists st',
    lock_alert 0 (-1) 3 Examples.st_3_receives = Done OK st'
    /\ exists m,
         umem st' (proc_addr 3) 0 = cp_mess HARDWARE m
         /\ m_source m = HARDWARE.
Proof.
  destruct (lock_alert_interrupt Examples.st_3_receives 0 (-1) 3 Examples.queues_run1)
    as (st' & Hr & Hyes & _).
  - reflexivity.
  - exact st_3_receives_queues.
  - intros _ _. apply run1_not_queued. discriminate.
  - destruct (Hyes eq_refl) as (m & Hm & Hs & _).
    exists st'. split; [exact Hr|]. exists m. split; [exact Hm|exact Hs].
Defined.

End NotifyNowExamples.

(** *** A receive that blocks, then the send that ends it *)

Section ReceiveSend.

Context {kp : KernelParams}.

(** X23.  A receive that has to wait and the send that ends it: process
    [b], runnable, asks for a message from [a] (or from [ANY]) when there is
    nothing to receive; it is blocked.  When [a] then sends to [b], the
    message goes straight into the buffer [b] named, stamped with the
    number of [a]; [b] is runnable again, back on a ready queue (that of
    its maximum priority); [a] is not blocked and not queued, and the
    caller queue of [b] is as it was. *)
Theorem receive_send_round_trip (st : kstate) (a b m_a m_b flags_a flags_b src : Z)
    (L : Z -> list Z) (lq ln : list Z) (fuel : nat) :
  Z.land RECEIVING SENDING = 0 ->
  a <> proc_addr b ->
  p_rts_flags (proc_tab st (proc_addr b)) = 0 ->
  no_notification st (proc_addr b) src flags_b ln ->
  caller_queue st (proc_addr b) lq ->
  (forall y, In y lq -> accepts st src y = false) ->
  Z.land flags_b NON_BLOCKING = 0 ->
  accepts st src a = true ->
  rdy_queues st L ->
  queued_by_priority st L ->
  (iskernelp st (proc_addr b) = true ->
   s_stack_guard (priv_of st (proc_addr b)) = STACK_GUARD) ->
  (length lq < fuel)%nat ->
  (length ln < fuel)%nat ->
  (length (L (p_priority (proc_tab st (proc_addr b)))) < fuel)%nat ->
  let qmax := p_max_priority (proc_tab st (proc_addr b)) in
  exists st2,
    (mini_receive fuel (proc_addr b) src m_b flags_b ;;;
     mini_send fuel a b m_a flags_a) st = Done OK st2
    /\ umem st2 (proc_addr b) m_b = cp_mess (p_nr (proc_tab st a)) (umem st a m_a)
    /\ p_rts_flags (proc_tab st2 (proc_addr b)) = 0
    /\ rdy_queues st2
         (fun q => if q =? qmax
                   then ready_list st (proc_addr b) (remove Z.eq_dec (proc_addr b) (L q))
                   else remove Z.eq_dec (proc_addr b) (L q))
    /\ unlinked (proc_tab st2 a) = unlinked (proc_tab st a)
    /\ caller_queue st2 (proc_addr b) lq.
Proof.
  intros Hdisj Hne Hrun Hquiet Hcq Hacc Hnb Ha HL Hprio Hguard Hf1 Hf2 Hf3 qmax.
  unfold proc_addr in *.
  destruct (receive_block_spec st b src m_b flags_b L fuel HL Hguard Hf3 Hnb)
    as (st1 & Hr & Hfl1 & Hgf1 & Hmb1 & HL1 & Hfr1 & Hun1 & Hpr1 & Hum1 & _ & _ & _ & Hp1).
  rewrite Hrun in Hfl1, HL1, Hp1. cbn [Z.eqb andb Z.lor] in Hfl1, HL1, Hp1.
  specialize (Hp1 eq_refl).
  assert (H1 : forall (A : Type) (f : proc -> A),
             (forall p, f (unlinked p) = f p) ->
             (forall p, f (unreceived p) = f p) ->
             forall x, f (proc_tab st1 x) = f (proc_tab st x)).
  { intros A f Hu Hv x. destruct (Z.eq_dec x b) as [->|Hx].
    - now apply (proj_field unreceived _ f _ _ Hun1).
    - now apply (proj_field unlinked _ f _ _ (Hfr1 x Hx)). }
  assert (Haw1 : awaits st1 b a = true).
  { unfold awaits. rewrite Hfl1, Hgf1, land_lor_absorb, Z.eqb_refl.
    rewrite (H1 _ p_nr) by reflexivity. exact Ha. }
  assert (HL1' : rdy_queues st1 (fun q => remove Z.eq_dec b (L q))).
  { refine (rdy_queues_ext st1 _ _ _ HL1). intros q. cbv beta.
    destruct (Z.eqb_spec q (p_priority (proc_tab st b))) as [->|Hq]; [reflexivity|].
    symmetry. apply notin_remove. intros Hi. apply Hq. symmetry. now apply Hprio. }
  destruct (mini_send_deliver st1 a b m_a flags_a _ Hdisj Haw1 HL1')
    as (st2 & Hsend & Hm2 & Hfl2 & HL2 & Hfr2 & Hd2 & _).
  { intros _ q. apply remove_In. }
  unfold proc_addr in *.
  rewrite Hfl1, Z.land_lnot_diag in Hfl2, HL2. cbn [Z.eqb andb] in HL2.
  assert (H2 : forall (A : Type) (f : proc -> A),
             (forall p, f (unlinked p) = f p) ->
             (forall p w, f (set_p_rts_flags w p) = f p) ->
             forall x, f (proc_tab st2 x) = f (proc_tab st1 x)).
  { intros A f Hu Hv x. destruct (Z.eq_dec x b) as [->|Hx].
    - rewrite <- (Hu (proc_tab st2 b)), <- (Hu (proc_tab st1 b)).
      rewrite <- (Hv (unlinked (proc_tab st2 b)) 0), <- (Hv (unlinked (proc_tab st1 b)) 0).
      change (f (unlinked (set_p_rts_flags 0 (proc_tab st2 b)))
              = f (unlinked (set_p_rts_flags 0 (proc_tab st1 b)))).
      now rewrite Hd2.
    - now apply (proj_field unlinked _ f _ _ (Hfr2 x Hx)). }
  exists st2. split; [|split; [|split; [|split; [|split]]]].
  - unfold bind.
    rewrite (mini_receive_nothing st b src m_b flags_b lq ln fuel); [|right; auto| |];
      try assumption.
    rewrite Hr. apply Hsend. lia.
  - rewrite Hmb1 in Hm2. rewrite Hm2, Hum1. now rewrite (H1 _ p_nr) by reflexivity.
  - exact Hfl2.
  - refine (rdy_queues_ext st2 _ _ _ HL2).
    intros q. cbv beta. rewrite Hp1. fold qmax.
    destruct (q =? qmax); [|reflexivity].
    unfold ready_list, priv_of, priv_ptr.
    now rewrite Hpr1, (H1 _ p_priv) by reflexivity.
  - rewrite (Hfr2 a Hne). now apply Hfr1.
  - unfold caller_queue, chain in *.
    rewrite (H2 _ p_caller_q), (H1 _ p_caller_q) by reflexivity.
    apply (lseg_frame (q_link_of st)); [|exact Hcq].
    intros y _. unfold q_link_of.
    now rewrite (H2 _ p_q_link), (H1 _ p_q_link) by reflexivity.
Qed.

End ReceiveSend.

Section ReceiveSendExamples.

#[local] Existing Instance Examples.minix.

Lemma receive_send_round_trip_witness :
  exists st2,
    (mini_receive 2 (proc_addr 1) 2 9 0 ;;; mini_send 2 2 1 7 0) Examples.st_run1
    = Done OK st2
    /\ umem st2 (proc_addr 1) 9 = cp_mess 2 Examples.mess0
    /\ p_rts_flags (proc_tab st2 (proc_addr 1)) = 0.
Proof.
  destruct (receive_send_round_trip Examples.st_run1 2 1 7 9 0 0 2
              Examples.queues_run1 [] [] 2)
    as (st2 & Hr & Hm & Hf & _).
  - reflexivity.
  - discriminate.
  - reflexivity.
  - right. split; [exact none_pending_empty|]. split; [reflexivity|intros np []].
  - reflexivity.
  - intros y [].
  - reflexivity.
  - reflexivity.
  - exact st_run1_queues.
  - exact st_run1_by_priority.
  - intros H. discriminate H.
  - simpl. lia.
  - simpl. lia.
  - simpl. lia.
  - exists st2. split; [exact Hr|]. split; [exact Hm|exact Hf].
Defined.

End ReceiveSendExamples.

(** *** Who is billed *)

Section Billing.

Context {kp : KernelParams}.

Lemma bills_billable_frame (st st' : kstate) :
  bill_ptr st' = bill_ptr st ->
  priv_tab st' = priv_tab st ->
  (forall x, p_priv (proc_tab st' x) = p_priv (proc_tab st x)) ->
  bills_billable st -> bills_billable st'.
Proof.
  intros Hb Hp Hq H b Hbp. unfold priv_of, priv_ptr. rewrite Hp, Hq.
  apply H. now rewrite <- Hb.
Qed.

Ltac same_bill :=
  match goal with
  | H : bills_billable ?s |- bills_billable _ =>
      apply (bills_billable_frame s); [reflexivity|reflexivity| |exact H];
      intro; cbn; unfold upd; rewrite ?Z.eqb_refl;
      repeat (match goal with
              | |- context [?a =? ?b] => destruct (Z.eqb_spec a b) as [->|]
              end; rewrite ?Z.eqb_refl);
      reflexivity
  end.

Lemma pick_proc_billable (st : kstate) :
  bills_billable st -> bills_billable (pick_proc st).
Proof.
  intros H. unfold pick_proc. now apply pick_loop_billable.
Qed.

Lemma ready_billable (rp : Z) (st st' : kstate) :
  ready rp st = Done tt st' -> bills_billable st -> bills_billable st'.
Proof.
  unfold ready. intros H Hb.
  destruct (rdy_head st (p_priority (proc_tab st rp)));
    [destruct (negb _); [|destruct (rdy_tail st (p_priority (proc_tab st rp)));
                           [|discriminate]]|];
    injection H as <-; apply pick_proc_billable; same_bill.
Qed.

Lemma unready_loop_billable (fuel : nat) :
  forall rp q xpp prev st st',
    unready_loop fuel rp q xpp prev st = Done tt st' ->
    bills_billable st -> bills_billable st'.
Proof.
  induction fuel as [|fuel IH]; intros rp q xpp prev st st' H Hb;
    cbn [unready_loop] in H; [discriminate|].
  destruct (load_rdy st xpp) as [x|]; [|injection H as <-; exact Hb].
  destruct (x =? rp); [|now apply (IH _ _ _ _ _ _ H)].
  injection H as <-.
  assert (Ha : bills_billable (store_rdy xpp (p_nextready (proc_tab st x)) st)).
  { destruct xpp as [q'|t]; cbn [store_rdy]; same_bill. }
  match goal with
  | |- bills_billable (if ?c then pick_proc ?s else _) =>
      assert (Hs : bills_billable s);
      [|destruct c; [now apply pick_proc_billable|exact Hs]]
  end.
  match goal with
  | |- bills_billable (if ?c then _ else _) => destruct c
  end; [|exact Ha].
  apply (bills_billable_frame _ _ eq_refl eq_refl (fun _ => eq_refl) Ha).
Qed.

Lemma unready_billable (fuel : nat) (rp : Z) (st st' : kstate) :
  unready fuel rp st = Done tt st' -> bills_billable st -> bills_billable st'.
Proof.
  unfold unready. destruct (iskernelp st rp && _); [discriminate|].
  unfold bind.
  destruct (unready_loop fuel rp _ _ None st) as [[] st1| | |] eqn:E; try discriminate.
  intros H Hb. injection H as <-.
  pose proof (unready_loop_billable _ _ _ _ _ _ _ E Hb) as H1.
  same_bill.
Qed.

Lemma sched_rotate_billable (sp : Z) (st st' : kstate) :
  sched_rotate sp st = Done tt st' -> bills_billable st -> bills_billable st'.
Proof.
  unfold sched_rotate. intros H Hb.
  destruct (opt_eqb _ _); [|injection H as <-; exact Hb].
  destruct (rdy_tail st (p_priority (proc_tab st sp))) as [t|]; [|discriminate].
  cbv zeta in H.
  repeat match type of H with
         | match ?c with Some _ => _ | None => _ end = _ =>
             destruct c; [|discriminate]
         end.
  injection H as <-. same_bill.
Qed.

Lemma sched_demote_billable (fuel : nat) (sp : Z) (st st' : kstate) :
  sched_demote fuel sp st = Done tt st' -> bills_billable st -> bills_billable st'.
Proof.
  unfold sched_demote. intros H Hb. cbv zeta in H.
  set (st0 := with_proc sp (fun p => set_p_full_quantums (p_full_quantums p - 1) p) st)
    in *.
  assert (H0 : bills_billable st0) by (unfold st0; same_bill).
  destruct (p_full_quantums (proc_tab st0 sp) <=? 0); [|injection H as <-; exact H0].
  unfold bind in H.
  destruct (p_priority (proc_tab st0 sp) + 1 <? IDLE_Q).
  - destruct (unready fuel sp st0) as [[] st1| | |] eqn:Eu; try discriminate.
    pose proof (unready_billable _ _ _ _ Eu H0) as H1.
    destruct (ready sp _) as [[] st2| | |] eqn:Er; try discriminate.
    assert (H2 : bills_billable st2).
    { apply (ready_billable _ _ _ Er). same_bill. }
    injection H as <-. same_bill.
  - unfold ret in H. injection H as <-. same_bill.
Qed.

Lemma sched_billable (fuel : nat) (sp : Z) (st st' : kstate) :
  sched fuel sp st = Done tt st' -> bills_billable st -> bills_billable st'.
Proof.
  unfold sched. intros H Hb.
  destruct (Z.land _ PREEMPTIBLE =? 0); [injection H as <-; exact Hb|].
  unfold bind in H.
  destruct (sched_demote fuel sp st) as [[] st1| | |] eqn:Ed; try discriminate.
  pose proof (sched_demote_billable _ _ _ _ Ed Hb) as H1.
  destruct (sched_rotate sp st1) as [[] st2| | |] eqn:Er; try discriminate.
  pose proof (sched_rotate_billable _ _ _ Er H1) as H2.
  injection H as <-. apply pick_proc_billable. same_bill.
Qed.

(** X24.  The scheduling routines keep [bill_ptr] on a [BILLABLE]
    process: when it names a billable process (or none) before
    [lock_ready], [lock_unready] or [lock_sched], it does so after the call.
    Only [pick_proc] writes the pointer, and it writes a billable process;
    no routine changes a privilege structure or the privilege pointer of a
    slot. *)
Theorem scheduling_bills_billable (st : kstate) (sp : Z) (fuel : nat) :
  bills_billable st ->
  (forall st', lock_ready sp st = Done tt st' -> bills_billable st')
  /\ (forall st', lock_unready fuel sp st = Done tt st' -> bills_billable st')
  /\ (forall st', lock_sched fuel sp st = Done tt st' -> bills_billable st').
Proof.
  intros Hb. split; [|split]; intros st' H.
  - now apply (ready_billable sp st).
  - now apply (unready_billable fuel sp st).
  - now apply (sched_billable fuel sp st).
Qed.

End Billing.

Section BillingExamples.

#[local] Existing Instance Examples.minix.

Lemma scheduling_bills_billable_witness :
  match lock_sched 2 1 Examples.st_run1 with
  | Done _ st' => bills_billable st'
  | _ => False
  end.
Proof.
  destruct (scheduling_bills_billable Examples.st_run1 1 2) as (_ & _ & Hs).
  - intros b Hb. cbn in Hb. injection Hb as <-. discriminate.
  - destruct (lock_sched 2 1 Examples.st_run1) as [[] st'| | |] eqn:E;
      try (vm_compute in E; discriminate E).
    now apply Hs.
Defined.

End BillingExamples.
